(** * TACA: demultiplexing classification, base masks and result aggregation

    A shallow embedding of the parts of [taca/illumina/Standard_Runs.py] and
    [taca/illumina/Runs.py] that classify samplesheet rows, compute BCL base
    masks, partition samples into sub-demultiplexings and aggregate their
    reports and statistics. *)

From Stdlib Require Import Strings.String Strings.Ascii ZArith List Bool Lia Arith Permutation.
Import ListNotations.

(** ** Python runtime: exceptions, [str()] of integers, [re.findall(r'\d+')] *)
Module Py.

Inductive exc := RuntimeError | KeyError | IndexError | ValueError | UnboundLocalError | AttributeError.

(** A computation that returns normally or raises. *)
Inductive result (A : Type) : Type :=
| Ok (a : A)
| Raise (e : exc).
Arguments Ok {A} a.
Arguments Raise {A} e.

Definition bind {A B} (m : result A) (f : A -> result B) : result B :=
  match m with Ok a => f a | Raise e => Raise e end.

Fixpoint map_result {A B} (f : A -> result B) (l : list A) : result (list B) :=
  match l with
  | [] => Ok []
  | x :: l' =>
      match f x with
      | Ok y => match map_result f l' with Ok ys => Ok (y :: ys) | Raise e => Raise e end
      | Raise e => Raise e
      end
  end.

Definition digit_char (d : nat) : ascii := ascii_of_nat (48 + d).

Fixpoint str_nat_fuel (fuel n : nat) : string :=
  match fuel with
  | O => EmptyString
  | S f =>
      if Nat.ltb n 10 then String (digit_char n) EmptyString
      else append (str_nat_fuel f (n / 10)) (String (digit_char (n mod 10)) EmptyString)
  end.

(** [str(n)] for a non-negative Python int. *)
Definition str_nat (n : nat) : string := str_nat_fuel (S n) n.

(** [\d] on ASCII text. *)
Definition is_digit (c : ascii) : bool :=
  let k := nat_of_ascii c in Nat.leb 48 k && Nat.leb k 57.

Definition digit_val (c : ascii) : nat := nat_of_ascii c - 48.

Fixpoint digit_runs_aux (s : string) (cur : nat) : nat :=
  match s with
  | EmptyString => cur
  | String c s' =>
      if is_digit c then digit_runs_aux s' (10 * cur + digit_val c)
      else cur + digit_runs_aux s' 0
  end.

(** [sum(int(n) for n in re.findall(r'\d+', s))] *)
Definition digit_runs_sum (s : string) : nat := digit_runs_aux s 0.

End Py.

Import Py.

(** ** [Standard_Run._compute_base_mask] *)
Module BaseMask.

(** One entry of [runinfo.get_read_configuration()]. *)
Record read := mkRead {
  Number : nat;
  NumCycles : nat;
  IsIndexedRead : string
}.

Inductive software := bcl2fastq | bclconvert | other_software.

Inductive sample_type :=
| ordinary | short_single_index | TenX_SINGLE | TenX_DUAL | SMARTSEQ | IDT_UMI | NOINDEX.

Definition sample_type_eqb (a b : sample_type) : bool :=
  match a, b with
  | ordinary, ordinary | short_single_index, short_single_index
  | TenX_SINGLE, TenX_SINGLE | TenX_DUAL, TenX_DUAL | SMARTSEQ, SMARTSEQ
  | IDT_UMI, IDT_UMI | NOINDEX, NOINDEX => true
  | _, _ => false
  end.

(** Mask of an index read once [index_size <= cycles] is known; the body of
    the first-index branch, repeated verbatim for the second index read. *)
Definition index_read_token (sw : software) (st : sample_type)
    (index_size umi_size cycles : nat) : result string :=
  let i_remainder := cycles - index_size in
  if Nat.ltb 0 i_remainder then
    if sample_type_eqb st IDT_UMI then
      if negb (Nat.eqb umi_size 0) then
        if Nat.ltb umi_size i_remainder then
          match sw with
          | bcl2fastq => Ok ("I" ++ str_nat index_size ++ "Y" ++ str_nat umi_size
                              ++ "N" ++ str_nat (i_remainder - umi_size))%string
          | bclconvert => Ok ("I" ++ str_nat index_size ++ "U" ++ str_nat umi_size
                               ++ "N" ++ str_nat (i_remainder - umi_size))%string
          | other_software => Raise RuntimeError
          end
        else if Nat.eqb i_remainder umi_size then
          match sw with
          | bcl2fastq => Ok ("I" ++ str_nat index_size ++ "Y" ++ str_nat umi_size)%string
          | bclconvert => Ok ("I" ++ str_nat index_size ++ "U" ++ str_nat umi_size)%string
          | other_software => Raise RuntimeError
          end
        else Raise RuntimeError
      else Ok ("I" ++ str_nat index_size ++ "N" ++ str_nat i_remainder)%string
    else if Nat.eqb index_size 0 then Ok ("N" ++ str_nat cycles)%string
    else Ok ("I" ++ str_nat index_size ++ "N" ++ str_nat i_remainder)%string
  else Ok ("I" ++ str_nat cycles)%string.

(** Mask of a data read. *)
Definition data_read_token (read_size cycles : nat) : string :=
  if Nat.ltb read_size cycles then
    let r_remainder := cycles - read_size in
    if negb (Nat.eqb read_size 0) then
      ("Y" ++ str_nat read_size ++ "N" ++ str_nat r_remainder)%string
    else ("N" ++ str_nat cycles)%string
  else ("Y" ++ str_nat cycles)%string.

(** The body of the loop [for read in runSetup]. *)
Definition read_token (sw : software) (st : sample_type) (index1_size : nat)
    (is_dual_index : bool) (index2_size umi1_size umi2_size read1_size read2_size : nat)
    (r : read) : result string :=
  let cycles := NumCycles r in
  if String.eqb (IsIndexedRead r) "N" then
    if Nat.eqb (Number r) 1 then Ok (data_read_token read1_size cycles)
    else Ok (data_read_token read2_size cycles)
  else if Nat.eqb (Number r) 2 then
    if Nat.ltb cycles index1_size then Raise RuntimeError
    else index_read_token sw st index1_size umi1_size cycles
  else if Nat.ltb cycles index2_size then Raise RuntimeError
  else if is_dual_index || sample_type_eqb st TenX_SINGLE then
    if sample_type_eqb st TenX_SINGLE then
      match sw with
      | bcl2fastq => Ok ("Y" ++ str_nat cycles)%string
      | bclconvert => Ok ("U" ++ str_nat cycles)%string
      | other_software => Raise RuntimeError
      end
    else index_read_token sw st index2_size umi2_size cycles
  else Ok ("N" ++ str_nat cycles)%string.

Definition compute_base_mask (sw : software) (runSetup : list read) (st : sample_type)
    (index1_size : nat) (is_dual_index : bool)
    (index2_size umi1_size umi2_size read1_size read2_size : nat) : result (list string) :=
  if Nat.ltb 4 (length runSetup) then Raise RuntimeError
  else map_result (read_token sw st index1_size is_dual_index index2_size
                     umi1_size umi2_size read1_size read2_size) runSetup.



End BaseMask.

(** ** String operations of [str] used by the classifier *)
Module PyStr.
Import Py.

Definition ascii_upper (c : ascii) : ascii :=
  let k := nat_of_ascii c in
  if Nat.leb 97 k && Nat.leb k 122 then ascii_of_nat (k - 32) else c.

(** [s.upper()] on ASCII text. *)
Fixpoint upper (s : string) : string :=
  match s with
  | EmptyString => EmptyString
  | String c s' => String (ascii_upper c) (upper s')
  end.

(** [s.replace(c, "")] for a one-character [c]. *)
Fixpoint remove_char (c : ascii) (s : string) : string :=
  match s with
  | EmptyString => EmptyString
  | String d s' => if Ascii.eqb d c then remove_char c s' else String d (remove_char c s')
  end.

(** [s.count(c)] for a one-character [c]. *)
Fixpoint count_char (c : ascii) (s : string) : nat :=
  match s with
  | EmptyString => 0
  | String d s' => (if Ascii.eqb d c then 1 else 0) + count_char c s'
  end.

(** [s.split(c)] for a one-character separator [c]. *)
Fixpoint split_char (c : ascii) (s : string) : list string :=
  match s with
  | EmptyString => [EmptyString]
  | String d s' =>
      if Ascii.eqb d c then EmptyString :: split_char c s'
      else match split_char c s' with
           | [] => [String d EmptyString]
           | w :: ws => String d w :: ws
           end
  end.

(** [l[i]] *)
Definition nth_py {A} (l : list A) (i : nat) : result A :=
  match nth_error l i with Some x => Ok x | None => Raise IndexError end.

(** [re.search(p, s) is not None] for a pattern recognised by [here] at some position. *)
Fixpoint search (here : string -> bool) (s : string) : bool :=
  here s || match s with EmptyString => false | String _ s' => search here s' end.

Definition in_range (lo hi : ascii) (c : ascii) : bool :=
  Nat.leb (nat_of_ascii lo) (nat_of_ascii c) && Nat.leb (nat_of_ascii c) (nat_of_ascii hi).

Definition is_char (c : ascii) (d : ascii) : bool := Ascii.eqb d c.

(** Python whitespace accepted around the argument of [int()] (ASCII part). *)
Definition is_py_space (c : ascii) : bool :=
  let k := nat_of_ascii c in Nat.eqb k 32 || (Nat.leb 9 k && Nat.leb k 13).

Fixpoint lstrip (s : string) : string :=
  match s with
  | String c s' => if is_py_space c then lstrip s' else s
  | EmptyString => EmptyString
  end.

Definition rev_string (s : string) : string := string_of_list_ascii (rev (list_ascii_of_string s)).

Definition strip (s : string) : string := rev_string (lstrip (rev_string (lstrip s))).

(** Digits with single underscores between them, as accepted by [int()]. *)
Fixpoint py_digits (s : string) (acc : Z) (after_digit : bool) : option Z :=
  match s with
  | EmptyString => if after_digit then Some acc else None
  | String c s' =>
      if is_digit c then py_digits s' (10 * acc + Z.of_nat (digit_val c))%Z true
      else if Ascii.eqb c "_"%char && after_digit then
        match s' with
        | String d _ => if is_digit d then py_digits s' acc false else None
        | EmptyString => None
        end
      else None
  end.

(** [int(s)] on ASCII text; [None] is a [ValueError]. *)
Definition py_int (s : string) : option Z :=
  match strip s with
  | String c s' =>
      if Ascii.eqb c "+"%char then py_digits s' 0 false
      else if Ascii.eqb c "-"%char then option_map Z.opp (py_digits s' 0 false)
      else py_digits (String c s') 0 false
  | EmptyString => None
  end.

End PyStr.

(** ** [Standard_Run._classify_samples] *)
Module Classify.
Import Py PyStr BaseMask.

(** [TENX_SINGLE_PAT = "SI-(?:GA|NA)-[A-H][1-9][0-2]?"]: a match exists iff
    the mandatory prefix occurs. *)
Definition tenx_single_here (s : string) : bool :=
  match s with
  | String s1 (String i (String d1 (String x (String a (String d2 (String r (String n _))))))) =>
      is_char "S" s1 && is_char "I" i && is_char "-" d1 &&
      (is_char "G" x || is_char "N" x) && is_char "A" a && is_char "-" d2 &&
      in_range "A" "H" r && in_range "1" "9" n
  | _ => false
  end.

(** [TENX_DUAL_PAT = "SI-(?:TT|NT|NN|TN|TS)-[A-H][1-9][0-2]?"] *)
Definition tenx_dual_here (s : string) : bool :=
  match s with
  | String s1 (String i (String d1 (String x (String y (String d2 (String r (String n _))))))) =>
      is_char "S" s1 && is_char "I" i && is_char "-" d1 &&
      ((is_char "T" x && is_char "T" y) || (is_char "N" x && is_char "T" y) ||
       (is_char "N" x && is_char "N" y) || (is_char "T" x && is_char "N" y) ||
       (is_char "T" x && is_char "S" y)) &&
      is_char "-" d2 && in_range "A" "H" r && in_range "1" "9" n
  | _ => false
  end.

(** [SMARTSEQ_PAT = "SMARTSEQ[1-9]?-[1-9][0-9]?[A-P]"] *)
Definition smartseq_tail (s : string) : bool :=
  match s with
  | String d (String n rest) =>
      is_char "-" d && in_range "1" "9" n &&
      match rest with
      | String c rest' =>
          in_range "A" "P" c ||
          (in_range "0" "9" c &&
           match rest' with String c' _ => in_range "A" "P" c' | EmptyString => false end)
      | EmptyString => false
      end
  | _ => false
  end.

Definition smartseq_here (s : string) : bool :=
  if String.prefix "SMARTSEQ" s then
    let r := substring 8 (String.length s - 8) s in
    smartseq_tail r ||
    match r with String c r' => in_range "1" "9" c && smartseq_tail r' | EmptyString => false end
  else false.

Definition is_ATCG (c : ascii) : bool :=
  is_char "A" c || is_char "T" c || is_char "C" c || is_char "G" c.

Fixpoint count_leading (p : ascii -> bool) (l : list ascii) : nat :=
  match l with
  | c :: l' => if p c then S (count_leading p l') else 0
  | [] => 0
  end.

(** [t] ends with [ATCG]{4,}N+ *)
Definition umi_at_end (t : string) : bool :=
  let r := rev (list_ascii_of_string t) in
  let k := count_leading (is_char "N") r in
  Nat.leb 1 k && Nat.leb 4 (count_leading is_ATCG (skipn k r)).

(** [IDT_UMI_PAT = "([ATCG]{4,}N+$)"]; [$] also matches before a final newline. *)
Definition idt_umi_match (s : string) : bool :=
  umi_at_end s ||
  match rev (list_ascii_of_string s) with
  | c :: r => is_char "010"%char c && umi_at_end (string_of_list_ascii (rev r))
  | [] => false
  end.

(** [RECIPE_PAT = "[0-9]+-[0-9]+"] *)
Definition recipe_here (s : string) : bool :=
  match s with
  | String a (String d (String b _)) => is_digit a && is_char "-" d && is_digit b
  | _ => false
  end.

(** A samplesheet row, restricted to the fields the classifier reads;
    absent fields are [None]. *)
Record ss_row := mkRow {
  Lane : string;
  Sample_Name : string;
  index : option string;
  index2 : option string;
  Recipe : option string
}.

(** [dict] lookups: the 10X table maps a name to its barcodes, the Smart-seq
    table maps a name to its (index, index2) pairs. *)
Fixpoint dict_get {V} (d : list (string * V)) (k : string) : option V :=
  match d with
  | [] => None
  | (k', v) :: d' => if String.eqb k k' then Some v else dict_get d' k
  end.

Definition dict_index {V} (d : list (string * V)) (k : string) : result V :=
  match dict_get d k with Some v => Ok v | None => Raise KeyError end.

Record classification := mkClass {
  sample_type_of : sample_type;
  index_length : nat * nat;
  umi_length : nat * nat;
  read_length : Z * Z
}.

(** [index_cycles] and [read_cycles] computed from [runSetup]. *)
Definition cycles_of_setup (runSetup : list read) : (nat * nat) * (Z * Z) :=
  fold_left (fun '((ic, rc) : (nat * nat) * (Z * Z)) r =>
    if String.eqb (IsIndexedRead r) "Y" then
      if Nat.eqb (Number r) 2 then ((NumCycles r, snd ic), rc) else ((fst ic, NumCycles r), rc)
    else if String.eqb (IsIndexedRead r) "N" then
      if Nat.eqb (Number r) 1 then (ic, (Z.of_nat (NumCycles r), snd rc))
      else (ic, (fst rc, Z.of_nat (NumCycles r)))
    else (ic, rc)) runSetup ((0, 0), (0%Z, 0%Z)).

Definition py_int_r (s : string) : result Z :=
  match py_int s with Some z => Ok z | None => Raise ValueError end.

(** [read_length] of a row: the run's read cycles, shortened by [Recipe]. *)
Definition row_read_length (read_cycles : Z * Z) (row : ss_row) : result (Z * Z) :=
  match Recipe row with
  | Some rcp =>
      if negb (String.eqb rcp "") && search recipe_here rcp then
        match split_char "-" rcp with
        | p0 :: p1 :: _ =>
            bind (py_int_r p0) (fun a => bind (py_int_r p1) (fun b =>
            if Z.eqb a 0 && Z.eqb b 0 then Ok read_cycles
            else Ok (Z.min a (fst read_cycles), Z.min b (snd read_cycles))))
        | _ => Raise IndexError
        end
      else Ok read_cycles
  | None => Ok read_cycles
  end.

Definition pair_eqb (a b : nat * nat) : bool := Nat.eqb (fst a) (fst b) && Nat.eqb (snd a) (snd b).

(** [if not sample.get("index"): sample["index"] = ""] *)
Definition row_index (row : ss_row) : string :=
  match index row with Some s => s | None => EmptyString end.

Definition row_index2 (row : ss_row) : string :=
  match index2 row with Some s => s | None => EmptyString end.

(** The type decision of one row, in the source's order. *)
Definition classify_sample (tenx : list (string * list string))
    (smartseq : list (string * list (string * string)))
    (index_cycles : nat * nat) (read_cycles : Z * Z) (row : ss_row) : result classification :=
  let idx := row_index row in
  let idx2 := row_index2 row in
  bind (row_read_length read_cycles row) (fun read_length =>
  if search tenx_single_here idx then
    bind (dict_index tenx idx) (fun bcs => bind (nth_py bcs 0) (fun b0 =>
    Ok (mkClass TenX_SINGLE (String.length b0, 0) (0, 0) read_length)))
  else if search tenx_dual_here idx then
    bind (dict_index tenx idx) (fun bcs => bind (nth_py bcs 0) (fun b0 =>
    bind (nth_py bcs 1) (fun b1 =>
    Ok (mkClass TenX_DUAL (String.length b0, String.length b1) (0, 0) read_length))))
  else if idt_umi_match idx || idt_umi_match idx2 then
    Ok (mkClass IDT_UMI
          (String.length (remove_char "N" idx), String.length (remove_char "N" idx2))
          (count_char "N" (upper idx), count_char "N" (upper idx2)) read_length)
  else if search smartseq_here idx then
    bind (nth_py (split_char "-" idx) 1) (fun smartseq_index =>
    bind (dict_index smartseq smartseq_index) (fun pairs => bind (nth_py pairs 0) (fun p =>
    Ok (mkClass SMARTSEQ (String.length (fst p), String.length (snd p)) (0, 0) read_length))))
  else if String.eqb (upper idx) "NOINDEX" && negb (pair_eqb index_cycles (0, 0)) then
    Ok (mkClass NOINDEX index_cycles (0, 0) read_length)
  else if String.eqb (upper idx) "NOINDEX" && pair_eqb index_cycles (0, 0) then
    Ok (mkClass ordinary (0, 0) (0, 0) read_length)
  else
    let il := (String.length idx, String.length idx2) in
    if (Nat.leb (fst il) 8 && Nat.eqb (snd il) 0) || (Nat.eqb (fst il) 0 && Nat.leb (snd il) 8)
    then Ok (mkClass short_single_index il (0, 0) read_length)
    else Ok (mkClass ordinary il (0, 0) read_length)).

(** The precedence stated for the classifier, as an ordered list of guards:
    10X single, 10X dual, UMI, Smart-seq, NOINDEX with index cycles, NOINDEX
    without index cycles, short single index, ordinary. *)
Definition claimed_guards (index_cycles : nat * nat) (idx idx2 : string) : list bool :=
  [ search tenx_single_here idx;
    search tenx_dual_here idx;
    idt_umi_match idx || idt_umi_match idx2;
    search smartseq_here idx;
    String.eqb (upper idx) "NOINDEX" && negb (pair_eqb index_cycles (0, 0));
    String.eqb (upper idx) "NOINDEX" && pair_eqb index_cycles (0, 0);
    (Nat.leb (String.length idx) 8 && Nat.eqb (String.length idx2) 0)
      || (Nat.eqb (String.length idx) 0 && Nat.leb (String.length idx2) 8);
    true ].

Definition claimed_types : list sample_type :=
  [TenX_SINGLE; TenX_DUAL; IDT_UMI; SMARTSEQ; NOINDEX; ordinary; short_single_index; ordinary].

(** Position of the first guard that holds. *)
Fixpoint first_true (l : list bool) : nat :=
  match l with
  | [] => 0
  | b :: l' => if b then 0 else S (first_true l')
  end.

(** [_classify_samples]: the sample table, lanes in first-seen order. *)
Fixpoint add_to_lane (lane : string) (entry : string * classification)
    (tbl : list (string * list (string * classification))) :=
  match tbl with
  | [] => [(lane, [entry])]
  | (l, es) :: tbl' =>
      if String.eqb l lane then (l, es ++ [entry]) :: tbl' else (l, es) :: add_to_lane lane entry tbl'
  end.

Definition classify_samples (tenx : list (string * list string))
    (smartseq : list (string * list (string * string)))
    (runSetup : list read) (rows : list ss_row)
    : result (list (string * list (string * classification))) :=
  let '(index_cycles, read_cycles) := cycles_of_setup runSetup in
  fold_left (fun acc row =>
    bind acc (fun tbl => bind (classify_sample tenx smartseq index_cycles read_cycles row) (fun c =>
    Ok (add_to_lane (Lane row) (Sample_Name row, c) tbl)))) rows (Ok []).

End Classify.

(** ** [Standard_Run.demultiplex_run]: how many sub-demultiplexings are created *)
Module Partition.
Import Py BaseMask Classify.

(** The [(index_length, umi_length, read_length)] tuple of a sample. *)
Definition mask : Type := ((nat * nat) * (nat * nat) * (Z * Z))%type.

Definition mask_eq_dec (a b : mask) : {a = b} + {a <> b}.
Proof. repeat decide equality. Defined.

Definition mask_eqb (a b : mask) : bool := if mask_eq_dec a b then true else false.

Definition mask_of (c : classification) : mask := (index_length c, umi_length c, read_length c).

(** [x in l] *)
Definition mem_mask (m : mask) (ms : list mask) : bool := existsb (mask_eqb m) ms.

(** [d[k] = v] / [d.update({k: v})] *)
Fixpoint dict_set {V} (d : list (string * V)) (k : string) (v : V) : list (string * V) :=
  match d with
  | [] => [(k, v)]
  | (k', v') :: d' => if String.eqb k k' then (k', v) :: d' else (k', v') :: dict_set d' k v
  end.

Definition sample_table : Type := list (string * list (string * classification)).

(** [lane_table] for one sample type. *)
Definition lane_table_add (lane : string) (m : mask) (lt : list (string * list mask))
    : list (string * list mask) :=
  match dict_get lt lane with
  | Some ((_ :: _) as ms) => if mem_mask m ms then lt else dict_set lt lane (ms ++ [m])
  | _ => dict_set lt lane [m]
  end.

Definition lane_table_of (t : sample_type) (st : sample_table) : list (string * list mask) :=
  fold_left (fun lt (lane_contents : string * list (string * classification)) =>
    fold_left (fun lt (sample : string * classification) =>
      if sample_type_eqb (sample_type_of (snd sample)) t
      then lane_table_add (fst lane_contents) (mask_of (snd sample)) lt
      else lt) (snd lane_contents) lt) st [].

(** [max(values, key=len)]: the first longest value. *)
Definition max_by_len (l : list (list mask)) : result (list mask) :=
  match l with
  | [] => Raise ValueError
  | v :: vs => Ok (fold_left (fun best v => if Nat.ltb (length best) (length v) then v else best) vs v)
  end.

(** [unique_masks] of the bclconvert branch. *)
Definition unique_masks (lt : list (string * list mask)) : list mask :=
  fold_left (fun um ms => fold_left (fun um m => if mem_mask m um then um else um ++ [m]) ms um)
    (map snd lt) [].

Definition demux_number (sw : software) (lt : list (string * list mask)) : result nat :=
  match sw with
  | bcl2fastq => bind (max_by_len (map snd lt)) (fun v => Ok (length v))
  | bclconvert => Ok (length (unique_masks lt))
  | other_software => Raise UnboundLocalError
  end.

(** [sample_type_list], in first-seen order. *)
Definition sample_type_list (st : sample_table) : list sample_type :=
  fold_left (fun l (lane_contents : string * list (string * classification)) =>
    fold_left (fun l (sample : string * classification) =>
      if existsb (sample_type_eqb (sample_type_of (snd sample))) l then l
      else l ++ [sample_type_of (snd sample)]) (snd lane_contents) l) st [].

(** The sample types ordered by their names ("10X_DUAL" < "10X_SINGLE" <
    "IDT_UMI" < "NOINDEX" < "SMARTSEQ" < "ordinary" < "short_single_index"). *)
Definition types_by_name : list sample_type :=
  [TenX_DUAL; TenX_SINGLE; IDT_UMI; NOINDEX; SMARTSEQ; ordinary; short_single_index].

(** [sorted(sample_type_list)] *)
Definition sorted_sample_types (st : sample_table) : list sample_type :=
  filter (fun t => existsb (sample_type_eqb t) (sample_type_list st)) types_by_name.

(** The iterations of the command loop: one [(sample_type, i)] per
    sub-samplesheet [SampleSheet_<bcl_cmd_counter>.csv], in counter order. *)
Definition demux_jobs (sw : software) (st : sample_table) : result (list (sample_type * nat)) :=
  fold_left (fun acc t =>
    bind acc (fun jobs => bind (demux_number sw (lane_table_of t st)) (fun n =>
    Ok (jobs ++ map (fun i => (t, i)) (seq 0 n))))) (sorted_sample_types st) (Ok []).

Definition count_jobs (t : sample_type) (jobs : list (sample_type * nat)) : nat :=
  length (filter (fun j => sample_type_eqb (fst j) t) jobs).

(** The tuples of the samples of type [t] in one lane. *)
Definition tuples_of_type (t : sample_type) (es : list (string * classification)) : list mask :=
  map (fun e => mask_of (snd e)) (filter (fun e => sample_type_eqb (sample_type_of (snd e)) t) es).

(** The count stated for a sample type: the maximum over lanes of the number
    of distinct tuples of that type in the lane. *)
Definition claimed_demux_count (t : sample_type) (st : sample_table) : nat :=
  fold_right Nat.max 0 (map (fun le => length (nodup mask_eq_dec (tuples_of_type t (snd le)))) st).

(** The in-order deduplication the code performs with [if m not in l: l.append(m)]. *)
Definition dedup_into (acc : list mask) (l : list mask) : list mask :=
  fold_left (fun acc m => if mem_mask m acc then acc else acc ++ [m]) l acc.

(** The lane table of a sample type, lane by lane: every lane with a sample
    of that type, with its tuples in first-seen order. *)
Definition lane_table_spec (t : sample_type) (st : sample_table) : list (string * list mask) :=
  flat_map (fun le => match tuples_of_type t (snd le) with
                      | [] => []
                      | ts => [(fst le, dedup_into [] ts)]
                      end) st.

(** One lane's samples added to the lane table. *)
Definition lane_step (t : sample_type) (lane : string) (es : list (string * classification))
    (lt : list (string * list mask)) : list (string * list mask) :=
  fold_left (fun lt (sample : string * classification) =>
    if sample_type_eqb (sample_type_of (snd sample)) t
    then lane_table_add lane (mask_of (snd sample)) lt
    else lt) es lt.

End Partition.

(** * Sub-samplesheet enumeration ([check_run_status] and
    [_aggregate_demux_results_simple_complex]) *)
Module Glob.
Import Py PyStr.
Local Open Scope string_scope.

(** [fnmatch(name, "*_[0-9].csv")]: the name ends with ["_"], one digit and [".csv"]. *)
Fixpoint ends_with_digit_csv (s : string) : bool :=
  match s with
  | EmptyString => false
  | String c s' =>
      match s' with
      | EmptyString => false
      | String d rest =>
          (Ascii.eqb c "_"%char && is_digit d && String.eqb rest ".csv") || ends_with_digit_csv s'
      end
  end.

(** [glob.glob(os.path.join(run_dir, "*_[0-9].csv"))] on one directory
    entry: a leading ['.'] hides the entry from the wildcard. *)
Definition glob_match (name : string) : bool :=
  match name with
  | String c _ => negb (Ascii.eqb c "."%char) && ends_with_digit_csv name
  | EmptyString => false
  end.

(** The entries of the run directory listed by the glob. *)
Definition samplesheets (run_dir : list string) : list string := filter glob_match run_dir.

(** [p.rfind(".")]: the text before and from the last dot. *)
Fixpoint last_dot (s : string) : option (string * string) :=
  match s with
  | EmptyString => None
  | String c s' =>
      match last_dot s' with
      | Some (r, e) => Some (String c r, e)
      | None => if Ascii.eqb c "."%char then Some (EmptyString, s) else None
      end
  end.

Fixpoint all_dots (s : string) : bool :=
  match s with
  | EmptyString => true
  | String c s' => Ascii.eqb c "."%char && all_dots s'
  end.

(** [os.path.splitext(name)[0]] for a base name: leading dots do not start
    an extension. *)
Definition splitext_root (name : string) : string :=
  match last_dot name with
  | Some (root, _) => if all_dots root then name else root
  | None => name
  end.

(** [os.path.splitext(os.path.split(samplesheet)[1])[0].split("_")[1]] *)
Definition demux_id_of (name : string) : result string :=
  nth_py (split_char "_"%char (splitext_root name)) 1.

(** The sub-demultiplexings whose [Demultiplexing_<demux_id>] folder
    [check_run_status] checks and the aggregation reads. *)
Definition sub_demux_ids (run_dir : list string) : list (result string) :=
  map demux_id_of (samplesheets run_dir).

(** [f"SampleSheet_{bcl_cmd_counter}.csv"], written by [demultiplex_run]. *)
Definition sub_samplesheet_name (n : nat) : string := "SampleSheet_" ++ str_nat n ++ ".csv".

End Glob.

(** * Lane classification for the aggregation ([_classify_lanes]) *)
Module Lanes.
Import Py PyStr Classify.
Local Open Scope string_scope.

(** A row of the run's samplesheet is a NoIndex row when its index is
    ["NOINDEX"] in any case, or when index and index2 are both empty
    (a missing value is replaced by [""] first). *)
Definition is_noindex_row (r : ss_row) : bool :=
  String.eqb (upper (row_index r)) "NOINDEX" ||
  (String.eqb (row_index r) "" && String.eqb (row_index2 r) "").

Definition noindex_lanes (rows : list ss_row) : list string :=
  map Lane (filter is_noindex_row rows).

(** [0 in v] and [sum(v)] for an index length pair [[len(index), len(index2)]]. *)
Definition has_zero (v : nat * nat) : bool := Nat.eqb (fst v) 0 || Nat.eqb (snd v) 0.
Definition sum_len (v : nat * nat) : nat := fst v + snd v.

(** [lane_demuxid_indexlength]: for each lane of the sub-samplesheets, in
    first-seen order, the demux ids covering it with the index lengths of
    the first row of that lane in that sub-samplesheet. *)
Definition lane_demux_add (demux_id : string) (lt : list (string * list (string * (nat * nat))))
    (row : ss_row) : list (string * list (string * (nat * nat))) :=
  let v := (String.length (row_index row), String.length (row_index2 row)) in
  match dict_get lt (Lane row) with
  | None => (lt ++ [(Lane row, [(demux_id, v)])])%list
  | Some ds =>
      match dict_get ds demux_id with
      | None => map (fun e => if String.eqb (fst e) (Lane row) then (fst e, (ds ++ [(demux_id, v)])%list) else e) lt
      | Some _ => lt
      end
  end.

Definition lane_demux_table (sheets : list (string * list ss_row))
    : list (string * list (string * (nat * nat))) :=
  fold_left (fun lt (sheet : string * list ss_row) =>
    fold_left (lane_demux_add (fst sheet)) (snd sheet) lt) sheets [].

(** One comparison of the priority loop ("Dual and longer indexes have
    higher priority"). *)
Definition priority_step (cur : option (string * (nat * nat))) (cand : string * (nat * nat))
    : option (string * (nat * nat)) :=
  match cur with
  | None => Some cand
  | Some (ck, cv) =>
      let vv := snd cand in
      if has_zero cv && negb (has_zero vv) then Some cand
      else if (has_zero cv && has_zero vv) || (negb (has_zero cv) && negb (has_zero vv)) then
        (if Nat.ltb (sum_len cv) (sum_len vv) then Some cand else cur)
      else cur
  end.

Definition priority_demux (ds : list (string * (nat * nat))) : option (string * (nat * nat)) :=
  fold_left priority_step ds None.

(** [(noindex_lanes, simple_lanes, complex_lanes)]; [complex_lanes] maps a
    lane to its priority demux id and index lengths. *)
Definition classify_lanes (rows : list ss_row) (sheets : list (string * list ss_row))
    : list string * list (string * string) * list (string * (string * (nat * nat))) :=
  let lt := lane_demux_table sheets in
  (noindex_lanes rows,
   flat_map (fun e => match snd e with [(d, _)] => [(fst e, d)] | _ => [] end) lt,
   flat_map (fun e => match snd e with
                      | [] | [_] => []
                      | ds => match priority_demux ds with Some p => [(fst e, p)] | None => [] end
                      end) lt).

(** [if noindex_lanes and index_cycles != [0, 0]] in the one-sub-demultiplexing case. *)
Inductive single_path := fake_index_single | simple_single.

Definition single_demux_path (noindex : list string) (index_cycles : nat * nat) : single_path :=
  match noindex with
  | [] => simple_single
  | _ => if pair_eqb index_cycles (0, 0) then simple_single else fake_index_single
  end.

(** [set(lanes_samples.keys()) & set(noindex_lanes) and index_cycles != [0, 0]]
    for one sub-samplesheet in the case with several sub-demultiplexings. *)
Definition sheet_fake_index (sheet_rows : list ss_row) (noindex : list string)
    (index_cycles : nat * nat) : bool :=
  existsb (fun r => existsb (String.eqb (Lane r)) noindex) sheet_rows &&
  negb (pair_eqb index_cycles (0, 0)).



End Lanes.

(** * The merged Stats.json ([_fix_demultiplexingstats_xml_dir]) *)
Module StatsMerge.
Import Py PyStr Classify Lanes.
Local Open Scope string_scope.
Local Open Scope list_scope.

(** The parts of a Stats.json file the merge reads or writes; the other
    fields of its objects are copied unchanged and are left out. *)
Record read_metric := mkRM {
  ReadNumber : Z; QualityScoreSum : Z; TrimmedBases : Z; rm_Yield : Z; YieldQ30 : Z }.

Record undetermined := mkUndet {
  u_NumberReads : Z; u_Yield : Z; u_ReadMetrics : list read_metric }.

Record demux_result := mkDR {
  SampleId : string; dr_NumberReads : Z; dr_Yield : Z;
  IndexMetrics : option (list (string * Z)); dr_ReadMetrics : list read_metric }.

Record conversion := mkConv {
  LaneNumber : Z; DemuxResults : list demux_result; Undetermined : option undetermined }.

Record unknown_lane := mkUnk { ub_Lane : Z; Barcodes : list (string * Z) }.

(** A Stats.json file; [ReadInfosForLanes] is given by the lane numbers of its entries. *)
Record stats := mkStats {
  ConversionResults : list conversion; ReadInfosForLanes : list Z;
  UnknownBarcodes : list unknown_lane }.

(** [self.NumberReads_Summary[lane]] after the HTML reports are merged. *)
Record number_reads := mkNR {
  total_lane_cluster : Z; total_lane_yield : Z;
  total_sample : option (Z * Z); undet : option (Z * Z) }.

(** [str(n)] for an integer. *)
Definition py_str_Z (z : Z) : string :=
  if Z.ltb z 0 then append "-" (str_nat (Z.to_nat (- z))) else str_nat (Z.to_nat z).

(** [re.findall("Demultiplexing_([0-9])", path)[0]]: the leftmost match. *)
Definition demux_here (s : string) : option string :=
  if String.prefix "Demultiplexing_" s then
    match String.get 15 s with
    | Some d => if is_digit d then Some (String d EmptyString) else None
    | None => None
    end
  else None.

Fixpoint first_demux (s : string) : option string :=
  match demux_here s with
  | Some d => Some d
  | None => match s with EmptyString => None | String _ s' => first_demux s' end
  end.

Definition demux_id_of_stats (path : string) : result string :=
  match first_demux path with Some d => Ok d | None => Raise IndexError end.

Fixpoint fold_res {A B} (f : A -> B -> result A) (l : list B) (a : A) : result A :=
  match l with
  | [] => Ok a
  | x :: l' => bind (f a x) (fold_res f l')
  end.

(** The two sides of an unknown barcode: [idx.split("+")[0]] and
    [idx.split("+")[1]] when ["+" in idx], else [idx] and [""]. *)
Definition split_plus (idx : string) : result (string * string) :=
  if Nat.ltb 0 (count_char "+" idx) then
    bind (nth_py (split_char "+" idx) 0) (fun a =>
    bind (nth_py (split_char "+" idx) 1) (fun b => Ok (a, b)))
  else Ok (idx, "").

(** [comparepart]: the sample index, cut to the length of the unknown side. *)
Definition cut (s u : string) : string :=
  if Nat.leb (String.length s) (String.length u) then s else substring 0 (String.length u) s.

(** [comparepart == unknown[:len(comparepart)]] *)
Definition head_eq (cp u : string) : bool := String.eqb cp (substring 0 (String.length cp) u).

(** [del barcodes[idx]] *)
Definition del_key (k : string) (bs : list (string * Z)) : list (string * Z) :=
  filter (fun e => negb (String.eqb (fst e) k)) bs.

(** One barcode against one sample row; the state carries the barcodes and
    the function-wide variable [comparepart_idx1] ([None] while unbound). *)
Definition filter_row_step (s1 s2 : string) (st : list (string * Z) * option string) (idx : string)
    : result (list (string * Z) * option string) :=
  let (bs, cp1) := st in
  bind (split_plus idx) (fun u =>
  let (u1, u2) := u in
  if negb (String.eqb s1 "") && negb (String.eqb s2 "") then
    let c1 := cut s1 u1 in
    let c2 := cut s2 u2 in
    Ok (if head_eq c1 u1 && head_eq c2 u2 then del_key idx bs else bs, Some c1)
  else if negb (String.eqb s1 "") then
    let c1 := cut s1 u1 in
    Ok (if head_eq c1 u1 then del_key idx bs else bs, Some c1)
  else if negb (String.eqb s2 "") then
    let c2 := cut s2 u1 in
    match cp1 with
    | None => Raise UnboundLocalError
    | Some c1 =>
        Ok (if String.eqb c1 (substring 0 (String.length c2) u1) then del_key idx bs else bs, cp1)
    end
  else Ok (bs, cp1)).

(** One sample row: the barcodes are read once ([idx_copy]) before the loop. *)
Definition filter_row (st : list (string * Z) * option string) (row : ss_row)
    : result (list (string * Z) * option string) :=
  fold_res (filter_row_step (row_index row) (row_index2 row)) (map fst (fst st)) st.

(** The rows of [lane] in the sub-samplesheets of the other demux ids. *)
Definition filter_unknown (sheets : list (string * list ss_row)) (demux_id lane : string)
    (st : list (string * Z) * option string) : result (list (string * Z) * option string) :=
  fold_res (fun st (sheet : string * list ss_row) =>
    if String.eqb (fst sheet) demux_id then Ok st
    else fold_res filter_row (filter (fun r => String.eqb (Lane r) lane) (snd sheet)) st)
    sheets st.

Definition is_key {V} (d : list (string * V)) (k : string) : bool :=
  existsb (fun e => String.eqb (fst e) k) d.

(** One entry of [data["UnknownBarcodes"]]. *)
Definition unknown_step (sheets : list (string * list ss_row)) (simple : list (string * string))
    (complex : list (string * (string * (nat * nat)))) (demux_id : string)
    (acc : list unknown_lane * option string) (ub : unknown_lane)
    : result (list unknown_lane * option string) :=
  let (ubs, cp) := acc in
  let key := py_str_Z (ub_Lane ub) in
  if is_key simple key then Ok (ubs ++ [ub], cp)
  else match dict_get complex key with
       | Some (d, _) =>
           if String.eqb d demux_id then
             bind (filter_unknown sheets demux_id key (Barcodes ub, cp)) (fun st =>
             Ok (ubs ++ [mkUnk (ub_Lane ub) (fst st)], snd st))
           else Ok (ubs, cp)
       | None => Ok (ubs, cp)
       end.

(** [ReadMetrics[i][...] = 0] for the four counters. *)
Definition zero_at (i : nat) (l : list read_metric) : result (list read_metric) :=
  match nth_error l i with
  | Some m => Ok (firstn i l ++ mkRM (ReadNumber m) 0 0 0 0 :: skipn (S i) l)
  | None => Raise IndexError
  end.

(** [lane_to_update]: the first entry of that lane, updated. *)
Fixpoint update_first (lane : Z) (f : conversion -> conversion) (cr : list conversion)
    : result (list conversion) :=
  match cr with
  | [] => Raise IndexError
  | c :: cr' => if Z.eqb (LaneNumber c) lane then Ok (f c :: cr')
                else bind (update_first lane f cr') (fun cr'' => Ok (c :: cr''))
  end.

(** One entry of [data["ConversionResults"]] of a Stats.json after the first. *)
Definition conversion_step (nrs : list (string * number_reads))
    (complex : list (string * (string * (nat * nat)))) (n_data_reads : nat)
    (lanes_present : list Z) (cr : list conversion) (c : conversion) : result (list conversion) :=
  let key := py_str_Z (LaneNumber c) in
  if existsb (Z.eqb (LaneNumber c)) lanes_present && is_key complex key then
    bind (dict_index nrs key) (fun nr =>
    bind (match undet nr with Some uy => Ok uy | None => Raise KeyError end) (fun uy =>
    bind (match Undetermined c with Some u => Ok u | None => Raise KeyError end) (fun u =>
    bind (zero_at 0 (u_ReadMetrics u)) (fun rm =>
    bind (if Nat.eqb n_data_reads 2 then zero_at 1 rm else Ok rm) (fun rm' =>
    let u' := mkUndet (fst uy) (snd uy * 1000000) rm' in
    update_first (LaneNumber c)
      (fun e => mkConv (LaneNumber e) (DemuxResults e ++ DemuxResults c) (Some u')) cr)))))
  else Ok (cr ++ [c]).

Record merged := mkMerged {
  m_ConversionResults : list conversion; m_ReadInfosForLanes : list Z;
  m_UnknownBarcodes : list unknown_lane }.

(** One Stats.json, given with its path.  The state is [stats_list] ([None]
    while empty) and [comparepart_idx1]. *)
Definition stats_step (sheets : list (string * list ss_row)) (simple : list (string * string))
    (complex : list (string * (string * (nat * nat)))) (nrs : list (string * number_reads))
    (n_data_reads : nat) (acc : option merged * option string) (f : string * stats)
    : result (option merged * option string) :=
  let (m, cp) := acc in
  bind (demux_id_of_stats (fst f)) (fun demux_id =>
  let data := snd f in
  bind (match m with
        | None => Ok (mkMerged (ConversionResults data) (ReadInfosForLanes data) [])
        | Some m =>
            let lp := map LaneNumber (m_ConversionResults m) in
            let rifl := m_ReadInfosForLanes m ++
                        filter (fun l => negb (existsb (Z.eqb l) lp)) (ReadInfosForLanes data) in
            bind (fold_res (conversion_step nrs complex n_data_reads lp)
                           (ConversionResults data) (m_ConversionResults m)) (fun cr =>
            Ok (mkMerged cr rifl (m_UnknownBarcodes m)))
        end) (fun m' =>
  bind (fold_res (unknown_step sheets simple complex demux_id)
                 (UnknownBarcodes data) (m_UnknownBarcodes m', cp)) (fun st =>
  Ok (Some (mkMerged (m_ConversionResults m') (m_ReadInfosForLanes m') (fst st)), snd st)))).

(** The loop over the Stats.json files. *)
Definition merge_stats (sheets : list (string * list ss_row)) (simple : list (string * string))
    (complex : list (string * (string * (nat * nat)))) (nrs : list (string * number_reads))
    (n_data_reads : nat) (files : list (string * stats)) : result (option merged * option string) :=
  fold_res (stats_step sheets simple complex nrs n_data_reads) files (None, None).

(** The NoIndex fix at the end, when [noindex_lanes and index_cycles != [0, 0]]. *)
Definition noindex_conversion (noindex : list string) (e : conversion) : result conversion :=
  if existsb (String.eqb (py_str_Z (LaneNumber e))) noindex then
    match DemuxResults e with
    | [] => Raise IndexError
    | d :: ds =>
        match IndexMetrics d with
        | None => Raise KeyError
        | Some _ =>
            match Undetermined e with
            | None => Raise KeyError
            | Some u =>
                Ok (mkConv (LaneNumber e)
                      (mkDR (SampleId d) (u_NumberReads u) (u_Yield u) None (u_ReadMetrics u) :: ds)
                      None)
            end
        end
    end
  else Ok e.

Definition noindex_fix (noindex : list string) (index_cycles : nat * nat) (m : merged) : result merged :=
  if negb (match noindex with [] => true | _ => false end) && negb (pair_eqb index_cycles (0, 0)) then
    bind (map_result (noindex_conversion noindex) (m_ConversionResults m)) (fun cr =>
    Ok (mkMerged cr (m_ReadInfosForLanes m)
          (map (fun e => if existsb (String.eqb (py_str_Z (ub_Lane e))) noindex
                         then mkUnk (ub_Lane e) [("unknown", 1%Z)] else e) (m_UnknownBarcodes m))))
  else Ok m.

(** The Stats.json written by [_fix_demultiplexingstats_xml_dir] ([None]
    for the empty object). *)
Definition fix_stats (sheets : list (string * list ss_row)) (index_cycles : nat * nat)
    (simple : list (string * string)) (complex : list (string * (string * (nat * nat))))
    (noindex : list string) (nrs : list (string * number_reads)) (n_data_reads : nat)
    (files : list (string * stats)) : result (option merged) :=
  bind (merge_stats sheets simple complex nrs n_data_reads files) (fun st =>
  match fst st with
  | Some m => bind (noindex_fix noindex index_cycles m) (fun m' => Ok (Some m'))
  | None =>
      if negb (match noindex with [] => true | _ => false end) && negb (pair_eqb index_cycles (0, 0))
      then Raise KeyError else Ok None
  end).










(** The entry of lane [lz] in [ConversionResults]: the first one. *)
Definition lane_entry (lz : Z) (cr : list conversion) : option conversion :=
  find (fun c => Z.eqb (LaneNumber c) lz) cr.

(** The entry of lane [lz] carries the undetermined numbers of
    [NumberReads_Summary], the yield scaled from Mbases to bases. *)
Definition undet_from_summary (nrs : list (string * number_reads)) (lz : Z) (cr : list conversion) : Prop :=
  exists c u nr uc uy, lane_entry lz cr = Some c /\ Undetermined c = Some u /\
    dict_get nrs (py_str_Z lz) = Some nr /\ undet nr = Some (uc, uy) /\
    u_NumberReads u = uc /\ u_Yield u = (uy * 1000000)%Z.

End StatsMerge.

(** * The merged HTML reports ([_fix_html_reports_for_complex_lanes]) *)
Module HtmlFix.
Import Py PyStr Classify Partition StatsMerge.
Local Open Scope string_scope.
Local Open Scope list_scope.

(** A row of lane.html: its lane and its "PF Clusters" and "Yield (Mbases)"
    cells, read with [int(x.replace(",", ""))].  The other cells only feed
    the flowcell summary, which is left out. *)
Record lane_row := mkLR { l_Lane : string; l_PF : Z; l_Yield : Z }.

(** A row of laneBarcode.html: the four constant columns, the two counters
    read as integers, and the text of the other columns. *)
Record lb_row := mkLB {
  lb_Lane : string; Barcode_sequence : string; Project : string; Sample : string;
  PF_Clusters : Z; Yield_Mbases : Z; lb_other : list string }.

Fixpoint strings_eqb (a b : list string) : bool :=
  match a, b with
  | [], [] => true
  | x :: a', y :: b' => String.eqb x y && strings_eqb a' b'
  | _, _ => false
  end.

(** [==] on two rows (dicts with the same keys). *)
Definition lb_row_eqb (a b : lb_row) : bool :=
  String.eqb (lb_Lane a) (lb_Lane b) && String.eqb (Barcode_sequence a) (Barcode_sequence b) &&
  String.eqb (Project a) (Project b) && String.eqb (Sample a) (Sample b) &&
  Z.eqb (PF_Clusters a) (PF_Clusters b) && Z.eqb (Yield_Mbases a) (Yield_Mbases b) &&
  strings_eqb (lb_other a) (lb_other b).

(** [needle in hay] for strings. *)
Fixpoint contains (needle hay : string) : bool :=
  String.prefix needle hay || match hay with EmptyString => false | String _ h => contains needle h end.

(** The lane.html rows: those of the first report, then for each next
    report its rows whose lane is not in the rows merged so far. *)
Definition merge_lane_reports (reports : list (list lane_row)) : result (list lane_row) :=
  match reports with
  | [] => Raise AttributeError
  | r :: rs =>
      Ok (fold_left (fun acc next =>
            let lanes := map l_Lane acc in
            acc ++ filter (fun e => negb (existsb (String.eqb (l_Lane e)) lanes)) next) rs r)
  end.

(** [self.NumberReads_Summary[lane] = {"total_lane_cluster": ..., "total_lane_yield": ...}] *)
Definition lane_totals (rows : list lane_row) : list (string * number_reads) :=
  fold_left (fun d e => dict_set d (l_Lane e) (mkNR (l_PF e) (l_Yield e) None None)) rows [].

(** The laneBarcode.html rows of all reports, in order. *)
Definition concat_lb (reports : list (list lb_row)) : result (list lb_row) :=
  match reports with
  | [] => Raise AttributeError
  | r :: rs => Ok (r ++ concat rs)
  end.

(** [entry[key] = "0"] for every key outside [constant_keys]. *)
Definition zero_row (e : lb_row) : lb_row :=
  mkLB (lb_Lane e) (Barcode_sequence e) (Project e) (Sample e) 0 0 (map (fun _ => "0") (lb_other e)).

Definition replace_nth {A} (i : nat) (x : A) (l : list A) : list A :=
  firstn i l ++ x :: skipn (S i) l.

(** [l.remove(x)]: the first element equal to [x] ([x] is in the list here). *)
Fixpoint remove_first (x : lb_row) (l : list lb_row) : list lb_row :=
  match l with
  | [] => []
  | y :: l' => if lb_row_eqb y x then l' else y :: remove_first x l'
  end.

(** The loop "only keep one such entry": a [for] loop over the list being
    changed, i.e. over the index [i]; a removal shifts the next row to [i]. *)
Fixpoint collapse_loop (fuel i : nat) (complex : list (string * (string * (nat * nat))))
    (modified : list string) (data : list lb_row) : list lb_row :=
  match fuel with
  | O => data
  | S f =>
      match nth_error data i with
      | None => data
      | Some e =>
          if is_key complex (lb_Lane e) && contains (Project e) "default" then
            if existsb (String.eqb (lb_Lane e)) modified then
              collapse_loop f (S i) complex modified (remove_first e data)
            else
              collapse_loop f (S i) complex (modified ++ [lb_Lane e]) (replace_nth i (zero_row e) data)
          else collapse_loop f (S i) complex modified data
      end
  end.

Definition collapse (complex : list (string * (string * (nat * nat)))) (data : list lb_row) : list lb_row :=
  collapse_loop (length data) 0 complex [] data.

(** One row of the loop "Update NumberReads for total sample yields". *)
Definition add_sample (nrs : list (string * number_reads)) (e : lb_row)
    : result (list (string * number_reads)) :=
  match dict_get nrs (lb_Lane e) with
  | None => Raise KeyError
  | Some nr =>
      let base := match total_sample nr with Some s => s | None => (0, 0)%Z end in
      let s' := if String.eqb (Project e) "default" then base
                else (fst base + PF_Clusters e, snd base + Yield_Mbases e)%Z in
      Ok (dict_set nrs (lb_Lane e)
            (mkNR (total_lane_cluster nr) (total_lane_yield nr) (Some s') (undet nr)))
  end.

(** [value["undet_cluster"]] and [value["undet_yield"]] for one lane. *)
Definition set_undet (e : string * number_reads) : result (string * number_reads) :=
  let nr := snd e in
  match total_sample nr with
  | None => Raise KeyError
  | Some (sc, sy) =>
      Ok (fst e, mkNR (total_lane_cluster nr) (total_lane_yield nr) (Some (sc, sy))
                      (Some (total_lane_cluster nr - sc, total_lane_yield nr - sy)%Z))
  end.

(** The default rows of complex lanes get the undetermined numbers. *)
Definition undet_row (nrs : list (string * number_reads)) (complex : list (string * (string * (nat * nat))))
    (e : lb_row) : result lb_row :=
  if String.eqb (Project e) "default" && is_key complex (lb_Lane e) then
    match dict_get nrs (lb_Lane e) with
    | None => Raise KeyError
    | Some nr =>
        match undet nr with
        | None => Raise KeyError
        | Some (uc, uy) =>
            Ok (mkLB (lb_Lane e) (Barcode_sequence e) (Project e) (Sample e) uc uy (lb_other e))
        end
    end
  else Ok e.

Definition in_list (l : list string) (x : string) : bool := existsb (String.eqb x) l.

(** [lane_project_sample] of the NoIndex fix. *)
Definition lane_project_sample (noindex : list string) (data : list lb_row)
    : list (string * (string * string)) :=
  fold_left (fun d e =>
    if in_list noindex (lb_Lane e) && negb (String.eqb (Sample e) "Undetermined")
    then dict_set d (lb_Lane e) (Project e, Sample e) else d) data [].

(** The rows are objects: [store] holds them by identity and the report is
    a list of identities.  The loop runs over a copy of the list, so a row
    renamed through the copy is renamed in the report too, and
    [remove(entry)] drops the first row of the report equal to [entry]. *)
Fixpoint remove_first_id (store : list lb_row) (x : lb_row) (ids : list nat) : list nat :=
  match ids with
  | [] => []
  | i :: ids' =>
      match nth_error store i with
      | Some y => if lb_row_eqb y x then ids' else i :: remove_first_id store x ids'
      | None => i :: remove_first_id store x ids'
      end
  end.

Definition noindex_step (noindex : list string) (lps : list (string * (string * string)))
    (st : list lb_row * list nat) (i : nat) : result (list lb_row * list nat) :=
  let (store, ids) := st in
  match nth_error store i with
  | None => Ok st
  | Some e =>
      if in_list noindex (lb_Lane e) && String.eqb (Sample e) "Undetermined" then
        match dict_get lps (lb_Lane e) with
        | None => Raise KeyError
        | Some (p, smp) =>
            Ok (replace_nth i (mkLB (lb_Lane e) (Barcode_sequence e) p smp
                                    (PF_Clusters e) (Yield_Mbases e) (lb_other e)) store, ids)
        end
      else if in_list noindex (lb_Lane e) && negb (String.eqb (Sample e) "Undetermined") then
        Ok (store, remove_first_id store e ids)
      else Ok st
  end.

Definition empty_row : lb_row := mkLB "" "" "" "" 0 0 [].

(** [if noindex_lanes and index_cycles != [0, 0]: ...] *)
Definition noindex_fix_html (noindex : list string) (index_cycles : nat * nat) (data : list lb_row)
    : result (list lb_row) :=
  if negb (match noindex with [] => true | _ => false end) && negb (pair_eqb index_cycles (0, 0)) then
    let lps := lane_project_sample noindex data in
    let ids := seq 0 (length data) in
    bind (fold_res (noindex_step noindex lps) ids (data, ids)) (fun st =>
    Ok (map (fun i => nth i (fst st) empty_row) (snd st)))
  else Ok data.

Fixpoint join_us (l : list string) : string :=
  match l with
  | [] => ""
  | [x] => x
  | x :: l' => x ++ "_" ++ join_us l'
  end.

(** [if "_S" in entry["Sample"]: entry["Sample"] = "_".join(entry["Sample"].split("_")[:2])] *)
Definition rename_sample (e : lb_row) : lb_row :=
  if contains "_S" (Sample e) then
    mkLB (lb_Lane e) (Barcode_sequence e) (Project e) (join_us (firstn 2 (split_char "_" (Sample e))))
         (PF_Clusters e) (Yield_Mbases e) (lb_other e)
  else e.

Definition ascii_lower (c : ascii) : ascii :=
  let k := nat_of_ascii c in
  if Nat.leb 65 k && Nat.leb k 90 then ascii_of_nat (k + 32) else c.

(** [s.lower()] on ASCII text. *)
Fixpoint lower (s : string) : string :=
  match s with
  | EmptyString => EmptyString
  | String c s' => String (ascii_lower c) (lower s')
  end.

(** The key [(k["Lane"].lower(), k["Sample"])], compared as a tuple. *)
Definition row_key_lt (a b : lb_row) : bool :=
  match String.compare (lower (lb_Lane a)) (lower (lb_Lane b)) with
  | Lt => true
  | Gt => false
  | Eq => match String.compare (Sample a) (Sample b) with Lt => true | _ => false end
  end.

(** [sorted] is stable: an insertion sort that puts a row after the rows
    whose key is not larger. *)
Fixpoint insert_row (x : lb_row) (l : list lb_row) : list lb_row :=
  match l with
  | [] => [x]
  | y :: l' => if row_key_lt x y then x :: l else y :: insert_row x l'
  end.

Definition sort_rows (l : list lb_row) : list lb_row := fold_left (fun acc x => insert_row x acc) l [].

(** The lane and laneBarcode reports written, and [self.NumberReads_Summary]. *)
Definition fix_html (complex : list (string * (string * (nat * nat)))) (noindex : list string)
    (index_cycles : nat * nat) (lane_reports : list (list lane_row)) (lb_reports : list (list lb_row))
    : result (list (string * number_reads) * list lane_row * list lb_row) :=
  bind (merge_lane_reports lane_reports) (fun lanes =>
  bind (concat_lb lb_reports) (fun lb =>
  let lb1 := collapse complex lb in
  bind (fold_res add_sample lb1 (lane_totals lanes)) (fun nrs1 =>
  bind (map_result set_undet nrs1) (fun nrs =>
  bind (map_result (undet_row nrs complex) lb1) (fun lb2 =>
  bind (noindex_fix_html noindex index_cycles lb2) (fun lb3 =>
  Ok (nrs, lanes, sort_rows (map rename_sample lb3)))))))).

(** The sums of the claim: PF clusters and yield over the rows of [lane]
    whose Project is not "default". *)
Definition sample_pf (lane : string) (rows : list lb_row) : Z :=
  fold_right Z.add 0%Z (map PF_Clusters
    (filter (fun r => String.eqb (lb_Lane r) lane && negb (String.eqb (Project r) "default")) rows)).

Definition sample_yield (lane : string) (rows : list lb_row) : Z :=
  fold_right Z.add 0%Z (map Yield_Mbases
    (filter (fun r => String.eqb (lb_Lane r) lane && negb (String.eqb (Project r) "default")) rows)).

End HtmlFix.

(** * Example runs *)
Module Examples.
Import Py BaseMask Classify Partition Lanes StatsMerge HtmlFix.
Local Open Scope string_scope.

Definition run_150_8_8_150 : list read :=
  [mkRead 1 150 "N"; mkRead 2 8 "Y"; mkRead 3 8 "Y"; mkRead 4 150 "N"].


Definition run_151_8_8_151 : list read :=
  [mkRead 1 151 "N"; mkRead 2 8 "Y"; mkRead 3 8 "Y"; mkRead 4 151 "N"].

(** Two lanes, one dual-indexed sample each, with index lengths (8, 8)
    and (8, 6). *)
Definition rows_two_lanes : list ss_row :=
  [mkRow "1" "S1" (Some "ACGTACGT") (Some "TTGGCCAA") None;
   mkRow "2" "S2" (Some "ACGTACGT") (Some "TTGGCC") None].

(** The sample table [_classify_samples] builds from [rows_two_lanes] on
    [run_151_8_8_151]: both samples are ordinary. *)
Definition st_two_lanes : sample_table :=
  [("1", [("S1", mkClass ordinary (8, 8) (0, 0) (151, 151)%Z)]);
   ("2", [("S2", mkClass ordinary (8, 6) (0, 0) (151, 151)%Z)])].

(** A run directory after a run with two sub-demultiplexings and a stray
    sheet numbered 10. *)
Definition run_dir_0_1_10 : list string :=
  ["RunInfo.xml"; "SampleSheet.csv"; "SampleSheet_0.csv"; "SampleSheet_1.csv"; "SampleSheet_10.csv"].

(** A run without index reads whose samplesheet has one row with empty
    index and index2. *)
Definition rows_empty_index : list ss_row := [mkRow "1" "S1" (Some "") None None].

(** A lane shared by two sub-demultiplexings: sub-samplesheet 0 has a
    sample with a 6-base index, sub-samplesheet 1 one with an 8-base index. *)
Definition rows_6_8 : list ss_row :=
  [mkRow "1" "S6" (Some "ACGTAC") None None; mkRow "1" "S8" (Some "TTTTGGGG") None None].

Definition sheets_6_8 : list (string * list ss_row) :=
  [("0", [mkRow "1" "S6" (Some "ACGTAC") None None]);
   ("1", [mkRow "1" "S8" (Some "TTTTGGGG") None None])].

Definition metrics_1 : list read_metric := [mkRM 1 10 0 100 90].

Definition stats_6 : stats :=
  mkStats [mkConv 1 [mkDR "S6" 100 15000 (Some [("ACGTAC", 100%Z)]) metrics_1]
                    (Some (mkUndet 60 9000 metrics_1))]
          [1%Z]
          [mkUnk 1 [("TTTTGG", 40%Z); ("GGGGGG", 5%Z)]].

Definition stats_8 : stats :=
  mkStats [mkConv 1 [mkDR "S8" 40 6000 (Some [("TTTTGGGG", 40%Z)]) metrics_1]
                    (Some (mkUndet 120 18000 metrics_1))]
          [1%Z]
          [mkUnk 1 [("ACGTACGG", 30%Z); ("GGGGGGGG", 3%Z); ("ACGTAAAA", 2%Z)]].

Definition files_6_8 : list (string * stats) :=
  [("Demultiplexing_0/Stats/Stats.json", stats_6); ("Demultiplexing_1/Stats/Stats.json", stats_8)].

(** [NumberReads_Summary] of the lane after the HTML reports are merged. *)
Definition nrs_6_8 : list (string * number_reads) :=
  [("1", mkNR 190 28000 (Some (140%Z, 21000%Z)) (Some (50%Z, 7000%Z)))].

(** The Stats.json written for the example run, with 8 index cycles. *)
Definition merged_6_8 : merged :=
  let '(noi, simple, complex) := classify_lanes rows_6_8 sheets_6_8 in
  match fix_stats sheets_6_8 (8, 0) simple complex noi nrs_6_8 1 files_6_8 with
  | Ok (Some m) => m
  | _ => mkMerged [] [] []
  end.





(** The HTML reports of the two sub-demultiplexings of the example run. *)
Definition lane_reports_6_8 : list (list lane_row) := [[mkLR "1" 190 28000]; [mkLR "1" 190 28000]].

Definition row_s6 : lb_row := mkLB "1" "ACGTAC" "P1" "S6" 100 15000 ["52.63"].
Definition row_s8 : lb_row := mkLB "1" "TTTTGGGG" "P1" "S8" 40 6000 ["21.05"].

Definition undetermined_row (pf y : Z) : lb_row := mkLB "1" "unknown" "default" "Undetermined" pf y ["31.58"].

Definition lb_reports_6_8 : list (list lb_row) :=
  [[row_s6; undetermined_row 60 9000]; [row_s8; undetermined_row 120 18000]].

(** A third sub-demultiplexing of the lane with no sample of its own, and
    the laneBarcode reports ordered so that two undetermined rows follow
    each other. *)
Definition lane_reports_3 : list (list lane_row) :=
  [[mkLR "1" 190 28000]; [mkLR "1" 190 28000]; [mkLR "1" 190 28000]].

Definition lb_reports_3 : list (list lb_row) :=
  [[row_s6; undetermined_row 60 9000]; [undetermined_row 30 4500]; [undetermined_row 20 3000; row_s8]].

Definition complex_6_8 : list (string * (string * (nat * nat))) := [("1", ("1", (8, 0)))].

(** The merged laneBarcode report written for the example run. *)
Definition report_6_8 : list lb_row :=
  [row_s6; row_s8; mkLB "1" "unknown" "default" "Undetermined" 50 7000 ["0"]].

End Examples.

(** * Run status, demultiplexing logs and the checks of [check_run_status] *)
Module RunChecks.
Import Py PyStr BaseMask Classify Partition Glob StatsMerge HtmlFix.
Local Open Scope string_scope.

(** [s.endswith("/")] *)
Fixpoint ends_with_sep (s : string) : bool :=
  match s with
  | EmptyString => false
  | String c EmptyString => Ascii.eqb c "/"%char
  | String _ s' => ends_with_sep s'
  end.

(** [posixpath.join(a, b)] *)
Definition pjoin (a b : string) : string :=
  if String.prefix "/" b then b
  else if String.eqb a "" || ends_with_sep a then a ++ b
  else a ++ "/" ++ b.

(** [os.path.join(a, *p)] *)
Definition path_join (a : string) (p : list string) : string := fold_left pjoin p a.

(** [_get_demux_folder]: an empty [demux_dir] is falsy. *)
Definition get_demux_folder (demux_dir : string) : result string :=
  if String.eqb demux_dir "" then Raise RuntimeError else Ok demux_dir.

(** [get_run_status], with [os.path.exists] given as [ex]. *)
Definition get_run_status (ex : string -> bool) (run_dir demux_dir : string) : result string :=
  bind (get_demux_folder demux_dir) (fun d =>
  let demux_started := ex (path_join run_dir [d]) in
  bind (get_demux_folder demux_dir) (fun d =>
  let demux_done := ex (path_join run_dir [d; "Stats"; "Stats.json"]) in
  let sequencing_done :=
    ex (path_join run_dir ["RTAComplete.txt"]) && ex (path_join run_dir ["CopyComplete.txt"]) in
  if sequencing_done && demux_done then Ok "COMPLETED"
  else if sequencing_done && demux_started && negb demux_done then Ok "IN_PROGRESS"
  else if sequencing_done && negb demux_started then Ok "TO_START"
  else if negb sequencing_done then Ok "SEQUENCING"
  else Raise RuntimeError)).

(** [p.startswith(q)] as an optional remainder. *)
Fixpoint strip_prefix (p s : string) : option string :=
  match p, s with
  | EmptyString, _ => Some s
  | String a p', String b s' => if Ascii.eqb a b then strip_prefix p' s' else None
  | String _ _, EmptyString => None
  end.

(** The longest run of digits at the start of [s], and the rest. *)
Fixpoint span_digits (s : string) : string * string :=
  match s with
  | String c s' =>
      if is_digit c then let (d, r) := span_digits s' in (String c d, r) else (EmptyString, s)
  | EmptyString => (EmptyString, EmptyString)
  end.

(** [r"Processing completed with (\d+) errors and (\d+) warnings"] matched at
    the start of [s], with [int()] of both groups.  Each [\d+] is followed by
    a space in the pattern, so the greedy run of digits is the only way a
    group can match. *)
Definition summary_here (s : string) : option (nat * nat) :=
  match strip_prefix "Processing completed with " s with
  | Some r =>
      let (d1, r1) := span_digits r in
      if String.eqb d1 "" then None else
      match strip_prefix " errors and " r1 with
      | Some r2 =>
          let (d2, r3) := span_digits r2 in
          if String.eqb d2 "" then None else
          match strip_prefix " warnings" r3 with
          | Some _ => Some (digit_runs_aux d1 0, digit_runs_aux d2 0)
          | None => None
          end
      | None => None
      end
  | None => None
  end.

(** [re.search(pattern, s)]: the leftmost match. *)
Fixpoint summary_search (s : string) : option (nat * nat) :=
  match summary_here s with
  | Some r => Some r
  | None => match s with EmptyString => None | String _ s' => summary_search s' end
  end.

(** [l[-1]] *)
Definition last_py {A} (l : list A) : result A :=
  match rev l with x :: _ => Ok x | [] => Raise IndexError end.

(** [_check_demux_log] on the lines of the log ([readlines()]):
    [(errors, warnings, error_and_warning_messages)]. *)
Definition check_demux_log (sw : software) (content : list string)
    : result (nat * nat * list string) :=
  match sw with
  | bcl2fastq =>
      bind (last_py content) (fun last =>
      match summary_search last with
      | Some (errors, warnings) =>
          Ok (errors, warnings,
              if negb (Nat.eqb errors 0) || negb (Nat.eqb warnings 0)
              then filter (fun line => contains "ERROR" line || contains "WARN" line) content
              else [])
      | None => Raise RuntimeError
      end)
  | bclconvert =>
      Ok (fold_left (fun '((errors, warnings, msgs) : nat * nat * list string) line =>
            if contains "ERROR" line then (errors + 1, warnings, (msgs ++ [line])%list)
            else if contains "WARNING" line then (errors, warnings + 1, (msgs ++ [line])%list)
            else (errors, warnings, msgs)) content (0, 0, []))
  | other_software => Raise RuntimeError
  end.

(** The path whose existence marks a finished sub-demultiplexing:
    [os.path.join(run_dir, demux_folder, legacy_path, "Stats", "DemultiplexingStats.xml")]
    with [demux_folder = os.path.join(run_dir, f"Demultiplexing_{demux_id}")]. *)
Definition demux_stats_path (run_dir legacy_path demux_id : string) : string :=
  path_join run_dir [pjoin run_dir ("Demultiplexing_" ++ demux_id); legacy_path; "Stats";
                     "DemultiplexingStats.xml"].

Definition demux_log_path (sw : software) (run_dir demux_id : string) : result string :=
  match sw with
  | bcl2fastq => Ok (pjoin run_dir ("demux_" ++ demux_id ++ "_bcl2fastq.err"))
  | bclconvert => Ok (pjoin run_dir ("demux_" ++ demux_id ++ "_bcl-convert.err"))
  | other_software => Raise RuntimeError
  end.

Definition demux_summary : Type := list (string * (nat * nat * list string)).

(** One iteration of the loop over the sub-samplesheets; [legacy_path] is
    [None] when the software is neither bcl2fastq nor bclconvert (the name is
    then unbound).  The glob yields [os.path.join(run_dir, name)], whose
    [os.path.split(...)[1]] is the entry [name]. *)
Definition check_step (sw : software) (legacy_path : option string)
    (ex isfile : string -> bool) (read_lines : string -> list string) (run_dir : string)
    (acc : bool * demux_summary) (samplesheet : string) : result (bool * demux_summary) :=
  let '(all_demux_done, summary) := acc in
  bind (demux_id_of samplesheet) (fun demux_id =>
  match legacy_path with
  | None => Raise UnboundLocalError
  | Some lp =>
      if ex (demux_stats_path run_dir lp demux_id) then
        bind (demux_log_path sw run_dir demux_id) (fun demux_log =>
        if isfile demux_log then
          bind (check_demux_log sw (read_lines demux_log)) (fun r =>
          Ok (all_demux_done && true, dict_set summary demux_id r))
        else Raise RuntimeError)
      else Ok (all_demux_done && false, summary)
  end).

Definition legacy_path_of (sw : software) (legacy_dir : string) : option string :=
  match sw with
  | bcl2fastq => Some ""
  | bclconvert => Some ("Reports/" ++ legacy_dir)
  | other_software => None
  end.

(** [check_run_status] up to the decision to aggregate: the updated
    [demux_summary] and whether the aggregation (and the renaming of the
    Undetermined files that follows it) starts. *)
Definition check_run_status (sw : software) (legacy_dir : string)
    (ex isfile : string -> bool) (read_lines : string -> list string)
    (run_dir demux_dir : string) (entries : list string) (summary : demux_summary)
    : result (demux_summary * bool) :=
  bind (get_run_status ex run_dir demux_dir) (fun dex_status =>
  bind (fold_res (check_step sw (legacy_path_of sw legacy_dir) ex isfile read_lines run_dir)
          (samplesheets entries) (true, summary)) (fun '(all_demux_done, summary') =>
  Ok (summary', all_demux_done && negb (String.eqb dex_status "COMPLETED")))).

(** A finished sub-demultiplexing [id] whose log file exists and was read. *)
Definition log_checked (sw : software) (isfile : string -> bool) (read_lines : string -> list string)
    (run_dir id : string) (r : nat * nat * list string) : Prop :=
  exists log, demux_log_path sw run_dir id = Ok log /\ isfile log = true /\
              check_demux_log sw (read_lines log) = Ok r.

(** A sub-samplesheet whose sub-demultiplexing has written its DemultiplexingStats.xml. *)
Definition finished (lpo : option string) (ex : string -> bool) (run_dir name : string) : Prop :=
  exists lp id, lpo = Some lp /\ demux_id_of name = Ok id /\ ex (demux_stats_path run_dir lp id) = true.

(** [is_unpooled_lane] *)
Definition is_unpooled_lane (data : list ss_row) (lane : string) : bool :=
  Nat.eqb (fold_left (fun count l => if String.eqb (Lane l) lane then count + 1 else count) data 0) 1.

(** [get_samples_per_lane] *)
Definition get_samples_per_lane (data : list ss_row) : list (string * string) :=
  fold_left (fun d l => dict_set d (Lane l) (Sample_Name l)) data [].

(** [l[i] = x] *)
Definition set_py {A} (l : list A) (i : nat) (x : A) : result (list A) :=
  if Nat.ltb i (length l) then Ok (replace_nth i x l) else Raise IndexError.

(** [comp.replace("L00", "L01")] *)
Fixpoint replace_L00 (s : string) : string :=
  match s with
  | String a ((String b (String c r)) as s') =>
      if Ascii.eqb a "L" && Ascii.eqb b "0" && Ascii.eqb c "0"
      then "L01" ++ replace_L00 r else String a (replace_L00 s')
  | String a s' => String a (replace_L00 s')
  | EmptyString => EmptyString
  end.

(** The new name given by [_rename_undet] to an Undetermined file [old_name]. *)
Definition rename_undet_name (samples_per_lane : list (string * string)) (lane old_name : string)
    : result string :=
  let old_name_comps := split_char "_" old_name in
  bind (nth_py old_name_comps 0) (fun c0 =>
  bind (set_py old_name_comps 1 c0) (fun comps =>
  bind (dict_index samples_per_lane lane) (fun sname =>
  bind (set_py comps 0 sname) (fun comps =>
  let comps := map (fun comp => if String.prefix "L00" comp then replace_L00 comp else comp) comps in
  Ok (join_us comps))))).

Definition example_run_exists (p : string) : bool :=
  String.eqb p "/r/RTAComplete.txt" || String.eqb p "/r/CopyComplete.txt" ||
  String.eqb p "/r/Demultiplexing" || String.eqb p "/r/Demultiplexing_0/Stats/DemultiplexingStats.xml".

End RunChecks.


(** * The sub-samplesheet selection of [demultiplex_run] *)
Module Select.
Import Py BaseMask Classify Partition.
Local Open Scope string_scope.

(** [samples_to_include[lane].append(name)] if the entry is truthy, else
    [samples_to_include.update({lane: [name]})]. *)
Definition include_sample (sti : list (string * list string)) (lane name : string)
    : list (string * list string) :=
  match dict_get sti lane with
  | Some ((_ :: _) as names) => dict_set sti lane (names ++ [name])%list
  | _ => dict_set sti lane [name]
  end.

(** The names of the samples of one lane with sample type [t] and tuple [m]. *)
Definition selected_names (t : sample_type) (m : mask) (es : list (string * classification)) : list string :=
  map fst (filter (fun e => sample_type_eqb (sample_type_of (snd e)) t && mask_eqb (mask_of (snd e)) m) es).

(** The samples of one lane with sample type [t] and tuple [m]. *)
Definition include_lane (t : sample_type) (m : mask) (lane : string)
    (es : list (string * classification)) (sti : list (string * list string))
    : list (string * list string) :=
  fold_left (fun sti (sample : string * classification) =>
    if sample_type_eqb (sample_type_of (snd sample)) t && mask_eqb (mask_of (snd sample)) m
    then include_sample sti lane (fst sample) else sti) es sti.

(** [samples_to_include] and [mask_table] of sub-samplesheet [i] of sample
    type [t] with bcl2fastq: [lane_table[lane][i]] raising [KeyError] or
    [IndexError] skips the lane. *)
Definition select_bcl2fastq (t : sample_type) (st : sample_table)
    (lt : list (string * list mask)) (i : nat)
    : list (string * list string) * list (string * mask) :=
  fold_left (fun '(sti, mt) (lane_contents : string * list (string * classification)) =>
    let lane := fst lane_contents in
    match dict_get lt lane with
    | Some ms =>
        match nth_error ms i with
        | Some m => (include_lane t m lane (snd lane_contents) sti, dict_set mt lane m)
        | None => (sti, mt)
        end
    | None => (sti, mt)
    end) st ([], []).

(** The same with bclconvert, for the tuple [mask = unique_masks[i]]. *)
Definition select_bclconvert (t : sample_type) (st : sample_table)
    (lt : list (string * list mask)) (m : mask)
    : list (string * list string) * list (string * mask) :=
  fold_left (fun '(sti, mt) (lane_contents : string * list (string * classification)) =>
    let lane := fst lane_contents in
    match dict_get lt lane with
    | Some ((_ :: _) as ms) =>
        if mem_mask m ms
        then (include_lane t m lane (snd lane_contents) sti, dict_set mt lane m)
        else (sti, mt)
    | _ => (sti, mt)
    end) st ([], []).

(** The selection of every sub-samplesheet of sample type [t], in the order
    of [range(0, demux_number_with_the_same_sample_type)]. *)
Definition selections (sw : software) (t : sample_type) (st : sample_table)
    : result (list (list (string * list string) * list (string * mask))) :=
  let lt := lane_table_of t st in
  bind (demux_number sw lt) (fun n =>
  match sw with
  | bcl2fastq => Ok (map (select_bcl2fastq t st lt) (seq 0 n))
  | bclconvert => Ok (map (select_bclconvert t st lt) (firstn n (unique_masks lt)))
  | other_software => Raise UnboundLocalError
  end).

(** [samples_to_include.get(lane)], with [[]] for a missing lane. *)
Definition included (sti : list (string * list string)) (lane : string) : list string :=
  match dict_get sti lane with Some ns => ns | None => [] end.

(** The names of the samples of type [t] in one lane. *)
Definition names_of_type (t : sample_type) (es : list (string * classification)) : list string :=
  map fst (filter (fun e => sample_type_eqb (sample_type_of (snd e)) t) es).

(** A sample table with two lanes: lane "1" holds ordinary samples with two
    index lengths, lane "2" one ordinary and one 10X sample. *)
Definition example_table : sample_table :=
  [("1", [("S1", mkClass ordinary (8, 8) (0, 0) (151%Z, 151%Z));
          ("S2", mkClass ordinary (6, 0) (0, 0) (151%Z, 151%Z));
          ("S3", mkClass ordinary (8, 8) (0, 0) (151%Z, 151%Z))]);
   ("2", [("S4", mkClass ordinary (6, 0) (0, 0) (151%Z, 151%Z));
          ("S5", mkClass TenX_SINGLE (8, 0) (0, 0) (151%Z, 151%Z))])].

Definition selections_or_nil (r : result (list (list (string * list string) * list (string * mask))))
    : list (list (string * list string) * list (string * mask)) :=
  match r with Ok s => s | Raise _ => [] end.

End Select.


(** * Sub-samplesheets ([_generate_samplesheet_subset]) *)
Module Subset.
Import Py PyStr BaseMask Classify Partition StatsMerge HtmlFix.
Local Open Scope string_scope.

(** A row of [ssparser.data]: a dict from field names to values. *)
Abbreviation dict_row := (list (string * string)).

(** [sep.join(l)] *)
Fixpoint join (sep : string) (l : list string) : string :=
  match l with
  | [] => ""
  | [x] => x
  | x :: l' => x ++ sep ++ join sep l'
  end.

(** [c * n] for a one-character string [c]. *)
Fixpoint repeat_char (c : ascii) (n : nat) : string :=
  match n with
  | 0 => ""
  | S n' => String c (repeat_char c n')
  end.

(** [str.isspace()] on one ASCII character. *)
Definition is_space (c : ascii) : bool :=
  let k := nat_of_ascii c in
  Nat.eqb k 32 || (Nat.leb 9 k && Nat.leb k 13) || (Nat.leb 28 k && Nat.leb k 31).

Fixpoint lstrip_space (s : string) : string :=
  match s with
  | String c s' => if is_space c then lstrip_space s' else s
  | EmptyString => EmptyString
  end.

(** [s.rstrip()] *)
Definition rstrip (s : string) : string := rev_string (lstrip_space (rev_string s)).

(** One iteration of [for field in datafields] on an included line; the
    state is [(line, noindex_flag, line_ar)]. *)
Definition subset_field (index_cycles : nat * nat) (acc : dict_row * bool * list string)
    (field : string) : result (dict_row * bool * list string) :=
  let '(line, noindex_flag, line_ar) := acc in
  bind (if String.eqb field "index" then
          bind (dict_index line "index") (fun v =>
          Ok (if contains "NOINDEX" (upper v)
              then (dict_set line field
                      (if negb (Nat.eqb (fst index_cycles) 0) then repeat_char "T" (fst index_cycles) else ""),
                    true)
              else (line, noindex_flag)))
        else Ok (line, noindex_flag)) (fun '((line, noindex_flag) : dict_row * bool) =>
  let '(line, noindex_flag) :=
    if String.eqb field "index2" && noindex_flag
    then (dict_set line field
            (if negb (Nat.eqb (snd index_cycles) 0) then repeat_char "A" (snd index_cycles) else ""),
          false)
    else (line, noindex_flag) in
  bind (if String.eqb field "index" || String.eqb field "index2" then
          bind (dict_index line field) (fun v =>
          Ok (if idt_umi_match v then dict_set line field (remove_char "N" v) else line))
        else Ok line) (fun line =>
  bind (dict_index line field) (fun v => Ok (line, noindex_flag, (line_ar ++ [v])%list)))).

(** [line.get("Sample_Name") or line.get("SampleName")] *)
Definition sample_name_of (line : dict_row) : option string :=
  match dict_get line "Sample_Name" with
  | Some v => if String.eqb v "" then dict_get line "SampleName" else Some v
  | None => dict_get line "SampleName"
  end.

(** One line of [ssparser.data]: the line as the loop leaves it (the dict
    is updated in place) and the values written for it, if any. *)
Definition subset_line (samples_to_include : list (string * list string)) (index_cycles : nat * nat)
    (datafields : list string) (line : dict_row) : result (dict_row * option (list string)) :=
  let sample_name := sample_name_of line in
  bind (dict_index line "Lane") (fun lane =>
  match dict_get samples_to_include lane with
  | Some names =>
      if match sample_name with Some n => existsb (String.eqb n) names | None => false end
      then bind (fold_res (subset_field index_cycles) datafields (line, false, []))
             (fun '((line, _, line_ar) : dict_row * bool * list string) => Ok (line, Some line_ar))
      else Ok (line, None)
  | None => Ok (line, None)
  end).

(** [for line in ssparser.data]: the updated data and the written lines. *)
Definition subset_data (samples_to_include : list (string * list string)) (index_cycles : nat * nat)
    (datafields : list string) (data : list dict_row) : result (list dict_row * list string) :=
  fold_res (fun '((data', out) : list dict_row * list string) line =>
    bind (subset_line samples_to_include index_cycles datafields line) (fun '(line', w) =>
    Ok ((data' ++ [line'])%list,
        match w with Some line_ar => (out ++ [join "," line_ar])%list | None => out end)))
    data ([], []).

(** The names [_classify_samples] gives the sample types. *)
Definition sample_type_name (t : sample_type) : string :=
  match t with
  | ordinary => "ordinary"
  | short_single_index => "short_single_index"
  | TenX_SINGLE => "10X_SINGLE"
  | TenX_DUAL => "10X_DUAL"
  | SMARTSEQ => "SMARTSEQ"
  | IDT_UMI => "IDT_UMI"
  | NOINDEX => "NOINDEX"
  end.

(** [for setting in settings: for k, v in setting.items()], keeping the
    keys accepted by [keep]; [v] is given as its [str]. *)
Definition setting_lines (settings : list (list (string * string))) (keep : string -> bool) : list string :=
  flat_map (fun setting =>
    map (fun kv => fst kv ++ "," ++ snd kv) (filter (fun kv => keep (fst kv)) setting)) settings.

(** The lines of [CONFIG["bclconvert"]["settings"]]: all the common ones,
    then those of the sample type, where a [BarcodeMismatchesIndex] key is
    kept only for an index that is used. *)
Definition config_settings_lines (settings : list (string * list (list (string * string))))
    (t : sample_type) (index1_size index2_size : nat) : list string :=
  (match dict_get settings "common" with
   | Some cs => setting_lines cs (fun _ => true)
   | None => []
   end ++
   match dict_get settings (sample_type_name t) with
   | Some ss => setting_lines ss (fun k =>
       (String.eqb k "BarcodeMismatchesIndex1" && negb (Nat.eqb index1_size 0)) ||
       (String.eqb k "BarcodeMismatchesIndex2" && negb (Nat.eqb index2_size 0)) ||
       negb (contains "BarcodeMismatchesIndex" k))
   | None => []
   end)%list.

(** Insertion into a list sorted by key. *)
Fixpoint insert_by_key (x : string * string) (l : list (string * string)) : list (string * string) :=
  match l with
  | [] => [x]
  | y :: l' => if String.leb (fst x) (fst y) then x :: l else y :: insert_by_key x l'
  end.

(** The lines of [_generate_samplesheet_subset], each followed by
    [os.linesep] in the output.  [header] is [ssparser.header]; iterating
    [sorted(header)] and reading [header[field]] visits its entries sorted
    by their (distinct) keys.  [settings] is [CONFIG["bclconvert"]["settings"]]
    when both lookups are truthy. *)
Definition subset_lines (header : list (string * string)) (datafields : list string)
    (data : list dict_row) (samples_to_include : list (string * list string))
    (runSetup : list read) (sw : software) (t : sample_type) (index1_size index2_size : nat)
    (base_mask : list string) (settings : option (list (string * list (list (string * string)))))
    : result (list dict_row * list string) :=
  let index_cycles := fst (cycles_of_setup runSetup) in
  let header_lines :=
    "[Header]" :: map (fun kv => rstrip (fst kv) ++ "," ++ rstrip (snd kv))
                      (fold_right insert_by_key [] header) in
  let settings_lines :=
    match sw with
    | bclconvert =>
        "[Settings]" :: ("OverrideCycles," ++ join ";" base_mask) ::
        ((if existsb (contains "U") base_mask then ["TrimUMI,0"] else []) ++
         match settings with
         | Some s => config_settings_lines s t index1_size index2_size
         | None => []
         end)%list
    | _ => []
    end in
  bind (subset_data samples_to_include index_cycles datafields data) (fun '(data', rows) =>
  Ok (data', header_lines ++ settings_lines ++ ["[Data]"; join "," datafields] ++ rows))%list.

(** Whether [_generate_samplesheet_subset] writes a line of the data:
    its lane is a key of [samples_to_include] and its sample name is listed there. *)
Definition is_included (samples_to_include : list (string * list string)) (line : dict_row) : bool :=
  match dict_get line "Lane" with
  | Some lane =>
      match dict_get samples_to_include lane, sample_name_of line with
      | Some names, Some n => existsb (String.eqb n) names
      | _, _ => false
      end
  | None => false
  end.

(** The value written for field [f] of value [w] in a line without
    NOINDEX: an index or index2 of the IDT UMI pattern loses its N's. *)
Definition written_value (f w : string) : string :=
  if (String.eqb f "index" || String.eqb f "index2") && idt_umi_match w then remove_char "N" w else w.

Definition linesep : string := String "010" "".

Definition generate_samplesheet_subset (header : list (string * string)) (datafields : list string)
    (data : list dict_row) (samples_to_include : list (string * list string))
    (runSetup : list read) (sw : software) (t : sample_type) (index1_size index2_size : nat)
    (base_mask : list string) (settings : option (list (string * list (list (string * string)))))
    : result (list dict_row * string) :=
  bind (subset_lines header datafields data samples_to_include runSetup sw t index1_size index2_size
          base_mask settings) (fun '(data', ls) =>
  Ok (data', String.concat "" (map (fun l => l ++ linesep) ls))).

End Subset.


(** * Index files ([_parse_10X_indexes], [_parse_smartseq_indexes]) *)
Module IndexFiles.
Import Py PyStr Classify Partition StatsMerge Subset.
Local Open Scope string_scope.

(** [line.rstrip().split(",")] *)
Definition index_fields (line : string) : list string := split_char "," (rstrip line).

(** [_parse_10X_indexes] on the lines of the file. *)
Definition parse_10X_indexes (lines : list string) : result (list (string * list string)) :=
  fold_res (fun index_dict line =>
    let line_ := index_fields line in
    bind (nth_py line_ 0) (fun k => Ok (dict_set index_dict k (firstn 4 (skipn 1 line_)))))
    lines [].

(** The body of the loop of [_parse_smartseq_indexes]. *)
Definition smartseq_step (index_dict : list (string * list (string * string))) (line : string)
    : result (list (string * list (string * string))) :=
  let line_ := index_fields line in
  bind (nth_py line_ 0) (fun k =>
  match dict_get index_dict k with
  | Some ((_ :: _) as ps) =>
      bind (nth_py line_ 1) (fun a => bind (nth_py line_ 2) (fun b =>
      Ok (dict_set index_dict k (ps ++ [(a, b)])%list)))
  | _ =>
      bind (nth_py line_ 1) (fun a => bind (nth_py line_ 2) (fun b =>
      Ok (dict_set index_dict k [(a, b)])))
  end).

(** [_parse_smartseq_indexes] on the lines of the file. *)
Definition parse_smartseq_indexes (lines : list string)
    : result (list (string * list (string * string))) :=
  fold_res smartseq_step lines [].

End IndexFiles.

(** * Proofs *)

(** ** Decimal printing and digit runs *)
Module PyFacts.
Import Py.

#[local] Arguments str_nat : simpl never.

Lemma str_nat_fuel_enough (f g n : nat) :
  n < f -> n < g -> str_nat_fuel f n = str_nat_fuel g n.
Proof.
  revert g n; induction f as [|f IH]; intros g n Hf Hg; [lia|].
  destruct g as [|g]; [lia|]; cbn [str_nat_fuel].
  destruct (Nat.ltb n 10) eqn:Hn; [reflexivity|].
  apply Nat.ltb_ge in Hn.
  assert (n / 10 < n) by (apply Nat.div_lt; lia).
  rewrite (IH g); [reflexivity | lia | lia].
Qed.

Lemma str_nat_eq (n : nat) :
  str_nat n =
  if Nat.ltb n 10 then String (digit_char n) EmptyString
  else append (str_nat (n / 10)) (String (digit_char (n mod 10)) EmptyString).
Proof.
  unfold str_nat at 1; cbn [str_nat_fuel].
  destruct (Nat.ltb n 10) eqn:Hn; [reflexivity|].
  apply Nat.ltb_ge in Hn.
  assert (n / 10 < n) by (apply Nat.div_lt; lia).
  unfold str_nat; rewrite (str_nat_fuel_enough n (S (n / 10))); [reflexivity | lia | lia].
Qed.

Lemma digit_char_digit (d : nat) :
  d < 10 -> is_digit (digit_char d) = true /\ digit_val (digit_char d) = d.
Proof.
  intros Hd; unfold is_digit, digit_val, digit_char.
  rewrite nat_ascii_embedding by lia.
  split; [apply andb_true_iff; split; apply Nat.leb_le; lia | lia].
Qed.

Lemma append_string_assoc (a b c : string) : append (append a b) c = append a (append b c).
Proof. induction a as [|x a IH]; simpl; [reflexivity | now rewrite IH]. Qed.

Lemma append_string_nil (a : string) : append a EmptyString = a.
Proof. induction a as [|x a IH]; simpl; [reflexivity | now rewrite IH]. Qed.

Lemma runs_str_nat (n : nat) (s : string) :
  digit_runs_aux (append (str_nat n) s) 0 = digit_runs_aux s n.
Proof.
  revert s; induction n as [n IH] using lt_wf_ind; intros s.
  rewrite str_nat_eq.
  destruct (Nat.ltb n 10) eqn:Hn.
  - apply Nat.ltb_lt in Hn.
    destruct (digit_char_digit n Hn) as [Hd Hv]; cbn [digit_runs_aux append]; rewrite Hd, Hv.
    f_equal; lia.
  - apply Nat.ltb_ge in Hn.
    rewrite append_string_assoc; cbn [append].
    rewrite IH by (apply Nat.div_lt; lia).
    assert (Hm : n mod 10 < 10) by (apply Nat.mod_upper_bound; lia).
    destruct (digit_char_digit _ Hm) as [Hd Hv]; cbn [digit_runs_aux append]; rewrite Hd, Hv.
    f_equal; pose proof (Nat.div_mod_eq n 10); lia.
Qed.

Lemma runs_str_nat_end (n : nat) : digit_runs_aux (str_nat n) 0 = n.
Proof.
  rewrite <- (append_string_nil (str_nat n)), runs_str_nat; reflexivity.
Qed.

End PyFacts.

(** ** Base masks *)
Module BaseMaskProofs.
Import Py PyFacts BaseMask.

#[local] Arguments str_nat : simpl never.

Lemma runs_nondigit (c : ascii) (s : string) (k : nat) :
  is_digit c = false -> digit_runs_aux (String c s) k = k + digit_runs_aux s 0.
Proof. intros H; simpl; rewrite H; reflexivity. Qed.

Lemma tok1 (c : ascii) (n : nat) :
  is_digit c = false -> digit_runs_sum (String c (str_nat n)) = n.
Proof. intros H; unfold digit_runs_sum; rewrite runs_nondigit, runs_str_nat_end; auto. Qed.

Lemma tok2 (c c' : ascii) (n m : nat) :
  is_digit c = false -> is_digit c' = false ->
  digit_runs_sum (String c (append (str_nat n) (String c' (str_nat m)))) = n + m.
Proof.
  intros H H'; unfold digit_runs_sum.
  rewrite runs_nondigit, runs_str_nat, runs_nondigit, runs_str_nat_end; auto.
Qed.

Lemma tok3 (c c' c'' : ascii) (n m k : nat) :
  is_digit c = false -> is_digit c' = false -> is_digit c'' = false ->
  digit_runs_sum (String c (append (str_nat n)
     (String c' (append (str_nat m) (String c'' (str_nat k)))))) = n + m + k.
Proof.
  intros H H' H''; unfold digit_runs_sum.
  rewrite runs_nondigit, runs_str_nat, runs_nondigit, runs_str_nat, runs_nondigit,
    runs_str_nat_end; auto; lia.
Qed.

Ltac tok_sum :=
  cbn [append];
  first [ rewrite tok3 by reflexivity
        | rewrite tok2 by reflexivity
        | rewrite tok1 by reflexivity ].

Ltac split_ifs H :=
  repeat match type of H with
  | context [if ?c then _ else _] => destruct c eqn:?
  | context [match ?sw with bcl2fastq => _ | bclconvert => _ | other_software => _ end] =>
      destruct sw
  end.

Ltac nat_facts :=
  repeat match goal with
  | H : Nat.ltb _ _ = true |- _ => apply Nat.ltb_lt in H
  | H : Nat.ltb _ _ = false |- _ => apply Nat.ltb_ge in H
  | H : Nat.eqb _ _ = true |- _ => apply Nat.eqb_eq in H
  | H : Nat.eqb _ _ = false |- _ => apply Nat.eqb_neq in H
  | H : negb (Nat.eqb _ _) = true |- _ => apply negb_true_iff, Nat.eqb_neq in H
  | H : negb (Nat.eqb _ _) = false |- _ => apply negb_false_iff, Nat.eqb_eq in H
  end.

Lemma data_read_token_sum (size cycles : nat) :
  digit_runs_sum (data_read_token size cycles) = cycles.
Proof.
  unfold data_read_token; cbv zeta.
  destruct (Nat.ltb size cycles) eqn:E1; [destruct (negb (Nat.eqb size 0)) eqn:E2|];
    tok_sum; nat_facts; lia.
Qed.

Lemma index_read_token_sum (sw : software) (st : sample_type) (size umi cycles : nat) (tok : string) :
  size <= cycles -> index_read_token sw st size umi cycles = Ok tok ->
  digit_runs_sum tok = cycles.
Proof.
  intros Hle H; unfold index_read_token in H; cbv zeta in H.
  split_ifs H; try discriminate; injection H as <-; tok_sum; nat_facts; lia.
Qed.

Lemma read_token_sum (sw : software) (st : sample_type) (i1 : nat) (dual : bool)
    (i2 u1 u2 r1 r2 : nat) (r : read) (tok : string) :
  read_token sw st i1 dual i2 u1 u2 r1 r2 r = Ok tok ->
  digit_runs_sum tok = NumCycles r.
Proof.
  intros H; unfold read_token in H; cbv zeta in H.
  destruct (String.eqb (IsIndexedRead r) "N").
  - destruct (Nat.eqb (Number r) 1); injection H as <-; apply data_read_token_sum.
  - destruct (Nat.eqb (Number r) 2).
    + destruct (Nat.ltb (NumCycles r) i1) eqn:E; [discriminate|].
      nat_facts; eapply index_read_token_sum; eauto.
    + destruct (Nat.ltb (NumCycles r) i2) eqn:E; [discriminate|]; nat_facts.
      destruct (dual || sample_type_eqb st TenX_SINGLE).
      * destruct (sample_type_eqb st TenX_SINGLE).
        -- destruct sw; try discriminate; injection H as <-; tok_sum; reflexivity.
        -- eapply index_read_token_sum; eauto.
      * injection H as <-; tok_sum; reflexivity.
Qed.

Lemma map_result_Forall2 {A B} (f : A -> result B) (P : A -> B -> Prop) (l : list A) (ys : list B) :
  (forall x y, f x = Ok y -> P x y) -> map_result f l = Ok ys -> Forall2 P l ys.
Proof.
  intros Hf; revert ys; induction l as [|x l IH]; intros ys H; simpl in H.
  - injection H as <-; constructor.
  - destruct (f x) eqn:Ex; [|discriminate].
    destruct (map_result f l) eqn:El; [|discriminate].
    injection H as <-; constructor; auto.
Qed.





End BaseMaskProofs.

Module BaseMaskClaims.
Import Py PyFacts BaseMask BaseMaskProofs Examples.

(** C5: for a run geometry of at most 4 reads, whenever [_compute_base_mask]
    returns normally, it emits one token per read, in read order, and the
    integers embedded in each token sum to that read's cycle count. *)
Theorem base_mask_tokens_sum_to_cycles (sw : software) (runSetup : list read)
    (st : sample_type) (index1_size : nat) (is_dual_index : bool)
    (index2_size umi1_size umi2_size read1_size read2_size : nat) (bm : list string) :
  length runSetup <= 4 ->
  compute_base_mask sw runSetup st index1_size is_dual_index index2_size
    umi1_size umi2_size read1_size read2_size = Ok bm ->
  Forall2 (fun r tok => digit_runs_sum tok = NumCycles r) runSetup bm.
Proof.
  intros _ H; unfold compute_base_mask in H.
  destruct (Nat.ltb 4 (length runSetup)); [discriminate|].
  eapply map_result_Forall2; [|exact H].
  intros r tok Hr; eapply read_token_sum; exact Hr.
Qed.

Lemma base_mask_tokens_sum_to_cycles_witness :
  compute_base_mask bcl2fastq run_150_8_8_150 ordinary 8 true 8 0 0 150 150
    = Ok ["Y150"; "I8"; "I8"; "Y150"]%string /\
  Forall2 (fun r tok => digit_runs_sum tok = NumCycles r) run_150_8_8_150
    ["Y150"; "I8"; "I8"; "Y150"]%string.
Proof.
  split; [reflexivity|].
  apply (base_mask_tokens_sum_to_cycles bcl2fastq run_150_8_8_150 ordinary 8 true 8 0 0 150 150);
    [simpl; lia | reflexivity].
Defined.





End BaseMaskClaims.

(** ** Sample classification *)
Module ClassifyClaims.
Import Py PyStr BaseMask Classify.
Local Open Scope string_scope.

(** C4: whenever [_classify_samples] classifies a row, the sample type is
    the one of the first rule that applies in the order 10X single, 10X dual,
    IDT UMI, Smart-seq, NOINDEX with index cycles, NOINDEX without index
    cycles, short single index, ordinary; the NOINDEX rule takes the index
    cycles as index length, the NOINDEX-without-cycles rule (0,0), and the
    last two rules the literal index lengths. *)
Theorem classify_sample_precedence (tenx : list (string * list string))
    (smartseq : list (string * list (string * string)))
    (index_cycles : nat * nat) (read_cycles : Z * Z) (row : ss_row) (c : classification) :
  classify_sample tenx smartseq index_cycles read_cycles row = Ok c ->
  let k := first_true (claimed_guards index_cycles (row_index row) (row_index2 row)) in
  sample_type_of c = nth k claimed_types ordinary /\
  (k = 4 -> index_length c = index_cycles) /\
  (k = 5 -> index_length c = (0, 0)) /\
  (6 <= k -> index_length c = (String.length (row_index row), String.length (row_index2 row))).
Proof.
  unfold classify_sample, claimed_guards; cbv zeta.
  destruct (row_read_length read_cycles row) as [rl|e]; simpl bind; [|discriminate].
  destruct (search tenx_single_here (row_index row)) eqn:E1; simpl first_true.
  { destruct (dict_index tenx (row_index row)); simpl; [|discriminate].
    destruct (nth_py _ 0); simpl; [|discriminate].
    intros H; injection H as <-; simpl; repeat split; intros; lia. }
  destruct (search tenx_dual_here (row_index row)) eqn:E2; simpl first_true.
  { destruct (dict_index tenx (row_index row)); simpl; [|discriminate].
    destruct (nth_py _ 0); simpl; [|discriminate].
    destruct (nth_py _ 1); simpl; [|discriminate].
    intros H; injection H as <-; simpl; repeat split; intros; lia. }
  destruct (idt_umi_match (row_index row) || idt_umi_match (row_index2 row)) eqn:E3; simpl first_true.
  { intros H; injection H as <-; simpl; repeat split; intros; lia. }
  destruct (search smartseq_here (row_index row)) eqn:E4; simpl first_true.
  { destruct (nth_py _ 1); simpl; [|discriminate].
    destruct (dict_index smartseq _); simpl; [|discriminate].
    destruct (nth_py _ 0); simpl; [|discriminate].
    intros H; injection H as <-; simpl; repeat split; intros; lia. }
  destruct (String.eqb (upper (row_index row)) "NOINDEX" && negb (pair_eqb index_cycles (0, 0)))
    eqn:E5; simpl first_true.
  { intros H; injection H as <-; simpl; repeat split; intros; try reflexivity; lia. }
  destruct (String.eqb (upper (row_index row)) "NOINDEX" && pair_eqb index_cycles (0, 0))
    eqn:E6; simpl first_true.
  { intros H; injection H as <-; simpl; repeat split; intros; try reflexivity; lia. }
  destruct ((Nat.leb (String.length (row_index row)) 8 && Nat.eqb (String.length (row_index2 row)) 0)
      || (Nat.eqb (String.length (row_index row)) 0 && Nat.leb (String.length (row_index2 row)) 8))
    eqn:E7; simpl first_true;
  intros H; injection H as <-; simpl; repeat split; intros; try reflexivity; lia.
Qed.

Lemma classify_sample_precedence_witness :
  classify_sample [("SI-GA-A1", ["GGTTTACT"; "CTAAACGG"; "TCGGCGTC"; "AACCGTAA"])]%string []
    (8, 8) (151, 151)%Z (mkRow "1" "S1" (Some "SI-GA-A1") None None)
    = Ok (mkClass TenX_SINGLE (8, 0) (0, 0) (151, 151)%Z) /\
  sample_type_of (mkClass TenX_SINGLE (8, 0) (0, 0) (151, 151)%Z)
    = nth (first_true (claimed_guards (8, 8) "SI-GA-A1" "")) claimed_types ordinary.
Proof.
  split; [reflexivity|].
  exact (proj1 (classify_sample_precedence
    [("SI-GA-A1", ["GGTTTACT"; "CTAAACGG"; "TCGGCGTC"; "AACCGTAA"])]%string [] (8, 8) (151, 151)%Z
    (mkRow "1" "S1" (Some "SI-GA-A1") None None) (mkClass TenX_SINGLE (8, 0) (0, 0) (151, 151)%Z)
    eq_refl)).
Defined.

Lemma upper_char_is_N (c : ascii) :
  (if Ascii.eqb (ascii_upper c) "N" then 1 else 0) =
  (if Ascii.eqb c "N" then 1 else 0) + (if Ascii.eqb c "n" then 1 else 0).
Proof. destruct c as [[] [] [] [] [] [] [] []]; reflexivity. Qed.

(** Stripping the ['N'] characters and counting the ['N'] of the upper-cased
    string over-counts by the lowercase ['n']. *)
Lemma strip_plus_count_N (s : string) :
  String.length (remove_char "N" s) + count_char "N" (upper s) =
  String.length s + count_char "n" s.
Proof.
  induction s as [|c s IH]; [reflexivity|].
  cbn [remove_char upper count_char String.length].
  pose proof (upper_char_is_N c) as Hc.
  destruct (Ascii.eqb c "N") eqn:EN; destruct (Ascii.eqb c "n") eqn:En;
    cbn [String.length] in *; lia.
Qed.

(** For an IDT UMI row, [index_length[i] + umi_length[i]] is the length of
    the index string plus its number of lowercase ['n']. *)
Lemma idt_umi_index_plus_umi (tenx : list (string * list string))
    (smartseq : list (string * list (string * string)))
    (index_cycles : nat * nat) (read_cycles : Z * Z) (row : ss_row) (c : classification) :
  classify_sample tenx smartseq index_cycles read_cycles row = Ok c ->
  sample_type_of c = IDT_UMI ->
  fst (index_length c) + fst (umi_length c) =
    String.length (row_index row) + count_char "n" (row_index row) /\
  snd (index_length c) + snd (umi_length c) =
    String.length (row_index2 row) + count_char "n" (row_index2 row).
Proof.
  unfold classify_sample; cbv zeta.
  destruct (row_read_length read_cycles row); simpl bind; [|discriminate].
  repeat match goal with
  | |- context [if ?b then _ else _] => destruct b
  | |- context [bind ?m _] => destruct m; simpl bind; [|discriminate]
  end;
  intros H Ht; injection H as <-; simpl in Ht; try discriminate;
  simpl; split; apply strip_plus_count_N.
Qed.

(** C6 fails on the code: with index "ACGTNN" and index2 "ACGTACnn" the row
    is IDT UMI with index length (4, 8) and UMI length (2, 2); on side 2 the
    sum is 10 while the index string has 8 characters. *)
Theorem idt_umi_lowercase_n_overcount :
  classify_sample [] [] (8, 8) (151, 151)%Z
    (mkRow "1" "S1" (Some "ACGTNN") (Some "ACGTACnn") None)
    = Ok (mkClass IDT_UMI (4, 8) (2, 2) (151, 151)%Z) /\
  8 + 2 <> String.length "ACGTACnn".
Proof. split; [reflexivity | simpl; lia]. Qed.

End ClassifyClaims.

(** ** Lane tables and job counts *)
Module PartitionProofs.
Import Py BaseMask Classify Partition.

Lemma sample_type_eqb_spec (a b : sample_type) : sample_type_eqb a b = true <-> a = b.
Proof. destruct a, b; simpl; split; congruence. Qed.

Lemma mask_eqb_spec (a b : mask) : mask_eqb a b = true <-> a = b.
Proof. unfold mask_eqb; destruct (mask_eq_dec a b); split; congruence. Qed.

Lemma mem_mask_spec (m : mask) (ms : list mask) : mem_mask m ms = true <-> In m ms.
Proof.
  unfold mem_mask; rewrite existsb_exists; split.
  - intros [x [Hx He]]; apply mask_eqb_spec in He; subst; exact Hx.
  - intros H; exists m; split; [exact H | apply mask_eqb_spec; reflexivity].
Qed.

Lemma dedup_into_In (acc l : list mask) (x : mask) :
  In x (dedup_into acc l) <-> In x acc \/ In x l.
Proof.
  unfold dedup_into; revert acc; induction l as [|m l IH]; intros acc; simpl.
  - tauto.
  - rewrite IH; destruct (mem_mask m acc) eqn:Hm.
    + apply mem_mask_spec in Hm; split; [tauto|].
      intros [H|[<-|H]]; auto.
    + rewrite in_app_iff; simpl; tauto.
Qed.

Lemma dedup_into_NoDup (acc l : list mask) : NoDup acc -> NoDup (dedup_into acc l).
Proof.
  unfold dedup_into; revert acc; induction l as [|m l IH]; intros acc Hacc; simpl; [exact Hacc|].
  apply IH; destruct (mem_mask m acc) eqn:Hm; [exact Hacc|].
  apply NoDup_app; [exact Hacc | repeat constructor; simpl; tauto |].
  intros x Hx [<-|[]]; apply (proj2 (mem_mask_spec _ acc)) in Hx; congruence.
Qed.

Lemma NoDup_same_length (a b : list mask) :
  NoDup a -> NoDup b -> (forall x, In x a <-> In x b) -> length a = length b.
Proof.
  intros Ha Hb H; apply Nat.le_antisymm; apply NoDup_incl_length; auto;
  intros x; apply H.
Qed.

Lemma dedup_into_length (l : list mask) :
  length (dedup_into [] l) = length (nodup mask_eq_dec l).
Proof.
  apply NoDup_same_length; [apply dedup_into_NoDup; constructor | apply NoDup_nodup |].
  intros x; rewrite dedup_into_In, nodup_In; simpl; tauto.
Qed.

Lemma dict_get_absent {V} (d : list (string * V)) (k : string) :
  ~ In k (map fst d) -> dict_get d k = None.
Proof.
  induction d as [|[k' v] d IH]; simpl; intros H; [reflexivity|].
  destruct (String.eqb k k') eqn:E; [apply String.eqb_eq in E; subst; tauto | apply IH; tauto].
Qed.

Lemma dict_set_absent {V} (d : list (string * V)) (k : string) (v : V) :
  ~ In k (map fst d) -> dict_set d k v = d ++ [(k, v)].
Proof.
  induction d as [|[k' v'] d IH]; simpl; intros H; [reflexivity|].
  destruct (String.eqb k k') eqn:E; [apply String.eqb_eq in E; subst; tauto | rewrite IH; tauto].
Qed.

Lemma dict_get_last {V} (d : list (string * V)) (k : string) (v : V) :
  ~ In k (map fst d) -> dict_get (d ++ [(k, v)]) k = Some v.
Proof.
  induction d as [|[k' v'] d IH]; simpl; intros H.
  - rewrite String.eqb_refl; reflexivity.
  - destruct (String.eqb k k') eqn:E; [apply String.eqb_eq in E; subst; tauto | apply IH; tauto].
Qed.

Lemma dict_set_last {V} (d : list (string * V)) (k : string) (v w : V) :
  ~ In k (map fst d) -> dict_set (d ++ [(k, v)]) k w = d ++ [(k, w)].
Proof.
  induction d as [|[k' v'] d IH]; simpl; intros H.
  - rewrite String.eqb_refl; reflexivity.
  - destruct (String.eqb k k') eqn:E; [apply String.eqb_eq in E; subst; tauto | rewrite IH; tauto].
Qed.

Lemma lane_step_extend (t : sample_type) (lane : string) (es : list (string * classification))
    (lt : list (string * list mask)) (ms : list mask) :
  ~ In lane (map fst lt) -> ms <> [] ->
  lane_step t lane es (lt ++ [(lane, ms)]) = lt ++ [(lane, dedup_into ms (tuples_of_type t es))].
Proof.
  unfold lane_step, tuples_of_type; intros Hl; revert ms.
  induction es as [|e es IH]; intros ms Hms; simpl; [reflexivity|].
  destruct (sample_type_eqb (sample_type_of (snd e)) t); simpl; [|apply IH; exact Hms].
  unfold lane_table_add; rewrite dict_get_last by exact Hl.
  destruct ms as [|m0 ms']; [congruence|].
  destruct (mem_mask (mask_of (snd e)) (m0 :: ms')).
  - apply IH; discriminate.
  - rewrite dict_set_last by exact Hl; apply IH.
    intros H; apply app_eq_nil in H; destruct H; discriminate.
Qed.

Lemma lane_step_new (t : sample_type) (lane : string) (es : list (string * classification))
    (lt : list (string * list mask)) :
  ~ In lane (map fst lt) ->
  lane_step t lane es lt =
    lt ++ match tuples_of_type t es with [] => [] | ts => [(lane, dedup_into [] ts)] end.
Proof.
  intros Hl; induction es as [|e es IH]; [simpl; rewrite app_nil_r; reflexivity|].
  unfold lane_step, tuples_of_type in *; simpl.
  destruct (sample_type_eqb (sample_type_of (snd e)) t); [|exact IH].
  unfold lane_table_add; rewrite dict_get_absent, dict_set_absent by exact Hl; simpl.
  change (fold_left _ es (lt ++ [(lane, [mask_of (snd e)])]))
    with (lane_step t lane es (lt ++ [(lane, [mask_of (snd e)])])).
  rewrite (lane_step_extend t lane es lt [mask_of (snd e)]) by (auto; discriminate).
  reflexivity.
Qed.

Lemma lane_table_of_spec (t : sample_type) (st : sample_table) :
  NoDup (map fst st) -> lane_table_of t st = lane_table_spec t st.
Proof.
  intros Hnd; unfold lane_table_of.
  change (lane_table_spec t st) with ([] ++ lane_table_spec t st).
  assert (Hk : forall k, In k (map fst (@nil (string * list mask))) -> ~ In k (map fst st))
    by (intros k []).
  generalize (@nil (string * list mask)) as lt, Hk; clear Hk.
  induction st as [|le st IH]; intros lt Hk; simpl; [rewrite app_nil_r; reflexivity|].
  inversion Hnd as [|? ? Hle Hnd']; subst.
  fold (lane_step t (fst le) (snd le) lt).
  rewrite lane_step_new by (intros H; apply (Hk _ H); left; reflexivity).
  rewrite IH by (exact Hnd' || (intros k Hin; rewrite map_app, in_app_iff in Hin;
    destruct Hin as [Hin|Hin];
    [intros H; apply (Hk k Hin); right; exact H
    | destruct (tuples_of_type t (snd le)); simpl in Hin; [tauto|];
      destruct Hin as [<-|[]]; exact Hle])).
  rewrite <- app_assoc; reflexivity.
Qed.

Lemma max_by_len_length (v : list mask) (vs : list (list mask)) :
  length (fold_left (fun best v => if Nat.ltb (length best) (length v) then v else best) vs v)
    = fold_right Nat.max 0 (map (@length mask) (v :: vs)).
Proof.
  revert v; induction vs as [|w vs IH]; intros v; simpl; [lia|].
  rewrite IH; simpl.
  destruct (Nat.ltb (length v) (length w)) eqn:E;
    [apply Nat.ltb_lt in E | apply Nat.ltb_ge in E]; lia.
Qed.

Lemma lane_table_spec_values_length (t : sample_type) (st : sample_table) :
  fold_right Nat.max 0 (map (@length mask) (map snd (lane_table_spec t st)))
    = claimed_demux_count t st.
Proof.
  unfold claimed_demux_count; induction st as [|le st IH]; [reflexivity|].
  unfold lane_table_spec; cbn [flat_map]; fold (lane_table_spec t st).
  rewrite !map_app, fold_right_app, IH; cbn [map fold_right].
  destruct (tuples_of_type t (snd le)) as [|m ms] eqn:E; cbn [map fold_right snd].
  - reflexivity.
  - rewrite dedup_into_length; reflexivity.
Qed.

Lemma lane_table_spec_nonempty (t : sample_type) (st : sample_table) :
  Exists (fun le => tuples_of_type t (snd le) <> []) st -> lane_table_spec t st <> [].
Proof.
  unfold lane_table_spec; induction 1 as [le st H|le st _ IH]; simpl.
  - destruct (tuples_of_type t (snd le)); [congruence | discriminate].
  - destruct (tuples_of_type t (snd le)); [exact IH | discriminate].
Qed.

Lemma fold_dedup_into (vs : list (list mask)) (acc : list mask) :
  fold_left dedup_into vs acc = dedup_into acc (concat vs).
Proof.
  revert acc; induction vs as [|ms vs IH]; intros acc; simpl; [reflexivity|].
  rewrite IH; unfold dedup_into; rewrite fold_left_app; reflexivity.
Qed.

Lemma unique_masks_dedup (lt : list (string * list mask)) :
  unique_masks lt = dedup_into [] (concat (map snd lt)).
Proof. exact (fold_dedup_into (map snd lt) []). Qed.

Lemma lane_table_spec_In (t : sample_type) (st : sample_table) (x : mask) :
  In x (concat (map snd (lane_table_spec t st))) <->
  In x (concat (map (fun le => tuples_of_type t (snd le)) st)).
Proof.
  unfold lane_table_spec; induction st as [|le st IH]; simpl; [tauto|].
  rewrite map_app, concat_app, !in_app_iff, IH.
  destruct (tuples_of_type t (snd le)) as [|m ms]; simpl; [tauto|].
  rewrite app_nil_r, dedup_into_In; simpl; tauto.
Qed.

Lemma inner_types_In (es : list (string * classification)) (l : list sample_type) (u : sample_type) :
  In u (fold_left (fun l (sample : string * classification) =>
      if existsb (sample_type_eqb (sample_type_of (snd sample))) l then l
      else l ++ [sample_type_of (snd sample)]) es l)
  <-> In u l \/ exists e, In e es /\ sample_type_of (snd e) = u.
Proof.
  revert l; induction es as [|e es IH]; intros l; simpl.
  - split; [tauto | intros [H|[e [[] _]]]; exact H].
  - rewrite IH; destruct (existsb _ l) eqn:E.
    + apply existsb_exists in E; destruct E as [v [Hv Hve]]; apply sample_type_eqb_spec in Hve.
      split; [intros [H|[e' [He' H]]]; [tauto | right; eauto] |].
      intros [H|[e' [[<-|He'] H]]]; [tauto | subst; tauto | right; eauto].
    + rewrite in_app_iff; simpl.
      split; [intros [[H|[H|[]]]|[e' [He' H]]]; [tauto | right; eauto | right; eauto] |].
      intros [H|[e' [[<-|He'] H]]]; [tauto | subst; tauto | right; eauto].
Qed.

Lemma sample_type_list_In (st : sample_table) (u : sample_type) :
  In u (sample_type_list st) <-> Exists (fun le => tuples_of_type u (snd le) <> []) st.
Proof.
  unfold sample_type_list.
  assert (Hlane : forall es : list (string * classification),
    tuples_of_type u es <> [] <-> exists e, In e es /\ sample_type_of (snd e) = u).
  { intros es; unfold tuples_of_type; induction es as [|e es IH]; simpl.
    - split; [tauto | intros [e [[] _]]].
    - destruct (sample_type_eqb (sample_type_of (snd e)) u) eqn:E.
      + apply sample_type_eqb_spec in E; split; [intros _; eauto | discriminate].
      + rewrite IH; split; [intros [e' [He' H]]; eauto |].
        intros [e' [[<-|He'] H]]; [subst; rewrite (proj2 (sample_type_eqb_spec _ _) eq_refl) in E;
          discriminate | eauto]. }
  rewrite Exists_exists.
  enough (forall l, In u (fold_left (fun l (lane_contents : string * list (string * classification)) =>
      fold_left (fun l (sample : string * classification) =>
        if existsb (sample_type_eqb (sample_type_of (snd sample))) l then l
        else l ++ [sample_type_of (snd sample)]) (snd lane_contents) l) st l)
    <-> In u l \/ exists le, In le st /\ tuples_of_type u (snd le) <> []) as H
    by (rewrite H; simpl; tauto).
  induction st as [|le st IH]; intros l; simpl.
  - split; [tauto | intros [H|[le [[] _]]]; exact H].
  - rewrite IH, inner_types_In; specialize (Hlane (snd le)).
    split.
    + intros [[H|H]|[le' [Hle' H]]]; [tauto | right; exists le; tauto | right; eauto].
    + intros [H|[le' [[<-|Hle'] H]]]; [tauto | tauto | right; eauto].
Qed.

Lemma sorted_sample_types_In (st : sample_table) (u : sample_type) :
  In u (sorted_sample_types st) <-> In u (sample_type_list st).
Proof.
  unfold sorted_sample_types; rewrite filter_In, existsb_exists.
  split.
  - intros [_ [v [Hv Hu]]]; apply sample_type_eqb_spec in Hu; subst; exact Hv.
  - intros H; split; [destruct u; simpl; tauto | exists u; split; [exact H|]].
    apply sample_type_eqb_spec; reflexivity.
Qed.

Lemma sorted_sample_types_NoDup (st : sample_table) : NoDup (sorted_sample_types st).
Proof.
  unfold sorted_sample_types; apply NoDup_filter.
  unfold types_by_name; repeat constructor; simpl; intuition discriminate.
Qed.

Lemma count_jobs_app (t u : sample_type) (jobs : list (sample_type * nat)) (n : nat) :
  count_jobs t (jobs ++ map (fun i => (u, i)) (seq 0 n))
    = count_jobs t jobs + (if sample_type_eqb u t then n else 0).
Proof.
  unfold count_jobs; rewrite filter_app, length_app; f_equal.
  rewrite <- (length_seq n 0) at 2; generalize (seq 0 n) as l.
  induction l as [|i l IH]; simpl; [destruct (sample_type_eqb u t); reflexivity|].
  destruct (sample_type_eqb u t); simpl; rewrite IH; reflexivity.
Qed.

Lemma demux_jobs_fold (sw : software) (st : sample_table) (t : sample_type) (nt : nat)
    (L : list sample_type) (jobs0 : list (sample_type * nat)) :
  NoDup L ->
  demux_number sw (lane_table_of t st) = Ok nt ->
  (forall u, In u L -> exists n, demux_number sw (lane_table_of u st) = Ok n) ->
  exists jobs,
    fold_left (fun acc u =>
      bind acc (fun jobs => bind (demux_number sw (lane_table_of u st)) (fun n =>
      Ok (jobs ++ map (fun i => (u, i)) (seq 0 n))))) L (Ok jobs0) = Ok jobs /\
    count_jobs t jobs = count_jobs t jobs0 + (if existsb (sample_type_eqb t) L then nt else 0).
Proof.
  revert jobs0; induction L as [|u L IH]; intros jobs0 Hnd Ht Hall; simpl.
  - exists jobs0; split; [reflexivity | lia].
  - inversion Hnd as [|? ? HuL HndL]; subst.
    destruct (Hall u (or_introl eq_refl)) as [n Hn]; rewrite Hn; simpl bind.
    destruct (IH (jobs0 ++ map (fun i => (u, i)) (seq 0 n))) as [jobs [Hj Hc]];
      [exact HndL | exact Ht | intros v Hv; apply Hall; right; exact Hv |].
    exists jobs; split; [exact Hj|]; rewrite Hc, count_jobs_app.
    destruct (sample_type_eqb t u) eqn:E.
    + apply sample_type_eqb_spec in E; subst u.
      rewrite (proj2 (sample_type_eqb_spec t t) eq_refl).
      assert (Hno : existsb (sample_type_eqb t) L = false).
      { apply not_true_iff_false; intros H; apply existsb_exists in H.
        destruct H as [v [Hv Hv']]; apply sample_type_eqb_spec in Hv'; subst; tauto. }
      rewrite Hno, Ht in *; injection Hn as ->; simpl; lia.
    + assert (E' : sample_type_eqb u t = false)
        by (destruct u, t; simpl in *; congruence).
      rewrite E'; simpl; lia.
Qed.

Lemma demux_jobs_count (sw : software) (st : sample_table) (t : sample_type) (nt : nat) :
  Exists (fun le => tuples_of_type t (snd le) <> []) st ->
  demux_number sw (lane_table_of t st) = Ok nt ->
  (forall u, In u (sorted_sample_types st) -> exists n, demux_number sw (lane_table_of u st) = Ok n) ->
  exists jobs, demux_jobs sw st = Ok jobs /\ count_jobs t jobs = nt.
Proof.
  intros Hex Ht Hall.
  destruct (demux_jobs_fold sw st t nt (sorted_sample_types st) [])
    as [jobs [Hj Hc]]; [apply sorted_sample_types_NoDup | exact Ht | exact Hall |].
  exists jobs; split; [exact Hj|]; rewrite Hc.
  assert (Hin : existsb (sample_type_eqb t) (sorted_sample_types st) = true).
  { apply existsb_exists; exists t; split; [|apply sample_type_eqb_spec; reflexivity].
    apply sorted_sample_types_In, sample_type_list_In; exact Hex. }
  rewrite Hin; reflexivity.
Qed.

Lemma bcl2fastq_demux_number (st : sample_table) (t : sample_type) :
  NoDup (map fst st) ->
  Exists (fun le => tuples_of_type t (snd le) <> []) st ->
  demux_number bcl2fastq (lane_table_of t st) = Ok (claimed_demux_count t st).
Proof.
  intros Hnd Hex; rewrite lane_table_of_spec by exact Hnd; simpl.
  rewrite <- lane_table_spec_values_length.
  pose proof (lane_table_spec_nonempty t st Hex) as Hne.
  destruct (lane_table_spec t st) as [|[k v] lt]; [congruence|]; simpl map; simpl max_by_len.
  simpl bind; rewrite max_by_len_length; reflexivity.
Qed.

Lemma bclconvert_demux_number (st : sample_table) (t : sample_type) :
  NoDup (map fst st) ->
  demux_number bclconvert (lane_table_of t st)
    = Ok (length (nodup mask_eq_dec (concat (map (fun le => tuples_of_type t (snd le)) st)))).
Proof.
  intros Hnd; rewrite lane_table_of_spec by exact Hnd; simpl; f_equal.
  rewrite unique_masks_dedup; apply NoDup_same_length;
    [apply dedup_into_NoDup; constructor | apply NoDup_nodup |].
  intros x; rewrite dedup_into_In, nodup_In, lane_table_spec_In; simpl; tauto.
Qed.

End PartitionProofs.

(** ** Claims on the sub-demultiplexing jobs *)
Module PartitionClaims.
Import Py BaseMask Classify Partition PartitionProofs Examples.

(** C7 (amended): let [t] be a sample type present in the sample table.
    With bcl2fastq, the loop of [demux_run] makes as many jobs for [t] as
    the largest number of distinct (index_length, umi_length, read_length)
    tuples of [t] in one lane.  With bclconvert it makes one job per
    distinct tuple of [t] over all lanes together. *)
Theorem demux_jobs_per_sample_type (st : sample_table) (t : sample_type) :
  NoDup (map fst st) ->
  Exists (fun le => tuples_of_type t (snd le) <> []) st ->
  (exists jobs, demux_jobs bcl2fastq st = Ok jobs /\
                count_jobs t jobs = claimed_demux_count t st) /\
  (exists jobs, demux_jobs bclconvert st = Ok jobs /\
                count_jobs t jobs =
                  length (nodup mask_eq_dec (concat (map (fun le => tuples_of_type t (snd le)) st)))).
Proof.
  intros Hnd Hex; split.
  - apply demux_jobs_count; [exact Hex | apply bcl2fastq_demux_number; assumption |].
    intros u Hu; eexists; apply bcl2fastq_demux_number; [exact Hnd|].
    apply sample_type_list_In, sorted_sample_types_In; exact Hu.
  - apply demux_jobs_count; [exact Hex | apply bclconvert_demux_number; assumption |].
    intros u _; eexists; apply bclconvert_demux_number; exact Hnd.
Qed.

Lemma demux_jobs_per_sample_type_witness :
  NoDup (map fst st_two_lanes) /\
  Exists (fun le => tuples_of_type ordinary (snd le) <> []) st_two_lanes /\
  ((exists jobs, demux_jobs bcl2fastq st_two_lanes = Ok jobs /\
                 count_jobs ordinary jobs = claimed_demux_count ordinary st_two_lanes) /\
   (exists jobs, demux_jobs bclconvert st_two_lanes = Ok jobs /\
                 count_jobs ordinary jobs =
                   length (nodup mask_eq_dec
                     (concat (map (fun le => tuples_of_type ordinary (snd le)) st_two_lanes))))).
Proof.
  assert (H1 : NoDup (map fst st_two_lanes))
    by (simpl; constructor; [intros [H|[]]; discriminate | constructor; [intros [] | constructor]]).
  assert (H2 : Exists (fun le => tuples_of_type ordinary (snd le) <> []) st_two_lanes)
    by (left; simpl; discriminate).
  split; [exact H1 | split; [exact H2 | apply (demux_jobs_per_sample_type st_two_lanes ordinary H1 H2)]].
Defined.

(** C7 fails as stated for bclconvert: two lanes with one dual-indexed
    sample each, index lengths (8, 8) and (8, 6), are both typed ordinary
    by [_classify_samples]; with bclconvert they give two ordinary jobs,
    while the largest number of distinct tuples in one lane is 1. *)
Lemma bclconvert_jobs_exceed_lane_maximum :
  classify_samples [] [] run_151_8_8_151 rows_two_lanes = Ok st_two_lanes /\
  demux_jobs bclconvert st_two_lanes = Ok [(ordinary, 0); (ordinary, 1)] /\
  claimed_demux_count ordinary st_two_lanes = 1.
Proof. repeat split; vm_compute; reflexivity. Qed.

End PartitionClaims.

(** ** Sub-samplesheet names *)
Module GlobProofs.
Import Py PyStr PyFacts Glob.
Local Open Scope string_scope.

Lemma string_length_append (a b : string) :
  String.length (a ++ b) = String.length a + String.length b.
Proof. induction a as [|x a IH]; simpl; [reflexivity | now rewrite IH]. Qed.

Lemma ends_with_digit_csv_tail (a : string) (c d : ascii) :
  ends_with_digit_csv (a ++ String c (String d ".csv")) = Ascii.eqb c "_"%char && is_digit d.
Proof.
  induction a as [|x a IH].
  - cbn [append ends_with_digit_csv].
    destruct (Ascii.eqb c "_"%char), (is_digit d), (Ascii.eqb d "_"%char); reflexivity.
  - cbn [append ends_with_digit_csv].
    destruct (a ++ String c (String d ".csv")) as [|y rest] eqn:E.
    + apply (f_equal String.length) in E; rewrite string_length_append in E; simpl in E; lia.
    + rewrite <- IH.
      destruct (String.eqb rest ".csv") eqn:R.
      * apply String.eqb_eq in R; subst rest.
        apply (f_equal String.length) in E; rewrite string_length_append in E; simpl in E; lia.
      * rewrite !andb_false_r; reflexivity.
Qed.

Lemma str_nat_last (m : nat) :
  exists p, str_nat m = p ++ String (digit_char (m mod 10)) EmptyString.
Proof.
  rewrite str_nat_eq; destruct (Nat.ltb m 10) eqn:E.
  - apply Nat.ltb_lt in E; exists EmptyString; rewrite Nat.mod_small by exact E; reflexivity.
  - exists (str_nat (m / 10)); reflexivity.
Qed.

Lemma digit_char_not_underscore (k : nat) : k < 10 -> Ascii.eqb (digit_char k) "_"%char = false.
Proof.
  intros Hk; destruct (Ascii.eqb (digit_char k) "_"%char) eqn:E; [|reflexivity].
  apply Ascii.eqb_eq in E; destruct (digit_char_digit k Hk) as [Hd _].
  rewrite E in Hd; discriminate.
Qed.

Lemma glob_match_sub_samplesheet (n : nat) :
  glob_match (sub_samplesheet_name n) = Nat.leb n 9.
Proof.
  destruct (Nat.leb n 9) eqn:E.
  - apply Nat.leb_le in E.
    do 10 (destruct n as [|n]; [vm_compute; reflexivity|]); lia.
  - apply Nat.leb_gt in E.
    change (glob_match (sub_samplesheet_name n)) with (ends_with_digit_csv (sub_samplesheet_name n)).
    destruct (str_nat_last (n / 10)) as [p Hp].
    assert (Hs : sub_samplesheet_name n = ("SampleSheet_" ++ p) ++
      String (digit_char ((n / 10) mod 10)) (String (digit_char (n mod 10)) ".csv")).
    { unfold sub_samplesheet_name; rewrite str_nat_eq.
      replace (Nat.ltb n 10) with false by (symmetry; apply Nat.ltb_ge; lia).
      rewrite Hp, !append_string_assoc; reflexivity. }
    rewrite Hs, ends_with_digit_csv_tail.
    rewrite digit_char_not_underscore by (apply Nat.mod_upper_bound; lia); reflexivity.
Qed.

Lemma demux_id_of_sub_samplesheet (n : nat) :
  n <= 9 -> demux_id_of (sub_samplesheet_name n) = Ok (str_nat n).
Proof. intros E; do 10 (destruct n as [|n]; [vm_compute; reflexivity|]); lia. Qed.

End GlobProofs.

(** ** Claims on the enumeration of sub-demultiplexings *)
Module GlobClaims.
Import Py PyStr Glob GlobProofs Examples.

(** C9: [check_run_status] and the aggregation both take the sub-jobs from
    the run-directory entries matched by ["*_[0-9].csv"].  The sheet
    [SampleSheet_<n>.csv] is among them exactly when it is in the directory
    and [n <= 9]; its demux id is then the decimal text of [n].  When every
    matched entry is such a sheet, at most 10 sheets are matched and every
    demux id is one of 0 to 9. *)
Theorem sub_samplesheets_single_digit (run_dir : list string) :
  (forall n, In (sub_samplesheet_name n) (samplesheets run_dir) <->
             In (sub_samplesheet_name n) run_dir /\ n <= 9) /\
  (forall n, n <= 9 -> demux_id_of (sub_samplesheet_name n) = Ok (str_nat n)) /\
  (NoDup run_dir ->
   (forall f, In f run_dir -> glob_match f = true -> exists m, f = sub_samplesheet_name m) ->
   length (samplesheets run_dir) <= 10 /\
   Forall (fun id => exists m, m <= 9 /\ id = Ok (str_nat m)) (sub_demux_ids run_dir)).
Proof.
  assert (Hmem : forall n, In (sub_samplesheet_name n) (samplesheets run_dir) <->
                           In (sub_samplesheet_name n) run_dir /\ n <= 9).
  { intros n; unfold samplesheets; rewrite filter_In, glob_match_sub_samplesheet, Nat.leb_le.
    tauto. }
  assert (Hsheet : forall f, In f (samplesheets run_dir) ->
    (forall f, In f run_dir -> glob_match f = true -> exists m, f = sub_samplesheet_name m) ->
    exists m, m <= 9 /\ f = sub_samplesheet_name m).
  { intros f Hf Hall; pose proof Hf as Hf'; unfold samplesheets in Hf; apply filter_In in Hf.
    destruct (Hall f (proj1 Hf) (proj2 Hf)) as [m ->]; exists m; split; [|reflexivity].
    apply Hmem in Hf'; tauto. }
  split; [exact Hmem | split; [exact demux_id_of_sub_samplesheet |]].
  intros Hnd Hall; split.
  - change 10 with (length (map sub_samplesheet_name (seq 0 10))).
    apply NoDup_incl_length; [apply NoDup_filter; exact Hnd |].
    intros f Hf; destruct (Hsheet f Hf Hall) as [m [Hm ->]].
    apply in_map, in_seq; lia.
  - unfold sub_demux_ids; apply Forall_map, Forall_forall; intros f Hf.
    destruct (Hsheet f Hf Hall) as [m [Hm ->]]; exists m; split; [exact Hm|].
    apply demux_id_of_sub_samplesheet; exact Hm.
Qed.

Lemma sub_samplesheets_single_digit_witness :
  NoDup run_dir_0_1_10 /\
  (forall f, In f run_dir_0_1_10 -> glob_match f = true -> exists m, f = sub_samplesheet_name m) /\
  length (samplesheets run_dir_0_1_10) <= 10 /\
  Forall (fun id => exists m, m <= 9 /\ id = Ok (str_nat m)) (sub_demux_ids run_dir_0_1_10).
Proof.
  assert (H1 : NoDup run_dir_0_1_10).
  { unfold run_dir_0_1_10; repeat constructor; simpl; intuition discriminate. }
  assert (H2 : forall f, In f run_dir_0_1_10 -> glob_match f = true ->
                         exists m, f = sub_samplesheet_name m).
  { intros f Hf Hg; simpl in Hf; repeat destruct Hf as [Hf|Hf]; try contradiction; subst;
      vm_compute in Hg; try discriminate; [exists 0 | exists 1]; reflexivity. }
  split; [exact H1 | split; [exact H2 |]].
  apply (proj2 (proj2 (sub_samplesheets_single_digit run_dir_0_1_10)) H1 H2).
Defined.

End GlobClaims.

(** ** NoIndex lanes *)
Module NoIndexClaims.
Import Py PyStr BaseMask Classify Lanes Examples.
Local Open Scope string_scope.

Lemma noindex_lanes_In (rows : list ss_row) (lane : string) :
  In lane (noindex_lanes rows) <->
  exists r, In r rows /\ Lane r = lane /\
    (upper (row_index r) = "NOINDEX" \/ (row_index r = "" /\ row_index2 r = "")).
Proof.
  unfold noindex_lanes; rewrite in_map_iff; split.
  - intros [r [<- Hr]]; apply filter_In in Hr; destruct Hr as [Hr Hn].
    exists r; split; [exact Hr | split; [reflexivity|]].
    unfold is_noindex_row in Hn; apply orb_true_iff in Hn; destruct Hn as [Hn|Hn];
      [left; apply String.eqb_eq; exact Hn | right].
    apply andb_true_iff in Hn; destruct Hn as [H1 H2]; apply String.eqb_eq in H1, H2; tauto.
  - intros [r [Hr [<- Hn]]]; exists r; split; [reflexivity|]; apply filter_In; split; [exact Hr|].
    unfold is_noindex_row; destruct Hn as [Hn|[H1 H2]];
      [rewrite Hn | rewrite H1, H2; apply orb_true_r]; reflexivity.
Qed.

Lemma classify_empty_index (tenx : list (string * list string))
    (smartseq : list (string * list (string * string)))
    (index_cycles : nat * nat) (read_cycles : Z * Z) (r : ss_row) (c : classification) :
  row_index r = "" -> row_index2 r = "" ->
  classify_sample tenx smartseq index_cycles read_cycles r = Ok c ->
  sample_type_of c = short_single_index /\ index_length c = (0, 0).
Proof.
  intros H1 H2; unfold classify_sample; rewrite H1, H2.
  destruct (row_read_length read_cycles r); simpl; [|discriminate].
  intros H; injection H as <-; split; reflexivity.
Qed.

(** C10 (amended): a lane is a NoIndex lane exactly when one of its rows
    has index ["NOINDEX"] in any case or both indexes empty; a row with both
    indexes empty is classified short single index with index length
    (0, 0); and a NoIndex lane goes through the no-index (fake index)
    aggregation exactly when the run has index cycles, both with one
    sub-demultiplexing and for each sub-samplesheet covering the lane. *)
Theorem noindex_lanes_and_paths (rows : list ss_row) (lane : string) (index_cycles : nat * nat) :
  (In lane (noindex_lanes rows) <->
   exists r, In r rows /\ Lane r = lane /\
     (upper (row_index r) = "NOINDEX" \/ (row_index r = "" /\ row_index2 r = ""))) /\
  (forall tenx smartseq read_cycles r c,
     row_index r = "" -> row_index2 r = "" ->
     classify_sample tenx smartseq index_cycles read_cycles r = Ok c ->
     sample_type_of c = short_single_index /\ index_length c = (0, 0)) /\
  (In lane (noindex_lanes rows) ->
   (single_demux_path (noindex_lanes rows) index_cycles = fake_index_single <->
      index_cycles <> (0, 0)) /\
   (forall sheet_rows, (exists r, In r sheet_rows /\ Lane r = lane) ->
      (sheet_fake_index sheet_rows (noindex_lanes rows) index_cycles = true <->
         index_cycles <> (0, 0)))).
Proof.
  assert (Hz : pair_eqb index_cycles (0, 0) = true <-> index_cycles = (0, 0)).
  { destruct index_cycles as [a b]; unfold pair_eqb; simpl.
    rewrite andb_true_iff, !Nat.eqb_eq; split; [intros [-> ->]; reflexivity | intros H; injection H; tauto]. }
  split; [apply noindex_lanes_In | split; [intros; eapply classify_empty_index; eauto |]].
  intros Hl; split.
  - unfold single_demux_path; destruct (noindex_lanes rows) as [|l ls]; [contradiction|].
    destruct (pair_eqb index_cycles (0, 0)) eqn:E.
    + split; [discriminate | intros H; exfalso; apply H, Hz; reflexivity].
    + split; [intros _ H; apply Hz in H; congruence | reflexivity].
  - intros sheet_rows [r [Hr HrL]]; unfold sheet_fake_index.
    assert (Hex : existsb (fun r => existsb (String.eqb (Lane r)) (noindex_lanes rows)) sheet_rows = true).
    { apply existsb_exists; exists r; split; [exact Hr|].
      apply existsb_exists; exists lane; split; [exact Hl | apply String.eqb_eq; exact HrL]. }
    rewrite Hex; simpl; destruct (pair_eqb index_cycles (0, 0)) eqn:E; simpl.
    + split; [discriminate | intros H; exfalso; apply H, Hz; reflexivity].
    + split; [intros _ H; apply Hz in H; congruence | reflexivity].
Qed.

Lemma noindex_lanes_and_paths_witness :
  In "1" (noindex_lanes rows_empty_index) /\
  single_demux_path (noindex_lanes rows_empty_index) (8, 0) = fake_index_single.
Proof.
  assert (Hl : In "1" (noindex_lanes rows_empty_index)) by (left; reflexivity).
  split; [exact Hl|].
  apply (proj1 (proj2 (proj2 (noindex_lanes_and_paths rows_empty_index "1" (8, 0))) Hl)).
  discriminate.
Defined.

(** C10 fails as stated on a run without index cycles: the lane of a row
    with both indexes empty is a NoIndex lane and the row is classified
    short single index (0, 0), but the aggregation takes the simple path
    and no sub-samplesheet takes the fake index branch. *)
Lemma empty_index_no_cycles_simple_path :
  noindex_lanes rows_empty_index = ["1"] /\
  classify_sample [] [] (0, 0) (151, 151)%Z (mkRow "1" "S1" (Some "") None None)
    = Ok (mkClass short_single_index (0, 0) (0, 0) (151, 151)%Z) /\
  single_demux_path (noindex_lanes rows_empty_index) (0, 0) = simple_single /\
  sheet_fake_index rows_empty_index (noindex_lanes rows_empty_index) (0, 0) = false.
Proof. vm_compute; repeat split. Qed.

End NoIndexClaims.

(** ** Unknown barcodes of the merged Stats.json *)
Module StatsProofs.
Import Py PyStr BaseMask Classify Lanes StatsMerge.
Local Open Scope string_scope.
Local Open Scope list_scope.

Lemma cut_cons (a b : ascii) (s u : string) :
  cut (String a s) (String b u) = String a (cut s u).
Proof.
  unfold cut; simpl.
  destruct (Nat.leb (String.length s) (String.length u)); reflexivity.
Qed.

Lemma cut_length (s u : string) : String.length (cut s u) <= String.length u.
Proof.
  revert u; induction s as [|a s IH]; intros u; [unfold cut; simpl; lia|].
  destruct u as [|b u]; [unfold cut; simpl; lia|].
  rewrite cut_cons; simpl; specialize (IH u); lia.
Qed.


Lemma split_char_length (c : ascii) (s : string) :
  length (split_char c s) = S (count_char c s).
Proof.
  induction s as [|d s IH]; simpl; [reflexivity|].
  destruct (Ascii.eqb d c); simpl; [rewrite IH; reflexivity|].
  destruct (split_char c s); simpl in *; [discriminate | exact IH].
Qed.


Lemma filter_filter_and {A} (f g : A -> bool) (l : list A) :
  filter f (filter g l) = filter (fun x => g x && f x) l.
Proof.
  induction l as [|x l IH]; simpl; [reflexivity|].
  destruct (g x); simpl; [destruct (f x); simpl; rewrite IH; reflexivity | exact IH].
Qed.










Lemma is_key_dict_get {V} (d : list (string * V)) (k : string) :
  is_key d k = false -> dict_get d k = None.
Proof.
  induction d as [|[k' v] d IH]; cbn; [reflexivity|].
  destruct (String.eqb k' k) eqn:E1; [discriminate|]; intros H.
  rewrite String.eqb_sym, E1; apply IH; exact H.
Qed.

Section UnknownLane.
Variable sheets : list (string * list ss_row).
Variable simple : list (string * string).
Variable complex : list (string * (string * (nat * nat))).
Variables (lane d : string) (v : nat * nat).
Variable P : unknown_lane -> unknown_lane -> Prop.
Hypothesis Hsimple : is_key simple lane = false.
Hypothesis Hcomplex : dict_get complex lane = Some (d, v).
Hypothesis HP : forall ub cp st,
  filter_unknown sheets d lane (Barcodes ub, cp) = Ok st -> P (mkUnk (ub_Lane ub) (fst st)) ub.





End UnknownLane.




(** ** The lane table of [_classify_lanes] *)

Lemma dict_get_Some_In {V} (l : list (string * V)) (k : string) (v : V) :
  dict_get l k = Some v -> In (k, v) l.
Proof.
  induction l as [|[k' w] l IH]; cbn; [discriminate|].
  destruct (String.eqb_spec k k') as [->|_]; [intros H; injection H as ->; left; reflexivity|].
  intros H; right; exact (IH H).
Qed.




Lemma dict_get_app {V} (l1 l2 : list (string * V)) (k : string) :
  dict_get (l1 ++ l2) k = match dict_get l1 k with Some v => Some v | None => dict_get l2 k end.
Proof.
  induction l1 as [|[k' w] l1 IH]; cbn; [reflexivity|].
  destruct (String.eqb k k'); [reflexivity | exact IH].
Qed.





















End StatsProofs.

Module StatsClaims.
Import Py PyStr Classify Lanes StatsMerge StatsProofs Examples.
Local Open Scope string_scope.
Local Open Scope list_scope.







End StatsClaims.

(** ** The merged HTML reports *)
Module HtmlProofs.
Import Py PyStr Classify Partition StatsMerge HtmlFix StatsProofs.
Local Open Scope string_scope.
Local Open Scope list_scope.

Lemma dict_get_set_same {V} (d : list (string * V)) (k : string) (v : V) :
  dict_get (dict_set d k v) k = Some v.
Proof.
  induction d as [|[k' w] d IH]; cbn; [rewrite String.eqb_refl; reflexivity|].
  destruct (String.eqb_spec k k') as [->|Hne]; cbn; [rewrite String.eqb_refl; reflexivity|].
  rewrite (proj2 (String.eqb_neq k k') Hne); exact IH.
Qed.

Lemma dict_get_set_other {V} (d : list (string * V)) (k k' : string) (v : V) :
  k' <> k -> dict_get (dict_set d k v) k' = dict_get d k'.
Proof.
  intros Hne; induction d as [|[k0 w] d IH]; cbn.
  - rewrite (proj2 (String.eqb_neq k' k) Hne); reflexivity.
  - destruct (String.eqb_spec k k0) as [->|Hk]; cbn.
    + rewrite (proj2 (String.eqb_neq k' k0) Hne); reflexivity.
    + destruct (String.eqb k' k0); [reflexivity | exact IH].
Qed.

(** The lane totals come from a row of the merged lane report. *)
Lemma lane_totals_get (lanes : list lane_row) (k : string) (nr : number_reads) :
  dict_get (lane_totals lanes) k = Some nr ->
  In (mkLR k (total_lane_cluster nr) (total_lane_yield nr)) lanes /\ total_sample nr = None.
Proof.
  unfold lane_totals.
  assert (H : forall seen d, (forall k nr, dict_get d k = Some nr ->
              In (mkLR k (total_lane_cluster nr) (total_lane_yield nr)) seen /\ total_sample nr = None) ->
    forall k nr, dict_get (fold_left (fun d e => dict_set d (l_Lane e) (mkNR (l_PF e) (l_Yield e) None None))
                             lanes d) k = Some nr ->
    In (mkLR k (total_lane_cluster nr) (total_lane_yield nr)) (seen ++ lanes) /\ total_sample nr = None).
  { induction lanes as [|e lanes IH]; intros seen d Hd k' nr' Hg; cbn in Hg.
    - rewrite app_nil_r; exact (Hd k' nr' Hg).
    - change (e :: lanes) with ([e] ++ lanes); rewrite app_assoc; refine (IH _ _ _ k' nr' Hg).
      intros k0 nr0 H0; destruct (String.eqb_spec k0 (l_Lane e)) as [->|Hne].
      + rewrite dict_get_set_same in H0; injection H0 as <-; cbn; split; [|reflexivity].
        apply in_or_app; right; left; destruct e; reflexivity.
      + rewrite dict_get_set_other in H0 by exact Hne.
        destruct (Hd k0 nr0 H0) as [Hi Hn]; split; [apply in_or_app; left; exact Hi | exact Hn]. }
  intros Hg; exact (H [] [] (fun k nr H => ltac:(discriminate H)) k nr Hg).
Qed.

Lemma add_sample_fold_absent (l : list lb_row) (nrs nrs' : list (string * number_reads)) (k : string) :
  dict_get nrs k = None -> fold_res add_sample l nrs = Ok nrs' ->
  forallb (fun e => negb (String.eqb (lb_Lane e) k)) l = true /\ dict_get nrs' k = None.
Proof.
  revert nrs; induction l as [|e l IH]; intros nrs Hk Hf; cbn in Hf |- *.
  - injection Hf as <-; split; [reflexivity | exact Hk].
  - unfold add_sample in Hf at 1.
    destruct (dict_get nrs (lb_Lane e)) as [nr|] eqn:E; [|discriminate]; cbn [bind] in Hf.
    destruct (String.eqb_spec (lb_Lane e) k) as [Ek|Hne]; [rewrite Ek in E; congruence|].
    apply IH in Hf; [exact Hf|]; rewrite dict_get_set_other by (intros H; apply Hne; symmetry; exact H).
    exact Hk.
Qed.

Lemma sample_sums_cons (k : string) (e : lb_row) (l : list lb_row) :
  sample_pf k (e :: l) =
    ((if String.eqb (lb_Lane e) k && negb (String.eqb (Project e) "default") then PF_Clusters e else 0)
     + sample_pf k l)%Z /\
  sample_yield k (e :: l) =
    ((if String.eqb (lb_Lane e) k && negb (String.eqb (Project e) "default") then Yield_Mbases e else 0)
     + sample_yield k l)%Z.
Proof.
  unfold sample_pf, sample_yield; cbn [filter].
  destruct (String.eqb (lb_Lane e) k && negb (String.eqb (Project e) "default")); cbn; split; reflexivity.
Qed.

Lemma sample_sums_none (k : string) (l : list lb_row) :
  existsb (fun e => String.eqb (lb_Lane e) k) l = false -> sample_pf k l = 0%Z /\ sample_yield k l = 0%Z.
Proof.
  induction l as [|e l IH]; cbn [existsb]; [split; reflexivity|].
  destruct (String.eqb (lb_Lane e) k) eqn:E; cbn [orb]; [discriminate|]; intros H.
  destruct (sample_sums_cons k e l) as [H1 H2]; rewrite E in H1, H2; cbn [andb] in H1, H2.
  destruct (IH H) as [H3 H4]; rewrite H1, H2, H3, H4; split; reflexivity.
Qed.

(** The loop over the laneBarcode rows adds up, per lane, the rows whose
    Project is not "default". *)
Lemma add_sample_fold_present (l : list lb_row) (nrs nrs' : list (string * number_reads))
    (k : string) (nr : number_reads) :
  dict_get nrs k = Some nr -> fold_res add_sample l nrs = Ok nrs' ->
  exists nr', dict_get nrs' k = Some nr' /\ total_lane_cluster nr' = total_lane_cluster nr /\
    total_lane_yield nr' = total_lane_yield nr /\
    total_sample nr' =
      (if existsb (fun e => String.eqb (lb_Lane e) k) l
       then let base := match total_sample nr with Some s => s | None => (0, 0)%Z end in
            Some (fst base + sample_pf k l, snd base + sample_yield k l)%Z
       else total_sample nr).
Proof.
  revert nrs nr; induction l as [|e l IH]; intros nrs nr Hk Hf; cbn [fold_res] in Hf.
  - injection Hf as <-; exists nr; cbn; repeat split; assumption.
  - unfold add_sample in Hf at 1.
    destruct (dict_get nrs (lb_Lane e)) as [nre|] eqn:E; [|discriminate]; cbn [bind] in Hf.
    destruct (sample_sums_cons k e l) as [Hp Hy]; rewrite Hp, Hy; clear Hp Hy; cbn [existsb].
    destruct (String.eqb_spec (lb_Lane e) k) as [Ek|Hne].
    + rewrite Ek in E, Hf; rewrite Hk in E; injection E as <-.
      destruct (IH _ _ (dict_get_set_same nrs k _) Hf) as (nr' & Hg & Hc & Hy & Hs).
      exists nr'; cbn in Hc, Hy, Hs; repeat split; [exact Hg | exact Hc | exact Hy|].
      rewrite Hs; cbn [orb andb].
      destruct (existsb (fun e => String.eqb (lb_Lane e) k) l) eqn:Ex.
      * destruct (String.eqb (Project e) "default"), (total_sample nr) as [[a b]|]; cbn;
          f_equal; f_equal; lia.
      * destruct (sample_sums_none k l Ex) as [-> ->].
        destruct (String.eqb (Project e) "default"), (total_sample nr) as [[a b]|]; cbn;
          f_equal; f_equal; lia.
    + assert (Hk' : dict_get (dict_set nrs (lb_Lane e) (mkNR (total_lane_cluster nre) (total_lane_yield nre)
        (Some (if String.eqb (Project e) "default"
               then match total_sample nre with Some s => s | None => (0, 0)%Z end
               else (fst (match total_sample nre with Some s => s | None => (0, 0)%Z end) + PF_Clusters e,
                     snd (match total_sample nre with Some s => s | None => (0, 0)%Z end) + Yield_Mbases e)%Z))
        (undet nre))) k = Some nr)
        by (rewrite dict_get_set_other by (intros H; apply Hne; symmetry; exact H); exact Hk).
      destruct (IH _ _ Hk' Hf) as (nr' & Hg & Hc & Hy & Hs); exists nr'.
      cbn [andb orb]; repeat split; try assumption.
Qed.

Lemma set_undet_map (nrs1 nrs : list (string * number_reads)) (k : string) (nr : number_reads) :
  map_result set_undet nrs1 = Ok nrs -> dict_get nrs k = Some nr ->
  exists nr1 sc sy, dict_get nrs1 k = Some nr1 /\ total_sample nr1 = Some (sc, sy) /\
    undet nr = Some (total_lane_cluster nr1 - sc, total_lane_yield nr1 - sy)%Z.
Proof.
  revert nrs; induction nrs1 as [|[k1 nr1] nrs1 IH]; intros nrs Hm Hg; cbn in Hm.
  - injection Hm as <-; discriminate.
  - unfold set_undet at 1 in Hm; cbn [snd fst] in Hm.
    destruct (total_sample nr1) as [[sc sy]|] eqn:Ets; [|discriminate].
    destruct (map_result set_undet nrs1) as [ys|e]; [|discriminate].
    injection Hm as <-; cbn [dict_get] in Hg |- *.
    destruct (String.eqb k k1).
    + injection Hg as <-; exists nr1, sc, sy; cbn; repeat split; assumption.
    + exact (IH ys eq_refl Hg).
Qed.

(** The undetermined numbers of a lane in [NumberReads_Summary]: the lane
    totals of the merged lane report minus the sums over the rows. *)
Lemma html_undet (lanes : list lane_row) (lb1 : list lb_row) (nrs1 nrs : list (string * number_reads))
    (k : string) (nr : number_reads) :
  fold_res add_sample lb1 (lane_totals lanes) = Ok nrs1 -> map_result set_undet nrs1 = Ok nrs ->
  dict_get nrs k = Some nr ->
  exists tlc tly, In (mkLR k tlc tly) lanes /\
    undet nr = Some (tlc - sample_pf k lb1, tly - sample_yield k lb1)%Z.
Proof.
  intros Ha Hs Hg.
  destruct (set_undet_map nrs1 nrs k nr Hs Hg) as (nr1 & sc & sy & Hg1 & Ht & Hu).
  destruct (dict_get (lane_totals lanes) k) as [nr0|] eqn:E0.
  - destruct (lane_totals_get lanes k nr0 E0) as [Hin Hn].
    destruct (add_sample_fold_present lb1 _ _ k nr0 E0 Ha) as (nr' & Hg' & Hc & Hy & Hs').
    rewrite Hg1 in Hg'; injection Hg' as <-.
    exists (total_lane_cluster nr0), (total_lane_yield nr0); split; [exact Hin|].
    rewrite Hu, Hc, Hy; rewrite Ht, Hn in Hs'.
    destruct (existsb _ lb1); [|discriminate]; cbn in Hs'; injection Hs' as -> ->; reflexivity.
  - destruct (add_sample_fold_absent lb1 _ _ k E0 Ha) as [_ Hn]; congruence.
Qed.

Lemma undet_row_map (nrs : list (string * number_reads)) (complex : list (string * (string * (nat * nat))))
    (lb1 lb2 : list lb_row) :
  map_result (undet_row nrs complex) lb1 = Ok lb2 ->
  Forall2 (fun e e' => lb_Lane e' = lb_Lane e /\ Project e' = Project e /\
    (String.eqb (Project e) "default" = false -> e' = e) /\
    (String.eqb (Project e) "default" = true -> is_key complex (lb_Lane e) = true ->
     forall nr, dict_get nrs (lb_Lane e) = Some nr -> undet nr = Some (PF_Clusters e', Yield_Mbases e')))
    lb1 lb2.
Proof.
  revert lb2; induction lb1 as [|e lb1 IH]; intros lb2 Hm; cbn in Hm.
  - injection Hm as <-; constructor.
  - destruct (undet_row nrs complex e) as [e'|x] eqn:Eu; [|discriminate].
    destruct (map_result (undet_row nrs complex) lb1) as [ys|x]; [|discriminate].
    injection Hm as <-; constructor; [|exact (IH ys eq_refl)].
    unfold undet_row in Eu.
    destruct (String.eqb (Project e) "default") eqn:Ed; cbn [andb] in Eu.
    + destruct (is_key complex (lb_Lane e)) eqn:Ek.
      * destruct (dict_get nrs (lb_Lane e)) as [nr0|] eqn:Eg; [|discriminate].
        destruct (undet nr0) as [[uc uy]|] eqn:En; [|discriminate].
        injection Eu as <-; cbn; repeat split; intros; try congruence.
      * injection Eu as <-; repeat split; intros; congruence.
    + injection Eu as <-; repeat split; intros; congruence.
Qed.

Lemma sample_sums_related (k : string) (P : lb_row -> lb_row -> Prop) (l1 l2 : list lb_row) :
  (forall e e', P e e' -> lb_Lane e' = lb_Lane e /\ Project e' = Project e /\
                          (String.eqb (Project e) "default" = false -> e' = e)) ->
  Forall2 P l1 l2 -> sample_pf k l2 = sample_pf k l1 /\ sample_yield k l2 = sample_yield k l1.
Proof.
  intros HP HF; induction HF as [|e e' l1 l2 He HF IH]; [split; reflexivity|].
  destruct (sample_sums_cons k e l1) as [A1 B1]; destruct (sample_sums_cons k e' l2) as [A2 B2].
  rewrite A1, B1, A2, B2; destruct IH as [-> ->].
  destruct (HP e e' He) as (Hl & Hp & He'); rewrite Hl, Hp.
  destruct (String.eqb (Project e) "default") eqn:Ed; cbn [negb andb].
  - rewrite !andb_false_r; split; reflexivity.
  - rewrite (He' eq_refl); split; reflexivity.
Qed.

Lemma insert_row_in (x r : lb_row) (l : list lb_row) : In r (insert_row x l) <-> In r (x :: l).
Proof.
  induction l as [|y l IH]; cbn [insert_row]; [tauto|].
  destruct (row_key_lt x y); [tauto|]; cbn [In] in *; rewrite IH; tauto.
Qed.

Lemma insert_row_sums (k : string) (x : lb_row) (l : list lb_row) :
  sample_pf k (insert_row x l) = sample_pf k (x :: l) /\
  sample_yield k (insert_row x l) = sample_yield k (x :: l).
Proof.
  induction l as [|y l IH]; cbn [insert_row]; [split; reflexivity|].
  destruct (row_key_lt x y); [split; reflexivity|].
  destruct (sample_sums_cons k y (insert_row x l)) as [A1 B1].
  destruct (sample_sums_cons k x (y :: l)) as [A2 B2].
  destruct (sample_sums_cons k y l) as [A3 B3].
  destruct (sample_sums_cons k x l) as [A4 B4].
  destruct IH as [I1 I2]; rewrite A1, B1, A2, B2, A3, B3, I1, I2, A4, B4; split; lia.
Qed.

Lemma sort_rows_in (r : lb_row) (l : list lb_row) : In r (sort_rows l) <-> In r l.
Proof.
  unfold sort_rows.
  assert (H : forall acc, In r (fold_left (fun acc x => insert_row x acc) l acc) <-> In r l \/ In r acc).
  { induction l as [|x l IH]; intros acc; cbn [fold_left]; [cbn; tauto|].
    rewrite IH, insert_row_in; cbn; tauto. }
  rewrite H; cbn; tauto.
Qed.

Lemma sort_rows_sums (k : string) (l : list lb_row) :
  sample_pf k (sort_rows l) = sample_pf k l /\ sample_yield k (sort_rows l) = sample_yield k l.
Proof.
  unfold sort_rows.
  assert (H : forall acc, sample_pf k (fold_left (fun acc x => insert_row x acc) l acc) =
                            (sample_pf k l + sample_pf k acc)%Z /\
                          sample_yield k (fold_left (fun acc x => insert_row x acc) l acc) =
                            (sample_yield k l + sample_yield k acc)%Z).
  { induction l as [|x l IH]; intros acc; cbn [fold_left]; [cbn; split; reflexivity|].
    destruct (IH (insert_row x acc)) as [-> ->]; destruct (insert_row_sums k x acc) as [-> ->].
    destruct (sample_sums_cons k x l) as [-> ->]; destruct (sample_sums_cons k x acc) as [-> ->].
    split; lia. }
  destruct (H []) as [-> ->]; cbn; split; lia.
Qed.

Lemma rename_sample_fields (e : lb_row) :
  lb_Lane (rename_sample e) = lb_Lane e /\ Project (rename_sample e) = Project e /\
  PF_Clusters (rename_sample e) = PF_Clusters e /\ Yield_Mbases (rename_sample e) = Yield_Mbases e.
Proof. unfold rename_sample; destruct (contains "_S" (Sample e)); repeat split. Qed.

Lemma rename_sample_sums (k : string) (l : list lb_row) :
  sample_pf k (map rename_sample l) = sample_pf k l /\
  sample_yield k (map rename_sample l) = sample_yield k l.
Proof.
  induction l as [|e l IH]; [split; reflexivity|]; cbn [map].
  destruct (sample_sums_cons k e l) as [-> ->]; destruct (sample_sums_cons k (rename_sample e) (map rename_sample l)) as [-> ->].
  destruct (rename_sample_fields e) as (-> & -> & -> & ->); destruct IH as [-> ->]; split; reflexivity.
Qed.

Lemma sample_sums_filter_lane (k : string) (l : list lb_row) :
  sample_pf k (filter (fun r => String.eqb (lb_Lane r) k) l) = sample_pf k l /\
  sample_yield k (filter (fun r => String.eqb (lb_Lane r) k) l) = sample_yield k l.
Proof.
  induction l as [|e l IH]; [split; reflexivity|]; cbn [filter].
  destruct (sample_sums_cons k e l) as [-> ->].
  destruct (String.eqb (lb_Lane e) k) eqn:E.
  - destruct (sample_sums_cons k e (filter (fun r => String.eqb (lb_Lane r) k) l)) as [-> ->].
    destruct IH as [-> ->]; rewrite E; split; reflexivity.
  - destruct IH as [-> ->]; cbn [andb]; split; reflexivity.
Qed.

Lemma replace_nth_length {A} (i : nat) (x : A) (l : list A) :
  i < length l -> length (replace_nth i x l) = length l.
Proof.
  intros H; unfold replace_nth; rewrite length_app, length_firstn; cbn [length]; rewrite length_skipn; lia.
Qed.

Lemma replace_nth_nth {A} (i : nat) (x : A) (l : list A) (j : nat) (d : A) :
  i < length l -> nth j (replace_nth i x l) d = if Nat.eqb j i then x else nth j l d.
Proof.
  revert i j; induction l as [|a l IH]; intros i j H; [cbn in H; lia|].
  destruct i as [|i], j as [|j]; unfold replace_nth in *; cbn [firstn skipn app nth Nat.eqb];
    [reflexivity | reflexivity | reflexivity |].
  cbn [length] in H; exact (IH i j ltac:(lia)).
Qed.

Lemma lb_row_eqb_lane (y x : lb_row) : lb_row_eqb y x = true -> lb_Lane y = lb_Lane x.
Proof. unfold lb_row_eqb; rewrite !andb_true_iff; intros H; apply String.eqb_eq; tauto. Qed.

Lemma remove_first_id_filter (p : nat -> bool) (store : list lb_row) (x : lb_row) (ids : list nat) :
  (forall i y, nth_error store i = Some y -> lb_row_eqb y x = true -> p i = false) ->
  filter p (remove_first_id store x ids) = filter p ids.
Proof.
  intros Hp; induction ids as [|i ids IH]; cbn [remove_first_id]; [reflexivity|].
  destruct (nth_error store i) as [y|] eqn:Ey.
  - destruct (lb_row_eqb y x) eqn:Eq.
    + cbn [filter]; rewrite (Hp i y Ey Eq); reflexivity.
    + cbn [filter]; rewrite IH; reflexivity.
  - cbn [filter]; rewrite IH; reflexivity.
Qed.

Section NoIndexLane.
Variables (noindex : list string) (lps : list (string * (string * string))) (data : list lb_row) (L : string).
Hypothesis HL : in_list noindex L = false.

Lemma noindex_step_lane (store store' : list lb_row) (ids ids' : list nat) (i : nat) :
  length store = length data ->
  (forall j, lb_Lane (nth j data empty_row) = L -> nth j store empty_row = nth j data empty_row) ->
  (forall j, lb_Lane (nth j store empty_row) = L -> lb_Lane (nth j data empty_row) = L) ->
  noindex_step noindex lps (store, ids) i = Ok (store', ids') ->
  length store' = length data /\
  (forall j, lb_Lane (nth j data empty_row) = L -> nth j store' empty_row = nth j data empty_row) /\
  (forall j, lb_Lane (nth j store' empty_row) = L -> lb_Lane (nth j data empty_row) = L) /\
  filter (fun j => String.eqb (lb_Lane (nth j data empty_row)) L) ids' =
    filter (fun j => String.eqb (lb_Lane (nth j data empty_row)) L) ids.
Proof.
  intros Hlen H1 H2 Hs; unfold noindex_step in Hs.
  destruct (nth_error store i) as [e|] eqn:Ei; [|injection Hs as <- <-; tauto].
  assert (Hi : i < length store) by (apply nth_error_Some; congruence).
  pose proof (nth_error_nth store i empty_row Ei) as He.
  destruct (in_list noindex (lb_Lane e)) eqn:En; cbn [andb] in Hs; [|injection Hs as <- <-; tauto].
  assert (HeL : lb_Lane e <> L) by (intros HeL; rewrite HeL in En; congruence).
  assert (HiL : lb_Lane (nth i data empty_row) <> L)
    by (intros Hd; apply HeL; rewrite <- He, (H1 i Hd); exact Hd).
  destruct (String.eqb (Sample e) "Undetermined"); cbn [negb] in Hs.
  - destruct (dict_get lps (lb_Lane e)) as [[p smp]|]; [|discriminate]; injection Hs as <- <-.
    split; [rewrite replace_nth_length; assumption|].
    split; [|split; [|reflexivity]]; intros j Hj.
    + rewrite replace_nth_nth by exact Hi.
      destruct (Nat.eqb_spec j i) as [->|Hne]; [contradiction | exact (H1 j Hj)].
    + rewrite replace_nth_nth in Hj by exact Hi.
      destruct (Nat.eqb_spec j i) as [Heq|Hne]; [subst j; cbn in Hj; contradiction | exact (H2 j Hj)].
  - injection Hs as <- <-; split; [exact Hlen|]; split; [exact H1|]; split; [exact H2|].
    apply remove_first_id_filter; intros j y Ey Eq.
    destruct (String.eqb_spec (lb_Lane (nth j data empty_row)) L) as [Hd|]; [|reflexivity].
    exfalso; apply HeL; rewrite <- (lb_row_eqb_lane y e Eq), <- (nth_error_nth store j empty_row Ey), (H1 j Hd).
    exact Hd.
Qed.

Lemma noindex_fold_lane (js : list nat) (store store' : list lb_row) (ids ids' : list nat) :
  length store = length data ->
  (forall j, lb_Lane (nth j data empty_row) = L -> nth j store empty_row = nth j data empty_row) ->
  (forall j, lb_Lane (nth j store empty_row) = L -> lb_Lane (nth j data empty_row) = L) ->
  fold_res (noindex_step noindex lps) js (store, ids) = Ok (store', ids') ->
  length store' = length data /\
  (forall j, lb_Lane (nth j data empty_row) = L -> nth j store' empty_row = nth j data empty_row) /\
  (forall j, lb_Lane (nth j store' empty_row) = L -> lb_Lane (nth j data empty_row) = L) /\
  filter (fun j => String.eqb (lb_Lane (nth j data empty_row)) L) ids' =
    filter (fun j => String.eqb (lb_Lane (nth j data empty_row)) L) ids.
Proof.
  revert store ids; induction js as [|i js IH]; intros store ids Hlen H1 H2 Hf; cbn [fold_res] in Hf.
  - injection Hf as <- <-; tauto.
  - destruct (noindex_step noindex lps (store, ids) i) as [[s1 i1]|x] eqn:Es; [|discriminate].
    cbn [bind] in Hf.
    destruct (noindex_step_lane store s1 ids i1 i Hlen H1 H2 Es) as (A & B & C & D).
    destruct (IH s1 i1 A B C Hf) as (A' & B' & C' & D'); rewrite D' , D; tauto.
Qed.

End NoIndexLane.

Lemma map_nth_seq_self {A} (l : list A) (d : A) : map (fun i => nth i l d) (seq 0 (length l)) = l.
Proof.
  induction l as [|a l IH]; [reflexivity|]; cbn [length seq map nth]; f_equal.
  rewrite <- seq_shift, map_map; exact IH.
Qed.

(** The NoIndex fix leaves the rows of a lane outside [noindex_lanes] as they are. *)
Lemma noindex_fix_html_lane (noindex : list string) (ic : nat * nat) (data data' : list lb_row) (L : string) :
  in_list noindex L = false -> noindex_fix_html noindex ic data = Ok data' ->
  filter (fun r => String.eqb (lb_Lane r) L) data' = filter (fun r => String.eqb (lb_Lane r) L) data.
Proof.
  intros HL H; unfold noindex_fix_html in H.
  destruct (_ && _); [|injection H as <-; reflexivity].
  destruct (fold_res _ _ _) as [[store ids]|x] eqn:Ef; [|discriminate]; cbn [bind fst snd] in H.
  injection H as <-.
  destruct (noindex_fold_lane noindex _ data L HL _ data store _ ids eq_refl (fun j _ => eq_refl)
              (fun j Hj => Hj) Ef) as (_ & H1 & H2 & H3).
  rewrite filter_map_swap.
  rewrite (filter_ext (fun i => String.eqb (lb_Lane (nth i store empty_row)) L)
                      (fun j => String.eqb (lb_Lane (nth j data empty_row)) L)).
  2:{ intros j; destruct (String.eqb_spec (lb_Lane (nth j data empty_row)) L) as [Hd|Hd].
      - rewrite (H1 j Hd), Hd; apply String.eqb_refl.
      - destruct (String.eqb_spec (lb_Lane (nth j store empty_row)) L) as [Hs|]; [|reflexivity].
        exfalso; exact (Hd (H2 j Hs)). }
  rewrite H3.
  rewrite (map_ext_in _ (fun i => nth i data empty_row)).
  2:{ intros j Hj; apply filter_In in Hj; apply H1, String.eqb_eq; tauto. }
  rewrite <- (filter_map_swap (fun r => String.eqb (lb_Lane r) L) (fun i => nth i data empty_row)).
  rewrite map_nth_seq_self; reflexivity.
Qed.

Lemma Forall2_in_r {A B} (R : A -> B -> Prop) (l1 : list A) (l2 : list B) (y : B) :
  Forall2 R l1 l2 -> In y l2 -> exists x, In x l1 /\ R x y.
Proof.
  intros HF; induction HF as [|a b l1 l2 Hab HF IH]; [intros []|].
  intros [->|Hy]; [exists a; split; [left; reflexivity | exact Hab]|].
  destruct (IH Hy) as (x & Hx & Hr); exists x; split; [right; exact Hx | exact Hr].
Qed.

(** The merged laneBarcode report, seen on one complex lane outside the
    NoIndex lanes. *)
Lemma fix_html_lane (complex : list (string * (string * (nat * nat)))) (noindex : list string)
    (ic : nat * nat) (lane_reports : list (list lane_row)) (lb_reports : list (list lb_row))
    (nrs : list (string * number_reads)) (lanes : list lane_row) (rows : list lb_row)
    (L : string) (nr : number_reads) :
  fix_html complex noindex ic lane_reports lb_reports = Ok (nrs, lanes, rows) ->
  is_key complex L = true -> in_list noindex L = false -> dict_get nrs L = Some nr ->
  exists tlc tly, In (mkLR L tlc tly) lanes /\
    undet nr = Some (tlc - sample_pf L rows, tly - sample_yield L rows)%Z /\
    forall r, In r rows -> lb_Lane r = L -> Project r = "default" ->
      PF_Clusters r = (tlc - sample_pf L rows)%Z /\ Yield_Mbases r = (tly - sample_yield L rows)%Z.
Proof.
  intros Hf Hk Hn Hg; unfold fix_html in Hf.
  destruct (merge_lane_reports lane_reports) as [lanes0|x]; [|discriminate]; cbn [bind] in Hf.
  destruct (concat_lb lb_reports) as [lb|x]; [|discriminate]; cbn [bind] in Hf.
  destruct (fold_res add_sample (collapse complex lb) (lane_totals lanes0)) as [nrs1|x] eqn:Ha;
    [|discriminate]; cbn [bind] in Hf.
  destruct (map_result set_undet nrs1) as [nrs0|x] eqn:Hs; [|discriminate]; cbn [bind] in Hf.
  destruct (map_result (undet_row nrs0 complex) (collapse complex lb)) as [lb2|x] eqn:Hu;
    [|discriminate]; cbn [bind] in Hf.
  destruct (noindex_fix_html noindex ic lb2) as [lb3|x] eqn:Hx; [|discriminate]; cbn [bind] in Hf.
  injection Hf as -> -> <-.
  set (lb1 := collapse complex lb) in *.
  pose proof (undet_row_map nrs complex lb1 lb2 Hu) as HF.
  pose proof (noindex_fix_html_lane noindex ic lb2 lb3 L Hn Hx) as Hl.
  assert (HP : sample_pf L (sort_rows (map rename_sample lb3)) = sample_pf L lb1 /\
               sample_yield L (sort_rows (map rename_sample lb3)) = sample_yield L lb1).
  { destruct (sort_rows_sums L (map rename_sample lb3)) as [-> ->].
    destruct (rename_sample_sums L lb3) as [-> ->].
    destruct (sample_sums_filter_lane L lb3) as [<- <-]; rewrite Hl.
    destruct (sample_sums_filter_lane L lb2) as [-> ->].
    refine (sample_sums_related L _ lb1 lb2 _ HF); intros e e' (A & B & C & _); tauto. }
  destruct HP as [-> ->].
  destruct (html_undet lanes lb1 nrs1 nrs L nr Ha Hs Hg) as (tlc & tly & Hin & Hun).
  exists tlc, tly; split; [exact Hin|]; split; [exact Hun|].
  intros r Hr HrL HrP.
  apply sort_rows_in, in_map_iff in Hr; destruct Hr as (r0 & <- & Hr0).
  destruct (rename_sample_fields r0) as (E1 & E2 & E3 & E4); rewrite E1 in HrL; rewrite E2 in HrP.
  rewrite E3, E4.
  assert (Hr2 : In r0 lb2).
  { assert (H0 : In r0 (filter (fun r => String.eqb (lb_Lane r) L) lb3))
      by (apply filter_In; split; [exact Hr0 | apply String.eqb_eq; exact HrL]).
    rewrite Hl in H0; apply filter_In in H0; tauto. }
  destruct (Forall2_in_r _ lb1 lb2 r0 HF Hr2) as (e & _ & A & B & _ & D).
  rewrite <- A, HrL in D; rewrite <- B, HrP in D.
  specialize (D eq_refl Hk nr Hg); rewrite Hun in D; injection D as -> ->; split; reflexivity.
Qed.

Lemma find_app {A} (f : A -> bool) (l1 l2 : list A) :
  find f (l1 ++ l2) = match find f l1 with Some x => Some x | None => find f l2 end.
Proof. induction l1 as [|a l1 IH]; cbn; [reflexivity|]; destruct (f a); [reflexivity | exact IH]. Qed.

Lemma fold_res_app {A B} (f : A -> B -> result A) (l1 l2 : list B) (a : A) :
  fold_res f (l1 ++ l2) a = bind (fold_res f l1 a) (fold_res f l2).
Proof.
  revert a; induction l1 as [|x l1 IH]; intros a; cbn; [reflexivity|].
  destruct (f a x); cbn; [apply IH | reflexivity].
Qed.

Lemma update_first_entry (lane : Z) (f : conversion -> conversion) (cr cr' : list conversion) :
  (forall e, LaneNumber (f e) = LaneNumber e) -> update_first lane f cr = Ok cr' ->
  map LaneNumber cr' = map LaneNumber cr /\
  (forall lz, lz <> lane -> lane_entry lz cr' = lane_entry lz cr) /\
  exists c, lane_entry lane cr = Some c /\ lane_entry lane cr' = Some (f c).
Proof.
  intros Hf; revert cr'; unfold lane_entry; induction cr as [|c cr IH]; intros cr' Hu; cbn in Hu;
    [discriminate|].
  destruct (Z.eqb_spec (LaneNumber c) lane) as [Hc|Hc].
  - injection Hu as <-; cbn [map find]; rewrite Hf; split; [reflexivity|]; split.
    + intros lz Hne; rewrite Hc; destruct (Z.eqb_spec lane lz); [congruence | reflexivity].
    + exists c; rewrite Hc, Z.eqb_refl; split; reflexivity.
  - destruct (update_first lane f cr) as [cr1|x]; [|discriminate]; cbn [bind] in Hu.
    injection Hu as <-; destruct (IH cr1 eq_refl) as (A & B & c1 & C & D).
    cbn [map find]; rewrite A; split; [reflexivity|]; split.
    + intros lz Hne; rewrite (B lz Hne); reflexivity.
    + exists c1; destruct (Z.eqb_spec (LaneNumber c) lane); [contradiction|]; split; assumption.
Qed.

Lemma lane_entry_in (lz : Z) (cr : list conversion) (c : conversion) :
  lane_entry lz cr = Some c -> In lz (map LaneNumber cr).
Proof.
  unfold lane_entry; intros H; apply find_some in H; destruct H as [Hi He].
  apply Z.eqb_eq in He; rewrite <- He; apply in_map; exact Hi.
Qed.

Section StatsLane.
Variables (sheets : list (string * list ss_row)) (simple : list (string * string))
  (complex : list (string * (string * (nat * nat)))) (nrs : list (string * number_reads)) (n : nat) (lz : Z).

Lemma conversion_step_lane (lp : list Z) (cr cr' : list conversion) (c : conversion) :
  conversion_step nrs complex n lp cr c = Ok cr' ->
  (In lz (map LaneNumber cr) -> In lz (map LaneNumber cr')) /\
  In (LaneNumber c) (map LaneNumber cr') /\
  (undet_from_summary nrs lz cr -> undet_from_summary nrs lz cr') /\
  (LaneNumber c = lz -> In lz lp -> is_key complex (py_str_Z lz) = true -> undet_from_summary nrs lz cr').
Proof.
  unfold conversion_step; intros H.
  destruct (existsb (Z.eqb (LaneNumber c)) lp && is_key complex (py_str_Z (LaneNumber c))) eqn:Ec.
  - unfold dict_index in H.
    destruct (dict_get nrs (py_str_Z (LaneNumber c))) as [nr|] eqn:Eg; [|discriminate]; cbn [bind] in H.
    destruct (undet nr) as [[uc uy]|] eqn:Eu; [|discriminate]; cbn [bind] in H.
    destruct (Undetermined c) as [u|]; [|discriminate]; cbn [bind] in H.
    destruct (zero_at 0 (u_ReadMetrics u)) as [rm|x]; [|discriminate]; cbn [bind] in H.
    destruct (if Nat.eqb n 2 then zero_at 1 rm else Ok rm) as [rm'|x]; [|discriminate]; cbn [bind] in H.
    apply update_first_entry in H; [|intros; reflexivity].
    destruct H as (A & B & c0 & C & D).
    rewrite A; split; [exact (fun h => h)|]; split; [exact (lane_entry_in _ _ _ C)|].
    assert (Hlz : LaneNumber c = lz -> undet_from_summary nrs lz cr').
    { intros <-; do 5 eexists; split; [exact D|]; cbn; split; [reflexivity|].
      split; [exact Eg|]; split; [exact Eu|]; split; reflexivity. }
    split; [|intros Hc _ _; exact (Hlz Hc)].
    intros (c1 & u1 & nr1 & uc1 & uy1 & H1 & H2).
    destruct (Z.eq_dec (LaneNumber c) lz) as [Hc|Hc]; [exact (Hlz Hc)|].
    exists c1, u1, nr1, uc1, uy1; rewrite (B lz (fun h => Hc (eq_sym h))); split; [exact H1 | exact H2].
  - injection H as <-; rewrite map_app; split; [intros h; apply in_or_app; left; exact h|].
    split; [apply in_or_app; right; left; reflexivity|]; split.
    + intros (c1 & u1 & nr1 & uc1 & uy1 & H1 & H2); exists c1, u1, nr1, uc1, uy1.
      unfold lane_entry in *; rewrite find_app, H1; split; [reflexivity | exact H2].
    + intros <- Hin Hk; rewrite Hk, andb_true_r in Ec.
      assert (Ht : existsb (Z.eqb (LaneNumber c)) lp = true)
        by (apply existsb_exists; exists (LaneNumber c); split; [exact Hin | apply Z.eqb_refl]).
      congruence.
Qed.

Lemma conversion_fold_lane (lp : list Z) (cs : list conversion) (cr cr' : list conversion) :
  fold_res (conversion_step nrs complex n lp) cs cr = Ok cr' ->
  (In lz (map LaneNumber cr) \/ In lz (map LaneNumber cs) -> In lz (map LaneNumber cr')) /\
  (undet_from_summary nrs lz cr -> undet_from_summary nrs lz cr') /\
  (In lz (map LaneNumber cs) -> In lz lp -> is_key complex (py_str_Z lz) = true ->
   undet_from_summary nrs lz cr').
Proof.
  revert cr; induction cs as [|c cs IH]; intros cr H; cbn [fold_res] in H.
  - injection H as <-; split; [intros [h|[]]; exact h|]; split; [exact (fun h => h)|]; intros [].
  - destruct (conversion_step nrs complex n lp cr c) as [cr1|x] eqn:Es; [|discriminate]; cbn [bind] in H.
    destruct (conversion_step_lane lp cr cr1 c Es) as (A & B & C & D).
    destruct (IH cr1 H) as (A' & B' & C').
    split; [|split; [intros h; exact (B' (C h))|]].
    + intros [h|[h|h]]; apply A'; [left; exact (A h) | left; rewrite <- h; exact B | right; exact h].
    + intros [h|h] Hin Hk; [exact (B' (D h Hin Hk)) | exact (C' h Hin Hk)].
Qed.

Lemma stats_step_lane (m : option merged) (m' : option merged) (cp cp' : option string)
    (f : string * stats) :
  stats_step sheets simple complex nrs n (m, cp) f = Ok (m', cp') ->
  exists m1, m' = Some m1 /\
    (In lz (map LaneNumber (ConversionResults (snd f))) ->
     In lz (map LaneNumber (m_ConversionResults m1))) /\
    (forall m0, m = Some m0 -> In lz (map LaneNumber (m_ConversionResults m0)) ->
     In lz (map LaneNumber (m_ConversionResults m1))) /\
    (forall m0, m = Some m0 -> undet_from_summary nrs lz (m_ConversionResults m0) ->
     undet_from_summary nrs lz (m_ConversionResults m1)) /\
    (forall m0, m = Some m0 -> In lz (map LaneNumber (m_ConversionResults m0)) ->
     In lz (map LaneNumber (ConversionResults (snd f))) -> is_key complex (py_str_Z lz) = true ->
     undet_from_summary nrs lz (m_ConversionResults m1)).
Proof.
  unfold stats_step; intros H.
  destruct (demux_id_of_stats (fst f)) as [did|e]; [|discriminate]; cbn [bind] in H.
  destruct m as [m0|]; cbn [bind] in H.
  - destruct (fold_res (conversion_step nrs complex n (map LaneNumber (m_ConversionResults m0)))
                (ConversionResults (snd f)) (m_ConversionResults m0)) as [cr|e] eqn:Hc; [|discriminate].
    cbn [bind m_UnknownBarcodes] in H.
    destruct (fold_res (unknown_step sheets simple complex did) (UnknownBarcodes (snd f))
                (m_UnknownBarcodes m0, cp)) as [[u c]|e]; [|discriminate].
    cbn [bind] in H; injection H as <- _.
    destruct (conversion_fold_lane _ _ _ _ Hc) as (A & B & C).
    eexists; split; [reflexivity|]; cbn [m_ConversionResults].
    split; [intros h; apply A; right; exact h|].
    split; [intros m1 E h; injection E as <-; apply A; left; exact h|].
    split; [intros m1 E h; injection E as <-; exact (B h)|].
    intros m1 E h1 h2 hk; injection E as <-; exact (C h2 h1 hk).
  - cbn [m_UnknownBarcodes] in H.
    destruct (fold_res (unknown_step sheets simple complex did) (UnknownBarcodes (snd f)) ([], cp))
      as [[u c]|e]; [|discriminate].
    cbn [bind] in H; injection H as <- _.
    eexists; split; [reflexivity|]; cbn [m_ConversionResults].
    split; [exact (fun h => h)|]; split; [|split]; intros m1 E; discriminate E.
Qed.

Lemma stats_fold_lane (files : list (string * stats)) (m1 : merged) (mo : option merged)
    (cp cp' : option string) :
  fold_res (stats_step sheets simple complex nrs n) files (Some m1, cp) = Ok (mo, cp') ->
  exists m2, mo = Some m2 /\
    (In lz (map LaneNumber (m_ConversionResults m1)) -> In lz (map LaneNumber (m_ConversionResults m2))) /\
    (undet_from_summary nrs lz (m_ConversionResults m1) -> undet_from_summary nrs lz (m_ConversionResults m2)).
Proof.
  revert m1 cp; induction files as [|f files IH]; intros m1 cp H; cbn [fold_res] in H.
  - injection H as <- _; exists m1; split; [reflexivity|]; split; exact (fun h => h).
  - destruct (stats_step sheets simple complex nrs n (Some m1, cp) f) as [[mA cpA]|x] eqn:Es;
      [|discriminate]; cbn [bind] in H.
    destruct (stats_step_lane _ _ _ _ _ Es) as (mB & -> & _ & B & C & _).
    destruct (IH mB cpA H) as (m2 & -> & B' & C').
    exists m2; split; [reflexivity|]; split; intros h; [exact (B' (B m1 eq_refl h)) | exact (C' (C m1 eq_refl h))].
Qed.

Lemma noindex_fix_entry (noindex : list string) (ic : nat * nat) (m m' : merged) :
  in_list noindex (py_str_Z lz) = false -> noindex_fix noindex ic m = Ok m' ->
  lane_entry lz (m_ConversionResults m') = lane_entry lz (m_ConversionResults m).
Proof.
  intros Hn H; unfold noindex_fix in H.
  destruct (_ && _); [|injection H as <-; reflexivity].
  destruct (map_result (noindex_conversion noindex) (m_ConversionResults m)) as [cr|x] eqn:Hm;
    [|discriminate]; cbn [bind] in H; injection H as <-; cbn [m_ConversionResults].
  revert cr Hm; unfold lane_entry; induction (m_ConversionResults m) as [|e es IH]; intros cr Hm;
    cbn in Hm.
  - injection Hm as <-; reflexivity.
  - destruct (noindex_conversion noindex e) as [e'|x] eqn:Ee; [|discriminate].
    destruct (map_result (noindex_conversion noindex) es) as [ys|x]; [|discriminate].
    injection Hm as <-; cbn [find]; rewrite (IH ys eq_refl).
    unfold noindex_conversion in Ee.
    destruct (existsb (String.eqb (py_str_Z (LaneNumber e))) noindex) eqn:Ex.
    + destruct (Z.eqb_spec (LaneNumber e) lz) as [Hl|Hl].
      * unfold in_list in Hn; rewrite <- Hl in Hn; congruence.
      * destruct (DemuxResults e) as [|d ds]; [discriminate|].
        destruct (IndexMetrics d); [|discriminate]; destruct (Undetermined e); [|discriminate].
        injection Ee as <-; cbn [LaneNumber]; destruct (Z.eqb_spec (LaneNumber e) lz); [contradiction | reflexivity].
    + injection Ee as <-; reflexivity.
Qed.

(** The Stats.json written: the entry of a complex lane [lz] outside the
    NoIndex lanes, present in two of the files, carries the undetermined
    numbers of [NumberReads_Summary]. *)
Lemma fix_stats_undet (ic : nat * nat) (noindex : list string) (files : list (string * stats))
    (m : merged) (pre mid post : list (string * stats)) (f1 f2 : string * stats) :
  fix_stats sheets ic simple complex noindex nrs n files = Ok (Some m) ->
  is_key complex (py_str_Z lz) = true -> in_list noindex (py_str_Z lz) = false ->
  files = pre ++ f1 :: mid ++ f2 :: post ->
  In lz (map LaneNumber (ConversionResults (snd f1))) ->
  In lz (map LaneNumber (ConversionResults (snd f2))) ->
  undet_from_summary nrs lz (m_ConversionResults m).
Proof.
  intros H Hk Hn -> H1 H2; unfold fix_stats, merge_stats in H.
  destruct (fold_res _ _ (None, None)) as [[mo cp]|x] eqn:Hf; [|discriminate]; cbn [bind fst] in H.
  destruct mo as [m0|]; [|destruct (_ && _); discriminate].
  destruct (noindex_fix noindex ic m0) as [m'|x] eqn:Hx; [|discriminate]; cbn [bind] in H.
  injection H as <-.
  assert (Hg : undet_from_summary nrs lz (m_ConversionResults m0)).
  { rewrite fold_res_app in Hf.
    destruct (fold_res _ pre (None, None)) as [[mA cpA]|x]; [|discriminate]; cbn [bind fold_res] in Hf.
    destruct (stats_step sheets simple complex nrs n (mA, cpA) f1) as [[mB cpB]|x] eqn:E1;
      [|discriminate]; cbn [bind] in Hf.
    destruct (stats_step_lane _ _ _ _ _ E1) as (m1 & -> & P1 & _).
    rewrite fold_res_app in Hf.
    destruct (fold_res _ mid (Some m1, cpB)) as [[mC cpC]|x] eqn:Em; [|discriminate]; cbn [bind fold_res] in Hf.
    destruct (stats_fold_lane mid m1 mC cpB cpC Em) as (m2 & -> & P2 & _).
    destruct (stats_step sheets simple complex nrs n (Some m2, cpC) f2) as [[mD cpD]|x] eqn:E2;
      [|discriminate]; cbn [bind] in Hf.
    destruct (stats_step_lane _ _ _ _ _ E2) as (m3 & -> & _ & _ & _ & G3).
    destruct (stats_fold_lane post m3 _ cpD cp Hf) as (m4 & E4 & _ & G4).
    injection E4 as <-; exact (G4 (G3 m2 eq_refl (P2 (P1 H1)) H2 Hk)). }
  destruct Hg as (c & u & nr & uc & uy & Hc & R).
  exists c, u, nr, uc, uy; rewrite (noindex_fix_entry noindex ic m0 m' Hn Hx); split; [exact Hc | exact R].
Qed.

End StatsLane.
End HtmlProofs.

(** ** Claim C1 *)
Module HtmlClaims.
Import Py PyStr Classify Partition StatsMerge HtmlFix Examples HtmlProofs.
Local Open Scope string_scope.
Local Open Scope list_scope.

(** Take a complex lane [lz] outside the NoIndex lanes,
    whose ConversionResults appear in two of the Stats.json files.  The lane
    has a row (L, tlc, tly) in the merged lane.html report.  Every row of
    the written laneBarcode report for the lane with Project "default" has
    PF clusters tlc minus the sum over the lane's rows whose Project is not
    "default", and yield tly minus the sum of their yields.  The
    Undetermined entry of the lane in the written Stats.json has
    NumberReads equal to that same cluster residual, and Yield equal to the
    yield residual times 1000000 (Mbases to bases).  How many "default" rows
    the report keeps for the lane is not fixed by this. *)
Theorem complex_lane_undetermined_residual (complex : list (string * (string * (nat * nat))))
    (noindex : list string) (ic : nat * nat) (lane_reports : list (list lane_row))
    (lb_reports : list (list lb_row)) (nrs : list (string * number_reads)) (lanes : list lane_row)
    (rows : list lb_row) (sheets : list (string * list ss_row)) (simple : list (string * string))
    (n : nat) (files pre mid post : list (string * stats)) (f1 f2 : string * stats) (m : merged)
    (lz : Z) :
  fix_html complex noindex ic lane_reports lb_reports = Ok (nrs, lanes, rows) ->
  is_key complex (py_str_Z lz) = true -> in_list noindex (py_str_Z lz) = false ->
  fix_stats sheets ic simple complex noindex nrs n files = Ok (Some m) ->
  files = pre ++ f1 :: mid ++ f2 :: post ->
  In lz (map LaneNumber (ConversionResults (snd f1))) ->
  In lz (map LaneNumber (ConversionResults (snd f2))) ->
  exists tlc tly, In (mkLR (py_str_Z lz) tlc tly) lanes /\
    (forall r, In r rows -> lb_Lane r = py_str_Z lz -> Project r = "default" ->
       PF_Clusters r = (tlc - sample_pf (py_str_Z lz) rows)%Z /\
       Yield_Mbases r = (tly - sample_yield (py_str_Z lz) rows)%Z) /\
    exists c u, lane_entry lz (m_ConversionResults m) = Some c /\ Undetermined c = Some u /\
      u_NumberReads u = (tlc - sample_pf (py_str_Z lz) rows)%Z /\
      u_Yield u = ((tly - sample_yield (py_str_Z lz) rows) * 1000000)%Z.
Proof.
  intros Hh Hk Hn Hs Hf H1 H2.
  destruct (fix_stats_undet sheets simple complex nrs n lz ic noindex files m pre mid post f1 f2
              Hs Hk Hn Hf H1 H2) as (c & u & nr & uc & uy & Hc & Hu & Hg & Hd & Hr & Hy).
  destruct (fix_html_lane complex noindex ic lane_reports lb_reports nrs lanes rows (py_str_Z lz) nr
              Hh Hk Hn Hg) as (tlc & tly & Hin & Hun & Hrows).
  rewrite Hun in Hd; injection Hd as <- <-.
  exists tlc, tly; split; [exact Hin|]; split; [exact Hrows|].
  exists c, u; split; [exact Hc|]; split; [exact Hu|]; split; [exact Hr | exact Hy].
Qed.

Lemma complex_lane_undetermined_residual_witness :
  fix_html complex_6_8 [] (8, 0) lane_reports_6_8 lb_reports_6_8 =
    Ok (nrs_6_8, [mkLR "1" 190 28000],
        report_6_8) /\
  exists tlc tly, In (mkLR "1" tlc tly) [mkLR "1" 190 28000] /\
    (forall r, In r report_6_8 -> lb_Lane r = "1" ->
       Project r = "default" ->
       PF_Clusters r = (tlc - sample_pf "1" report_6_8)%Z /\
       Yield_Mbases r = (tly - sample_yield "1" report_6_8)%Z) /\
    exists c u, lane_entry 1 (m_ConversionResults merged_6_8) = Some c /\ Undetermined c = Some u /\
      u_NumberReads u = (tlc - sample_pf "1" report_6_8)%Z /\
      u_Yield u = ((tly - sample_yield "1" report_6_8) * 1000000)%Z.
Proof.
  assert (Hh : fix_html complex_6_8 [] (8, 0) lane_reports_6_8 lb_reports_6_8 =
                 Ok (nrs_6_8, [mkLR "1" 190 28000], report_6_8))
    by (vm_compute; reflexivity).
  assert (Hs : fix_stats sheets_6_8 (8, 0) [] complex_6_8 [] nrs_6_8 1 files_6_8 = Ok (Some merged_6_8))
    by (vm_compute; reflexivity).
  split; [exact Hh|].
  exact (complex_lane_undetermined_residual complex_6_8 [] (8, 0) lane_reports_6_8 lb_reports_6_8
    nrs_6_8 [mkLR "1" 190 28000] report_6_8 sheets_6_8 [] 1
    files_6_8 [] [] [] ("Demultiplexing_0/Stats/Stats.json", stats_6)
    ("Demultiplexing_1/Stats/Stats.json", stats_8) merged_6_8 1
    Hh eq_refl eq_refl Hs eq_refl (or_introl eq_refl) (or_introl eq_refl)).
Defined.

(** C1 fails on the code.  (a) The loop meant to "only keep one such
    entry" per complex lane removes rows from the list it walks by index,
    so the row after a removed one is not examined.  With three sub-demultiplexings
    whose undetermined rows of lane 1 follow each other, the written
    laneBarcode report keeps two "default" rows for lane 1, each with the
    residual 50 clusters.  The rows of lane 1 then add up to 240 PF
    clusters and 35000 Mbases, while the lane report gives 190 and 28000.
    (b) In the written Stats.json the Undetermined Yield of lane 1 is
    7000000000, the yield residual 7000 times 1000000. *)
Theorem undetermined_rows_double_counted :
  match fix_html complex_6_8 [] (8, 0) lane_reports_3 lb_reports_3 with
  | Ok (_, lanes, rows) =>
      lanes = [mkLR "1" 190 28000] /\
      length (filter (fun r => String.eqb (lb_Lane r) "1" && String.eqb (Project r) "default") rows) = 2 /\
      fold_right Z.add 0%Z (map PF_Clusters (filter (fun r => String.eqb (lb_Lane r) "1") rows)) = 240%Z /\
      fold_right Z.add 0%Z (map Yield_Mbases (filter (fun r => String.eqb (lb_Lane r) "1") rows)) = 35000%Z
  | Raise _ => False
  end /\
  match lane_entry 1 (m_ConversionResults merged_6_8) with
  | Some c => match Undetermined c with
              | Some u => u_NumberReads u = 50%Z /\ u_Yield u = 7000000000%Z
              | None => False
              end
  | None => False
  end.
Proof. vm_compute; repeat split; reflexivity. Qed.

End HtmlClaims.

Module RunChecksProofs.
Import Py PyFacts PyStr BaseMask Classify Partition Glob StatsMerge HtmlFix StatsProofs HtmlProofs RunChecks.
Local Open Scope string_scope.

Lemma count_char_app (c : ascii) (a b : string) :
  count_char c (a ++ b) = count_char c a + count_char c b.
Proof. induction a as [|x a IH]; simpl; [reflexivity | rewrite IH; lia]. Qed.

Lemma split_char_nosep (c : ascii) (a : string) :
  count_char c a = 0 -> split_char c a = [a].
Proof.
  induction a as [|x a IH]; simpl; [reflexivity|].
  destruct (Ascii.eqb x c); [discriminate|]; intros H; rewrite IH by exact H; reflexivity.
Qed.

Lemma split_char_sep (c : ascii) (a b : string) :
  count_char c a = 0 -> split_char c (a ++ String c b) = a :: split_char c b.
Proof.
  induction a as [|x a IH]; simpl.
  - rewrite Ascii.eqb_refl; reflexivity.
  - destruct (Ascii.eqb x c); [discriminate|]; intros H; rewrite IH by exact H; reflexivity.
Qed.

(** [s.split("_")] undoes ["_".join(cs)] when no component holds an underscore. *)
Lemma split_join_us (cs : list string) :
  cs <> [] -> Forall (fun w => count_char "_" w = 0) cs -> split_char "_" (join_us cs) = cs.
Proof.
  induction cs as [|w cs IH]; intros Hne Hf; [congruence|].
  inversion Hf as [|? ? Hw Hcs]; subst.
  destruct cs as [|w' cs'].
  - simpl; apply split_char_nosep, Hw.
  - change (join_us (w :: w' :: cs')) with (w ++ String "_" (join_us (w' :: cs'))).
    rewrite split_char_sep by exact Hw; rewrite IH; [reflexivity | discriminate | exact Hcs].
Qed.


(** The standard bcl2fastq name of an Undetermined file of an unpooled lane. *)
Theorem rename_undet_standard_name (spl : list (string * string)) (lane sname snum r : string) (d : ascii) :
  dict_get spl lane = Some sname -> String.prefix "L00" sname = false ->
  count_char "_" snum = 0 -> d <> "_"%char -> count_char "_" r = 0 ->
  rename_undet_name spl lane ("Undetermined_" ++ snum ++ "_L00" ++ String d "" ++ "_R" ++ r ++ "_001.fastq.gz")
  = Ok (sname ++ "_Undetermined_L01" ++ String d "" ++ "_R" ++ r ++ "_001.fastq.gz").
Proof.
  intros Hl Hp Hs Hd Hr.
  assert (E : ("Undetermined_" ++ snum ++ "_L00" ++ String d "" ++ "_R" ++ r ++ "_001.fastq.gz")
              = join_us ["Undetermined"; snum; "L00" ++ String d ""; "R" ++ r; "001.fastq.gz"])
    by reflexivity.
  unfold rename_undet_name; rewrite E, split_join_us.
  - unfold dict_index; rewrite Hl; cbn -[join_us String.prefix replace_L00]; rewrite Hp.
    cbn; destruct (String.prefix "L00" ("R" ++ r)) eqn:E2; [discriminate|]; reflexivity.
  - discriminate.
  - repeat constructor; try assumption.
    all: cbn; destruct (Ascii.eqb d "_") eqn:E1; [apply Ascii.eqb_eq in E1; contradiction | reflexivity].
Qed.

(** The ways the renaming fails: a name without an underscore, then a lane
    missing from [samples_per_lane]. *)
Theorem rename_undet_errors (spl : list (string * string)) (lane old_name : string) :
  match rename_undet_name spl lane old_name with
  | Raise e => (count_char "_" old_name = 0 /\ e = IndexError) \/
               (count_char "_" old_name <> 0 /\ dict_get spl lane = None /\ e = KeyError)
  | Ok _ => count_char "_" old_name <> 0 /\ dict_get spl lane <> None
  end.
Proof.
  unfold rename_undet_name.
  destruct (count_char "_" old_name) as [|k] eqn:Hc.
  - rewrite split_char_nosep by exact Hc; cbn; left; split; reflexivity.
  - destruct (split_char "_" old_name) as [|c0 [|c1 cs]] eqn:Hs.
    + assert (Hlen := split_char_length "_" old_name); rewrite Hs in Hlen; discriminate.
    + exfalso.
      assert (Hlen := split_char_length "_" old_name); rewrite Hs in Hlen; cbn in Hlen; lia.
    + cbn -[replace_nth]; unfold dict_index.
      destruct (dict_get spl lane) eqn:Hd; cbn.
      * split; [lia | discriminate].
      * right; repeat split; lia.
Qed.


Lemma samples_per_lane_fold (data : list ss_row) (d : list (string * string)) (lane : string) :
  dict_get (fold_left (fun d l => dict_set d (Lane l) (Sample_Name l)) data d) lane =
  match rev (filter (fun l => String.eqb (Lane l) lane) data) with
  | r :: _ => Some (Sample_Name r)
  | [] => dict_get d lane
  end.
Proof.
  revert d; induction data as [|x data IH]; intros d; [reflexivity|].
  cbn [fold_left filter]; rewrite IH.
  destruct (rev (filter (fun l => String.eqb (Lane l) lane) data)) as [|r rs] eqn:Er.
  - destruct (String.eqb_spec (Lane x) lane) as [Hx|Hx]; cbn; rewrite Er; cbn.
    + rewrite Hx; apply dict_get_set_same.
    + apply dict_get_set_other; congruence.
  - destruct (String.eqb (Lane x) lane); cbn; rewrite Er; reflexivity.
Qed.

(** [get_samples_per_lane] maps a lane to the sample of the last row of that
    lane, and has no entry for a lane without rows. *)
Theorem samples_per_lane_last_row (data : list ss_row) (lane : string) :
  dict_get (get_samples_per_lane data) lane =
  match rev (filter (fun l => String.eqb (Lane l) lane) data) with
  | r :: _ => Some (Sample_Name r)
  | [] => None
  end.
Proof. unfold get_samples_per_lane; rewrite samples_per_lane_fold; reflexivity. Qed.

Lemma unpooled_count (data : list ss_row) (lane : string) (c : nat) :
  fold_left (fun count l => if String.eqb (Lane l) lane then count + 1 else count) data c =
  c + length (filter (fun l => String.eqb (Lane l) lane) data).
Proof.
  revert c; induction data as [|x data IH]; intros c; cbn; [lia|].
  rewrite IH; destruct (String.eqb (Lane x) lane); cbn; lia.
Qed.

(** An unpooled lane has exactly one row, and [get_samples_per_lane] maps
    it to that row's sample: the name [_rename_undet] gives its
    Undetermined files. *)
Theorem unpooled_lane_single_sample (data : list ss_row) (lane : string) :
  is_unpooled_lane data lane = true ->
  exists r, filter (fun l => String.eqb (Lane l) lane) data = [r] /\
            dict_get (get_samples_per_lane data) lane = Some (Sample_Name r).
Proof.
  unfold is_unpooled_lane; rewrite unpooled_count; intros H; apply Nat.eqb_eq in H.
  rewrite samples_per_lane_last_row.
  destruct (filter (fun l => String.eqb (Lane l) lane) data) as [|r [|r' rs]]; cbn in H; try lia.
  exists r; split; reflexivity.
Qed.

(** [get_run_status] never reaches its "Unexpected status" error: it raises
    only when there is no demultiplexing folder name, and otherwise returns
    one of four statuses, "COMPLETED" exactly when both sequencing marker
    files and the demultiplexing Stats.json exist. *)
Theorem get_run_status_outcomes (ex : string -> bool) (run_dir demux_dir : string) :
  match get_run_status ex run_dir demux_dir with
  | Raise e => demux_dir = "" /\ e = RuntimeError
  | Ok s =>
      demux_dir <> "" /\ In s ["COMPLETED"; "IN_PROGRESS"; "TO_START"; "SEQUENCING"] /\
      (s = "COMPLETED" <->
       ex (path_join run_dir ["RTAComplete.txt"]) = true /\
       ex (path_join run_dir ["CopyComplete.txt"]) = true /\
       ex (path_join run_dir [demux_dir; "Stats"; "Stats.json"]) = true)
  end.
Proof.
  unfold get_run_status, get_demux_folder.
  destruct (String.eqb_spec demux_dir "") as [->|Hne]; cbn [bind]; [split; reflexivity|].
  destruct (ex (path_join run_dir [demux_dir])), (ex (path_join run_dir [demux_dir; "Stats"; "Stats.json"])),
    (ex (path_join run_dir ["RTAComplete.txt"])), (ex (path_join run_dir ["CopyComplete.txt"]));
    cbn [andb negb orb];
    (refine (conj Hne (conj _ _)); [cbn; tauto|]);
    split; intros H; repeat match goal with H : _ /\ _ |- _ => destruct H end;
    first [discriminate | reflexivity | repeat split].
Qed.

Lemma bclconvert_fold (content : list string) (e w : nat) (ms : list string) :
  fold_left (fun '((errors, warnings, msgs) : nat * nat * list string) line =>
    if contains "ERROR" line then (errors + 1, warnings, (msgs ++ [line])%list)
    else if contains "WARNING" line then (errors, warnings + 1, (msgs ++ [line])%list)
    else (errors, warnings, msgs)) content (e, w, ms) =
  (e + length (filter (contains "ERROR") content),
   w + length (filter (fun l => negb (contains "ERROR" l) && contains "WARNING" l) content),
   (ms ++ filter (fun l => contains "ERROR" l || contains "WARNING" l) content)%list).
Proof.
  revert e w ms; induction content as [|x content IH]; intros e w ms; cbn.
  - rewrite app_nil_r, !Nat.add_0_r; reflexivity.
  - destruct (contains "ERROR" x); cbn; [|destruct (contains "WARNING" x); cbn];
      rewrite IH; rewrite <- ?app_assoc; cbn; f_equal; f_equal; lia.
Qed.

(** bcl-convert logs: one error per line containing "ERROR", one warning per
    other line containing "WARNING", and these lines, in order, as the
    messages; so errors and warnings add up to the number of messages. *)
Theorem bclconvert_log_counts (content : list string) :
  check_demux_log bclconvert content =
  Ok (length (filter (contains "ERROR") content),
      length (filter (fun l => negb (contains "ERROR" l) && contains "WARNING" l) content),
      filter (fun l => contains "ERROR" l || contains "WARNING" l) content).
Proof. cbn [check_demux_log]; rewrite bclconvert_fold; reflexivity. Qed.

Lemma strip_prefix_app (p s : string) : strip_prefix p (p ++ s) = Some s.
Proof. induction p as [|a p IH]; cbn; [reflexivity | rewrite Ascii.eqb_refl; exact IH]. Qed.

Lemma span_digits_str_nat (n : nat) (s : string) :
  span_digits (str_nat n ++ s) = let (d, r) := span_digits s in (str_nat n ++ d, r).
Proof.
  revert s; induction n as [n IH] using lt_wf_ind; intros s.
  rewrite (str_nat_eq n).
  destruct (Nat.ltb n 10) eqn:Hn.
  - apply Nat.ltb_lt in Hn; destruct (digit_char_digit n Hn) as [Hd _].
    cbn [append span_digits]; rewrite Hd; reflexivity.
  - apply Nat.ltb_ge in Hn.
    assert (Hm : n mod 10 < 10) by (apply Nat.mod_upper_bound; lia).
    destruct (digit_char_digit _ Hm) as [Hd _].
    rewrite append_string_assoc; cbn [append].
    rewrite IH by (apply Nat.div_lt; lia); cbn [span_digits]; rewrite Hd.
    destruct (span_digits s) as [d r]; rewrite append_string_assoc; reflexivity.
Qed.

Lemma span_digits_stop (c : ascii) (s t : string) :
  is_digit c = false -> span_digits (String c s ++ t) = (EmptyString, String c s ++ t).
Proof. intros H; cbn; rewrite H; reflexivity. Qed.

Lemma str_nat_nonempty (n : nat) : String.eqb (str_nat n) "" = false.
Proof.
  rewrite str_nat_eq; destruct (Nat.ltb n 10); [reflexivity|].
  destruct (str_nat (n / 10)); reflexivity.
Qed.

Lemma summary_here_line (n m : nat) (q : string) :
  summary_here ("Processing completed with " ++ str_nat n ++ " errors and " ++ str_nat m ++ " warnings" ++ q)
  = Some (n, m).
Proof.
  unfold summary_here; rewrite strip_prefix_app.
  rewrite span_digits_str_nat, span_digits_stop by reflexivity.
  rewrite append_string_nil, str_nat_nonempty, strip_prefix_app.
  rewrite span_digits_str_nat, span_digits_stop by reflexivity.
  rewrite append_string_nil, str_nat_nonempty, strip_prefix_app, !runs_str_nat_end; reflexivity.
Qed.

Lemma summary_search_skip (p s : string) :
  count_char "P" p = 0 -> summary_search (p ++ s) = summary_search s.
Proof.
  induction p as [|x p IH]; intros Hp; [reflexivity|].
  cbn in Hp; destruct (Ascii.eqb x "P") eqn:Ex; [discriminate|].
  cbn [append summary_search]; rewrite IH by exact Hp.
  unfold summary_here; cbn [strip_prefix]; rewrite Ascii.eqb_sym, Ex; reflexivity.
Qed.

Lemma summary_search_here (s : string) (r : nat * nat) :
  summary_here s = Some r -> summary_search s = Some r.
Proof. intros H; destruct s; cbn [summary_search]; rewrite H; reflexivity. Qed.

(** bcl2fastq logs: when the last line carries the summary "Processing
    completed with n errors and m warnings" (after text without a 'P'), the
    counts are n and m, and the messages are the lines containing "ERROR" or
    "WARN" unless both counts are zero. *)
Theorem bcl2fastq_log_summary (before : list string) (p q : string) (n m : nat) :
  count_char "P" p = 0 ->
  check_demux_log bcl2fastq
    (app before [p ++ "Processing completed with " ++ str_nat n ++ " errors and " ++ str_nat m ++ " warnings" ++ q])
  = Ok (n, m,
        if Nat.eqb n 0 && Nat.eqb m 0 then []
        else filter (fun line => contains "ERROR" line || contains "WARN" line)
               (app before [p ++ "Processing completed with " ++ str_nat n ++ " errors and "
                            ++ str_nat m ++ " warnings" ++ q])).
Proof.
  intros Hp; cbn [check_demux_log]; unfold last_py; rewrite rev_app_distr; cbn [rev app bind].
  rewrite summary_search_skip by exact Hp; rewrite (summary_search_here _ (n, m)) by apply summary_here_line.
  destruct (Nat.eqb n 0), (Nat.eqb m 0); reflexivity.
Qed.

Lemma ends_with_sep_app (a b : string) : b <> "" -> ends_with_sep (a ++ b) = ends_with_sep b.
Proof.
  intros Hb; induction a as [|x a IH]; [reflexivity|].
  cbn [append]; rewrite <- IH.
  destruct (a ++ b) eqn:E; [destruct a, b; discriminate + contradiction | reflexivity].
Qed.

Lemma ends_with_sep_nosep (s : string) : count_char "/" s = 0 -> ends_with_sep s = false.
Proof.
  induction s as [|x s IH]; intros H; [reflexivity|].
  cbn in H; destruct (Ascii.eqb x "/") eqn:Ex; [discriminate|].
  destruct s as [|y s]; [cbn; exact Ex | exact (IH H)].
Qed.

Lemma prefix_sep_app (a b : string) : a <> "" -> String.prefix "/" (a ++ b) = String.prefix "/" a.
Proof.
  destruct a as [|x a]; [contradiction|]; intros _; cbn -[Ascii.ascii_dec].
  destruct (Ascii.ascii_dec "/" x); [destruct (a ++ b), a; reflexivity | reflexivity].
Qed.

Lemma pjoin_plain (a b : string) :
  String.prefix "/" b = false -> a <> "" -> ends_with_sep a = false -> pjoin a b = a ++ "/" ++ b.
Proof.
  intros Hb Ha He; unfold pjoin; rewrite Hb, He.
  destruct (String.eqb_spec a ""); [contradiction | reflexivity].
Qed.

Lemma pjoin_after_sep (a b : string) :
  String.prefix "/" b = false -> ends_with_sep a = true -> pjoin a b = a ++ b.
Proof. intros Hb He; unfold pjoin; rewrite Hb, He, orb_true_r; reflexivity. Qed.

Lemma pjoin_abs (a b : string) : String.prefix "/" b = true -> pjoin a b = b.
Proof. intros Hb; unfold pjoin; rewrite Hb; reflexivity. Qed.

Lemma append_nonempty (a b : string) : b <> "" -> a ++ b <> "".
Proof. destruct a, b; cbn; congruence. Qed.

(** The file whose existence marks a sub-demultiplexing as finished: inside
    the run folder for an absolute [run_dir], but inside [run_dir/run_dir]
    for a relative one, since the demultiplexing folder, already joined to
    [run_dir], is joined to it a second time. *)
Theorem demux_stats_path_shape (run_dir lp demux_id : string) :
  run_dir <> "" -> ends_with_sep run_dir = false -> count_char "/" demux_id = 0 ->
  lp = "" \/ (lp <> "" /\ String.prefix "/" lp = false /\ ends_with_sep lp = false) ->
  demux_stats_path run_dir lp demux_id =
  (if String.prefix "/" run_dir then "" else run_dir ++ "/") ++ run_dir ++ "/Demultiplexing_" ++
  demux_id ++ (if String.eqb lp "" then "" else "/" ++ lp) ++ "/Stats/DemultiplexingStats.xml".
Proof.
  intros Hr Hre Hid Hlp.
  unfold demux_stats_path, path_join; cbn [fold_left].
  set (X := "Demultiplexing_" ++ demux_id).
  assert (HX1 : String.prefix "/" X = false) by reflexivity.
  assert (HX2 : ends_with_sep X = false)
    by (apply ends_with_sep_nosep; unfold X; rewrite count_char_app, Hid; reflexivity).
  assert (HX3 : X <> "") by discriminate.
  rewrite (pjoin_plain run_dir X HX1 Hr Hre).
  set (Y := pjoin run_dir (run_dir ++ "/" ++ X)).
  assert (HY : Y = (if String.prefix "/" run_dir then "" else run_dir ++ "/") ++ run_dir ++ "/" ++ X).
  { unfold Y; destruct (String.prefix "/" run_dir) eqn:Ep.
    - rewrite pjoin_abs; [reflexivity | rewrite (prefix_sep_app run_dir ("/" ++ X) Hr); exact Ep].
    - rewrite pjoin_plain; [rewrite append_string_assoc; reflexivity | rewrite (prefix_sep_app run_dir ("/" ++ X) Hr); exact Ep | exact Hr | exact Hre]. }
  assert (HY1 : Y <> "") by (rewrite HY; apply append_nonempty, append_nonempty, append_nonempty, HX3).
  assert (HY2 : ends_with_sep Y = false)
    by (rewrite HY, !ends_with_sep_app; [exact HX2 | exact HX3 | apply append_nonempty, HX3
                                         | apply append_nonempty, append_nonempty, HX3]).
  destruct Hlp as [->|[Hl1 [Hl2 Hl3]]].
  - rewrite (pjoin_plain Y "" eq_refl HY1 HY2).
    rewrite (pjoin_after_sep _ "Stats" eq_refl) by (rewrite ends_with_sep_app by discriminate; reflexivity).
    rewrite (pjoin_plain _ "DemultiplexingStats.xml");
      [| reflexivity | apply append_nonempty; discriminate
       | rewrite ends_with_sep_app by discriminate; reflexivity].
    rewrite HY; unfold X; rewrite !append_string_assoc; reflexivity.
  - rewrite (pjoin_plain Y lp Hl2 HY1 HY2).
    rewrite (pjoin_plain _ "Stats");
      [| reflexivity | apply append_nonempty, append_nonempty, Hl1
       | rewrite (ends_with_sep_app Y ("/" ++ lp)), (ends_with_sep_app "/" lp)
           by first [discriminate | exact Hl1]; exact Hl3].
    rewrite (pjoin_plain _ "DemultiplexingStats.xml");
      [| reflexivity | apply append_nonempty; discriminate
       | rewrite ends_with_sep_app by discriminate; reflexivity].
    rewrite HY; unfold X; rewrite !append_string_assoc.
    destruct (String.eqb_spec lp ""); [contradiction|]; reflexivity.
Qed.

Section CheckLoop.
Variables (sw : software) (lpo : option string) (ex isfile : string -> bool)
  (read_lines : string -> list string) (run_dir : string).

Lemma check_step_cases (b : bool) (s : demux_summary) (name : string) (b' : bool) (s' : demux_summary) :
  check_step sw lpo ex isfile read_lines run_dir (b, s) name = Ok (b', s') ->
  exists lp id, lpo = Some lp /\ demux_id_of name = Ok id /\
    ((ex (demux_stats_path run_dir lp id) = true /\ b' = b /\
      exists r, log_checked sw isfile read_lines run_dir id r /\ s' = dict_set s id r) \/
     (ex (demux_stats_path run_dir lp id) = false /\ b' = false /\ s' = s)).
Proof.
  unfold check_step; destruct (demux_id_of name) as [id|e]; cbn [bind]; [|discriminate].
  destruct lpo as [lp|]; [|discriminate].
  destruct (ex (demux_stats_path run_dir lp id)) eqn:Hex.
  - destruct (demux_log_path sw run_dir id) as [log|e] eqn:Hlog; cbn [bind]; [|discriminate].
    destruct (isfile log) eqn:Hf; [|discriminate].
    destruct (check_demux_log sw (read_lines log)) as [r|e] eqn:Hc; cbn [bind]; [|discriminate].
    intros H; injection H as <- <-.
    exists lp, id; split; [reflexivity|]; split; [reflexivity|].
    left; split; [exact Hex|]; split; [apply andb_true_r|].
    exists r; split; [exists log; repeat split; assumption | reflexivity].
  - intros H; injection H as <- <-.
    exists lp, id; split; [reflexivity|]; split; [reflexivity|].
    right; split; [exact Hex | split; [apply andb_false_r | reflexivity]].
Qed.

Lemma log_checked_unique (id : string) (r r' : nat * nat * list string) :
  log_checked sw isfile read_lines run_dir id r -> log_checked sw isfile read_lines run_dir id r' -> r = r'.
Proof. intros [l [H1 [_ H2]]] [l' [H1' [_ H2']]]; congruence. Qed.

Lemma check_fold_flag (names : list string) (b b' : bool) (s s' : demux_summary) :
  fold_res (check_step sw lpo ex isfile read_lines run_dir) names (b, s) = Ok (b', s') ->
  (b' = true <-> b = true /\ Forall (finished lpo ex run_dir) names).
Proof.
  revert b s; induction names as [|x names IH]; intros b s H.
  - cbn in H; injection H as <- <-; split; [intros Hb; split; [exact Hb | constructor] | tauto].
  - cbn [fold_res] in H.
    destruct (check_step sw lpo ex isfile read_lines run_dir (b, s) x) as [[b1 s1]|e] eqn:Hs;
      cbn [bind] in H; [|discriminate].
    rewrite (IH _ _ H).
    destruct (check_step_cases _ _ _ _ _ Hs) as [lp [id [Hl [Hid [[Hex [-> _]]|[Hex [-> _]]]]]]].
    + split; [intros [Hb Hf]; split; [exact Hb | constructor; [exists lp, id; tauto | exact Hf]]|].
      intros [Hb Hf]; split; [exact Hb | exact (Forall_inv_tail Hf)].
    + split; [intros [Hb _]; discriminate|].
      intros [_ Hf]; apply Forall_inv in Hf; destruct Hf as [lp' [id' [Hl' [Hid' Hex']]]].
      rewrite Hl in Hl'; injection Hl' as <-; rewrite Hid in Hid'; injection Hid' as <-.
      congruence.
Qed.

Lemma check_step_keeps (b : bool) (s : demux_summary) (name : string) (b' : bool) (s' : demux_summary)
    (id : string) (r : nat * nat * list string) :
  check_step sw lpo ex isfile read_lines run_dir (b, s) name = Ok (b', s') ->
  dict_get s id = Some r -> log_checked sw isfile read_lines run_dir id r -> dict_get s' id = Some r.
Proof.
  intros H Hg Hr.
  destruct (check_step_cases _ _ _ _ _ H) as [lp [id' [_ [_ [[_ [_ [r' [Hr' ->]]]]|[_ [_ ->]]]]]]];
    [|exact Hg].
  destruct (String.eqb_spec id' id) as [<-|Hne].
  - rewrite (log_checked_unique _ _ _ Hr Hr'); apply dict_get_set_same.
  - rewrite dict_get_set_other by congruence; exact Hg.
Qed.

Lemma check_fold_keeps (names : list string) (b b' : bool) (s s' : demux_summary)
    (id : string) (r : nat * nat * list string) :
  fold_res (check_step sw lpo ex isfile read_lines run_dir) names (b, s) = Ok (b', s') ->
  dict_get s id = Some r -> log_checked sw isfile read_lines run_dir id r -> dict_get s' id = Some r.
Proof.
  revert b s; induction names as [|x names IH]; intros b s H Hg Hr.
  - cbn in H; injection H as <- <-; exact Hg.
  - cbn [fold_res] in H.
    destruct (check_step sw lpo ex isfile read_lines run_dir (b, s) x) as [[b1 s1]|e] eqn:Hs;
      cbn [bind] in H; [|discriminate].
    exact (IH _ _ H (check_step_keeps _ _ _ _ _ _ _ Hs Hg Hr) Hr).
Qed.

Lemma check_fold_summary (names : list string) (b b' : bool) (s s' : demux_summary)
    (name id lp : string) :
  fold_res (check_step sw lpo ex isfile read_lines run_dir) names (b, s) = Ok (b', s') ->
  In name names -> demux_id_of name = Ok id -> lpo = Some lp ->
  ex (demux_stats_path run_dir lp id) = true ->
  exists r, log_checked sw isfile read_lines run_dir id r /\ dict_get s' id = Some r.
Proof.
  revert b s; induction names as [|x names IH]; intros b s H Hin Hid Hl Hex; [destruct Hin|].
  cbn [fold_res] in H.
  destruct (check_step sw lpo ex isfile read_lines run_dir (b, s) x) as [[b1 s1]|e] eqn:Hs;
    cbn [bind] in H; [|discriminate].
  destruct Hin as [<-|Hin]; [|exact (IH _ _ H Hin Hid Hl Hex)].
  destruct (check_step_cases _ _ _ _ _ Hs) as [lp' [id' [Hl' [Hid' Hc]]]].
  rewrite Hl in Hl'; injection Hl' as <-; rewrite Hid in Hid'; injection Hid' as <-.
  destruct Hc as [[_ [_ [r [Hr ->]]]]|[Hex' _]]; [|congruence].
  exists r; split; [exact Hr|].
  exact (check_fold_keeps _ _ _ _ _ _ _ H (dict_get_set_same _ _ _) Hr).
Qed.

End CheckLoop.

(** [check_run_status] starts the aggregation exactly when the run is not
    yet "COMPLETED" and every sub-samplesheet listed by the glob has a
    finished sub-demultiplexing (its DemultiplexingStats.xml exists). *)
Theorem check_run_status_aggregates (sw : software) (legacy_dir : string) (ex isfile : string -> bool)
    (read_lines : string -> list string) (run_dir demux_dir : string) (entries : list string)
    (summary summary' : demux_summary) (agg : bool) :
  check_run_status sw legacy_dir ex isfile read_lines run_dir demux_dir entries summary = Ok (summary', agg) ->
  exists status, get_run_status ex run_dir demux_dir = Ok status /\
    (agg = true <->
     status <> "COMPLETED" /\
     Forall (fun name => exists lp id, legacy_path_of sw legacy_dir = Some lp /\ demux_id_of name = Ok id /\
                                      ex (demux_stats_path run_dir lp id) = true) (samplesheets entries)).
Proof.
  unfold check_run_status.
  destruct (get_run_status ex run_dir demux_dir) as [status|e]; cbn [bind]; [|discriminate].
  destruct (fold_res _ (samplesheets entries) (true, summary)) as [[b s]|e] eqn:Hf; cbn [bind];
    [|discriminate].
  intros H; injection H as <- <-; exists status; split; [reflexivity|].
  apply check_fold_flag in Hf.
  destruct (String.eqb_spec status "COMPLETED") as [->|Hne]; cbn [negb]; rewrite ?andb_false_r, ?andb_true_r.
  - split; [discriminate | intros [[] _]; reflexivity].
  - rewrite Hf; unfold finished; tauto.
Qed.

(** Every finished sub-demultiplexing has its bcl2fastq or bcl-convert log
    file (otherwise [check_run_status] raises), and [demux_summary] holds
    what [_check_demux_log] reads from that file. *)
Theorem check_run_status_summary (sw : software) (legacy_dir : string) (ex isfile : string -> bool)
    (read_lines : string -> list string) (run_dir demux_dir : string) (entries : list string)
    (summary summary' : demux_summary) (agg : bool) (name id lp : string) :
  check_run_status sw legacy_dir ex isfile read_lines run_dir demux_dir entries summary = Ok (summary', agg) ->
  In name (samplesheets entries) -> demux_id_of name = Ok id ->
  legacy_path_of sw legacy_dir = Some lp -> ex (demux_stats_path run_dir lp id) = true ->
  exists log r, demux_log_path sw run_dir id = Ok log /\ isfile log = true /\
    check_demux_log sw (read_lines log) = Ok r /\ dict_get summary' id = Some r.
Proof.
  unfold check_run_status.
  destruct (get_run_status ex run_dir demux_dir) as [status|e]; cbn [bind]; [|discriminate].
  destruct (fold_res _ (samplesheets entries) (true, summary)) as [[b s]|e] eqn:Hf; cbn [bind];
    [|discriminate].
  intros H Hin Hid Hl Hex; injection H as <- <-.
  destruct (check_fold_summary _ _ _ _ _ _ _ _ _ _ _ _ _ _ Hf Hin Hid Hl Hex) as [r [[log [H1 [H2 H3]]] H4]].
  exists log, r; tauto.
Qed.


(** Witnesses at concrete inputs. *)
Lemma rename_undet_standard_name_witness :
  rename_undet_name [("1", "P1_101")] "1" ("Undetermined_" ++ "S0" ++ "_L00" ++ String "1" "" ++ "_R" ++ "1" ++ "_001.fastq.gz")
  = Ok ("P1_101" ++ "_Undetermined_L01" ++ String "1" "" ++ "_R" ++ "1" ++ "_001.fastq.gz").
Proof.
  apply rename_undet_standard_name;
    [reflexivity | reflexivity | reflexivity | intros H; discriminate H | reflexivity].
Defined.

Lemma unpooled_lane_single_sample_witness :
  exists r, filter (fun l => String.eqb (Lane l) "2")
              [mkRow "1" "A" None None None; mkRow "2" "B" None None None; mkRow "1" "C" None None None] = [r] /\
            dict_get (get_samples_per_lane
              [mkRow "1" "A" None None None; mkRow "2" "B" None None None; mkRow "1" "C" None None None]) "2"
            = Some (Sample_Name r).
Proof. apply unpooled_lane_single_sample; reflexivity. Defined.

Lemma bcl2fastq_log_summary_witness :
  check_demux_log bcl2fastq
    (app ["WARNING: x"] ["2024 " ++ "Processing completed with " ++ str_nat 0 ++ " errors and " ++ str_nat 1 ++ " warnings" ++ "."])
  = Ok (0, 1,
        if Nat.eqb 0 0 && Nat.eqb 1 0 then []
        else filter (fun line => contains "ERROR" line || contains "WARN" line)
               (app ["WARNING: x"] ["2024 " ++ "Processing completed with " ++ str_nat 0 ++ " errors and "
                            ++ str_nat 1 ++ " warnings" ++ "."])).
Proof. apply bcl2fastq_log_summary; reflexivity. Defined.

Lemma demux_stats_path_shape_witness :
  demux_stats_path "run" "Reports/legacy" "0" =
  (if String.prefix "/" "run" then "" else "run" ++ "/") ++ "run" ++ "/Demultiplexing_" ++
  "0" ++ (if String.eqb "Reports/legacy" "" then "" else "/" ++ "Reports/legacy") ++ "/Stats/DemultiplexingStats.xml".
Proof.
  apply demux_stats_path_shape;
    [discriminate | reflexivity | reflexivity | right; split; [discriminate | split; reflexivity]].
Defined.

Lemma check_run_status_aggregates_witness :
  check_run_status bcl2fastq "" example_run_exists (fun _ => true) (fun _ => ["Processing completed with 0 errors and 0 warnings"])
    "/r" "Demultiplexing" ["SampleSheet_0.csv"; "RunInfo.xml"] [] =
    Ok ([("0", (0, 0, []))], true) /\
  exists status, get_run_status example_run_exists "/r" "Demultiplexing" = Ok status /\
    (true = true <->
     status <> "COMPLETED" /\
     Forall (fun name => exists lp id, legacy_path_of bcl2fastq "" = Some lp /\ demux_id_of name = Ok id /\
                                      example_run_exists (demux_stats_path "/r" lp id) = true)
       (samplesheets ["SampleSheet_0.csv"; "RunInfo.xml"])).
Proof.
  split; [vm_compute; reflexivity|].
  apply (check_run_status_aggregates bcl2fastq "" example_run_exists (fun _ => true)
           (fun _ => ["Processing completed with 0 errors and 0 warnings"]) "/r" "Demultiplexing"
           ["SampleSheet_0.csv"; "RunInfo.xml"] [] [("0", (0, 0, []))]).
  vm_compute; reflexivity.
Defined.

Lemma check_run_status_summary_witness :
  exists log r, demux_log_path bcl2fastq "/r" "0" = Ok log /\ (fun _ => true) log = true /\
    check_demux_log bcl2fastq ((fun _ => ["Processing completed with 0 errors and 0 warnings"]) log) = Ok r /\
    dict_get [("0", (0, 0, @nil string))] "0" = Some r.
Proof.
  apply (check_run_status_summary bcl2fastq "" example_run_exists (fun _ => true)
           (fun _ => ["Processing completed with 0 errors and 0 warnings"]) "/r" "Demultiplexing"
           ["SampleSheet_0.csv"; "RunInfo.xml"] [] [("0", (0, 0, []))] true "SampleSheet_0.csv" "0" "");
    vm_compute; first [reflexivity | left; reflexivity].
Defined.

End RunChecksProofs.


Module SelectProofs.
Import Py BaseMask Classify Partition PartitionProofs StatsProofs HtmlProofs Select.
Local Open Scope string_scope.

Lemma include_sample_get (sti : list (string * list string)) (lane name k : string) :
  included (include_sample sti lane name) k =
  if String.eqb k lane then (included sti lane ++ [name])%list else included sti k.
Proof.
  unfold include_sample, included.
  destruct (String.eqb_spec k lane) as [->|Hne].
  - destruct (dict_get sti lane) as [[|n ns]|]; rewrite dict_get_set_same; reflexivity.
  - destruct (dict_get sti lane) as [[|n ns]|]; rewrite dict_get_set_other by congruence; reflexivity.
Qed.

Lemma include_lane_get (t : sample_type) (m : mask) (lane : string)
    (es : list (string * classification)) (sti : list (string * list string)) (k : string) :
  included (include_lane t m lane es sti) k =
  if String.eqb k lane
  then (included sti lane ++ selected_names t m es)%list
  else included sti k.
Proof.
  unfold include_lane, selected_names; revert sti; induction es as [|e es IH]; intros sti; cbn [fold_left filter map].
  - destruct (String.eqb_spec k lane) as [->|_]; [rewrite app_nil_r|]; reflexivity.
  - rewrite IH; destruct (sample_type_eqb (sample_type_of (snd e)) t && mask_eqb (mask_of (snd e)) m);
      cbn [map]; [|reflexivity].
    rewrite !include_sample_get; destruct (String.eqb k lane) eqn:E; [|reflexivity].
    apply String.eqb_eq in E; subst lane; rewrite String.eqb_refl, <- app_assoc; reflexivity.
Qed.


Lemma select_bcl2fastq_fold (t : sample_type) (st : sample_table) (lt : list (string * list mask))
    (i : nat) (sti : list (string * list string)) (mt : list (string * mask)) (k : string) :
  included (fst (fold_left (fun '(sti, mt) (lane_contents : string * list (string * classification)) =>
    let lane := fst lane_contents in
    match dict_get lt lane with
    | Some ms =>
        match nth_error ms i with
        | Some m => (include_lane t m lane (snd lane_contents) sti, dict_set mt lane m)
        | None => (sti, mt)
        end
    | None => (sti, mt)
    end) st (sti, mt))) k =
  (included sti k ++ concat (map (fun le => if String.eqb k (fst le) then
      match dict_get lt (fst le) with
      | Some ms => match nth_error ms i with Some m => selected_names t m (snd le) | None => [] end
      | None => []
      end else []) st))%list.
Proof.
  revert sti mt; induction st as [|[lane es] st IH]; intros sti mt; cbn [fold_left map concat].
  - rewrite app_nil_r; reflexivity.
  - cbn [fst snd].
    destruct (dict_get lt lane) as [ms|]; [destruct (nth_error ms i) as [m|]|].
    + rewrite IH, include_lane_get, app_assoc.
      destruct (String.eqb k lane) eqn:E; [apply String.eqb_eq in E; subst lane; reflexivity|].
      rewrite app_nil_r; reflexivity.
    + rewrite IH; destruct (String.eqb k lane); reflexivity.
    + rewrite IH; destruct (String.eqb k lane); reflexivity.
Qed.


Lemma concat_keyed_unique {B} (st : sample_table) (g : string * list (string * classification) -> list B)
    (lane : string) (es : list (string * classification)) :
  NoDup (map fst st) -> In (lane, es) st ->
  concat (map (fun le => if String.eqb lane (fst le) then g le else []) st) = g (lane, es).
Proof.
  induction st as [|[k es'] st IH]; cbn; [tauto|]; intros Hn Hi; inversion Hn as [|? ? Hk Hn']; subst.
  destruct Hi as [E|Hi].
  - injection E as -> ->; rewrite String.eqb_refl.
    rewrite <- (app_nil_r (g (lane, es))) at 2; f_equal.
    clear IH Hn Hn'; induction st as [|[k' e'] st IH']; cbn; [reflexivity|].
    destruct (String.eqb_spec lane k') as [->|_]; [cbn in Hk; tauto|].
    apply IH'; cbn in Hk; tauto.
  - destruct (String.eqb_spec lane k) as [->|_]; [exfalso; apply Hk, (in_map fst _ _ Hi)|].
    exact (IH Hn' Hi).
Qed.

Lemma lane_table_spec_keys (t : sample_type) (st : sample_table) (k : string) :
  In k (map fst (lane_table_spec t st)) -> In k (map fst st).
Proof.
  unfold lane_table_spec; induction st as [|le st IH]; cbn; [tauto|].
  rewrite map_app, in_app_iff; destruct (tuples_of_type t (snd le)); cbn; tauto.
Qed.

Lemma lane_table_spec_get (t : sample_type) (st : sample_table) (lane : string)
    (es : list (string * classification)) :
  NoDup (map fst st) -> In (lane, es) st ->
  dict_get (lane_table_spec t st) lane =
  match tuples_of_type t es with [] => None | ts => Some (dedup_into [] ts) end.
Proof.
  induction st as [|[k es'] st IH]; cbn [In]; [tauto|]; intros Hn Hi.
  inversion Hn as [|? ? Hk Hn']; subst.
  unfold lane_table_spec; cbn [flat_map]; fold (lane_table_spec t st).
  rewrite dict_get_app; cbn [fst snd].
  destruct Hi as [E|Hi].
  - injection E as -> ->.
    assert (Hnone : dict_get (lane_table_spec t st) lane = None)
      by (apply dict_get_absent; intros H; apply Hk, (lane_table_spec_keys t), H).
    destruct (tuples_of_type t es) as [|x xs]; cbn; [exact Hnone|].
    rewrite String.eqb_refl; reflexivity.
  - assert (Hne : lane <> k) by (intros ->; apply Hk, (in_map fst _ _ Hi)).
    destruct (tuples_of_type t es') as [|x xs]; cbn; [exact (IH Hn' Hi)|].
    rewrite (proj2 (String.eqb_neq lane k) Hne); exact (IH Hn' Hi).
Qed.

Lemma concat_nth_seq {A B} (ms : list A) (g : A -> list B) (n : nat) :
  length ms <= n ->
  concat (map (fun i => match nth_error ms i with Some m => g m | None => [] end) (seq 0 n)) =
  concat (map g ms).
Proof.
  revert n; induction ms as [|m ms IH]; intros n Hl.
  - cbn [map concat]; induction (seq 0 n) as [|i l IHl]; cbn [map concat]; [reflexivity|].
    rewrite nth_error_nil; exact IHl.
  - destruct n as [|n]; cbn in Hl; [lia|].
    cbn [seq map concat nth_error]; f_equal.
    rewrite <- seq_shift, map_map; cbn [nth_error]; apply IH; lia.
Qed.

Lemma perm_filter_split {A} (f g : A -> bool) (l : list A) :
  Permutation (filter (fun x => f x && g x) l ++ filter (fun x => f x && negb (g x)) l) (filter f l).
Proof.
  induction l as [|x l IH]; cbn; [constructor|].
  destruct (f x), (g x); cbn; try exact IH.
  - constructor; exact IH.
  - rewrite <- Permutation_middle; constructor; exact IH.
Qed.

Lemma le_fold_max (l : list nat) (x : nat) : In x l -> x <= fold_right Nat.max 0 l.
Proof. induction l as [|y l IH]; cbn; [tauto|]; intros [->|H]; [lia | specialize (IH H); lia]. Qed.

Lemma tuples_nil_names (t : sample_type) (es : list (string * classification)) :
  tuples_of_type t es = [] -> names_of_type t es = [].
Proof.
  unfold tuples_of_type, names_of_type; intros H.
  destruct (filter _ es); [reflexivity | discriminate].
Qed.


(** Selecting by every tuple of a lane, each once, takes each sample of the
    type once. *)
Lemma masks_partition (t : sample_type) (ms : list mask) (es : list (string * classification)) :
  NoDup ms -> (forall x, In x (tuples_of_type t es) -> In x ms) ->
  Permutation (concat (map (fun m => selected_names t m es) ms)) (names_of_type t es).
Proof.
  revert es; induction ms as [|m ms IH]; intros es Hnd Hcov; cbn [map concat].
  - rewrite tuples_nil_names; [constructor|].
    destruct (tuples_of_type t es) as [|x xs]; [reflexivity|]; exfalso; apply (Hcov x); left; reflexivity.
  - inversion Hnd as [|? ? Hm Hnd']; subst.
    set (es' := filter (fun e => negb (mask_eqb (mask_of (snd e)) m)) es).
    assert (Hsame : map (fun m' => selected_names t m' es) ms = map (fun m' => selected_names t m' es') ms).
    { apply map_ext_in; intros m' Hm'; unfold selected_names, es'; rewrite filter_filter_and.
      f_equal; apply filter_ext; intros e.
      destruct (mask_eqb_spec (mask_of (snd e)) m) as [_ _].
      destruct (mask_eqb (mask_of (snd e)) m) eqn:E1, (mask_eqb (mask_of (snd e)) m') eqn:E2;
        rewrite ?andb_false_r, ?andb_true_r; cbn; try reflexivity.
      apply mask_eqb_spec in E1, E2; subst; contradiction. }
    rewrite Hsame.
    assert (Hcov' : forall x, In x (tuples_of_type t es') -> In x ms).
    { intros x Hx; unfold tuples_of_type, es' in Hx; rewrite filter_filter_and in Hx.
      apply in_map_iff in Hx; destruct Hx as [e [<- He]]; apply filter_In in He.
      destruct He as [He Hb]; apply andb_prop in Hb; destruct Hb as [Hb1 Hb2].
      assert (Hin : In (mask_of (snd e)) (m :: ms))
        by (apply Hcov, (in_map (fun e => mask_of (snd e))), filter_In; split; assumption).
      destruct Hin as [E|E]; [|exact E].
      rewrite <- E, (proj2 (mask_eqb_spec m m) eq_refl) in Hb1; discriminate. }
    rewrite (IH es' Hnd' Hcov').
    unfold selected_names, names_of_type, es'; rewrite filter_filter_and, <- map_app.
    apply Permutation_map.
    rewrite (filter_ext (fun x => negb (mask_eqb (mask_of (snd x)) m) &&
                                  sample_type_eqb (sample_type_of (snd x)) t)
                        (fun x => sample_type_eqb (sample_type_of (snd x)) t &&
                                  negb (mask_eqb (mask_of (snd x)) m)))
      by (intros x; apply andb_comm).
    apply perm_filter_split.
Qed.

(** With bcl2fastq, the sub-samplesheets of a sample type together include
    every sample of that type of every lane exactly once. *)
Theorem bcl2fastq_selection_partition (t : sample_type) (st : sample_table)
    (sels : list (list (string * list string) * list (string * mask)))
    (lane : string) (es : list (string * classification)) :
  NoDup (map fst st) -> In (lane, es) st -> selections bcl2fastq t st = Ok sels ->
  Permutation (concat (map (fun sel => included (fst sel) lane) sels)) (names_of_type t es).
Proof.
  intros Hnd Hin; unfold selections.
  destruct (demux_number bcl2fastq (lane_table_of t st)) as [n|e] eqn:Hn; cbn [bind]; [|discriminate].
  intros H; injection H as <-.
  assert (Hi : forall i, included (fst (select_bcl2fastq t st (lane_table_of t st) i)) lane =
    match dict_get (lane_table_of t st) lane with
    | Some ms => match nth_error ms i with Some m => selected_names t m es | None => [] end
    | None => []
    end).
  { intros i; unfold select_bcl2fastq; rewrite select_bcl2fastq_fold; cbn [app].
    exact (concat_keyed_unique st (fun le =>
      match dict_get (lane_table_of t st) (fst le) with
      | Some ms => match nth_error ms i with Some m => selected_names t m (snd le) | None => [] end
      | None => []
      end) lane es Hnd Hin). }
  rewrite map_map, (map_ext _ _ Hi).
  rewrite lane_table_of_spec in Hn |- * by exact Hnd.
  rewrite (lane_table_spec_get t st lane es Hnd Hin).
  destruct (tuples_of_type t es) as [|x xs] eqn:Ht.
  - rewrite tuples_nil_names by exact Ht.
    clear; induction (seq 0 n); [constructor | exact IHl].
  - rewrite <- Ht.
    rewrite concat_nth_seq.
    + apply masks_partition; [apply dedup_into_NoDup; constructor|].
      intros y Hy; apply dedup_into_In; right; exact Hy.
    + cbn in Hn; destruct (map snd (lane_table_spec t st)) as [|v vs] eqn:Hv; [discriminate|].
      cbn in Hn; injection Hn as <-; rewrite max_by_len_length, <- Hv.
      apply le_fold_max, in_map, (in_map snd _ (lane, _)), dict_get_Some_In.
      rewrite (lane_table_spec_get t st lane es Hnd Hin), Ht; reflexivity.
Qed.


Lemma bcl2fastq_selection_partition_witness :
  selections bcl2fastq ordinary example_table = Ok (selections_or_nil (selections bcl2fastq ordinary example_table)) /\
  Permutation (concat (map (fun sel => included (fst sel) "1")
                 (selections_or_nil (selections bcl2fastq ordinary example_table))))
              (names_of_type ordinary (snd (nth 0 example_table ("", [])))).
Proof.
  split; [vm_compute; reflexivity|].
  apply (bcl2fastq_selection_partition ordinary example_table); [cbn; constructor; [intros [H|[]]; discriminate H | constructor; [intros [] | constructor]] | left; reflexivity |].
  vm_compute; reflexivity.
Defined.


End SelectProofs.


Module IndexFilesProofs.
Import Py PyStr Classify Partition StatsMerge StatsProofs HtmlProofs Subset IndexFiles.
Local Open Scope string_scope.

Lemma index_fields_cons (line : string) : exists k rest, index_fields line = k :: rest.
Proof.
  unfold index_fields; pose proof (split_char_length "," (rstrip line)) as H.
  destruct (split_char "," (rstrip line)) as [|k rest]; [discriminate | exists k, rest; reflexivity].
Qed.

Lemma parse_10X_fold (lines : list string) (d0 : list (string * list string)) :
  exists d, fold_res (fun index_dict line =>
    let line_ := index_fields line in
    bind (nth_py line_ 0) (fun k => Ok (dict_set index_dict k (firstn 4 (skipn 1 line_)))))
    lines d0 = Ok d /\
  forall k, dict_get d k =
    match rev (filter (fun fs => String.eqb (hd "" fs) k) (map index_fields lines)) with
    | fs :: _ => Some (firstn 4 (skipn 1 fs))
    | [] => dict_get d0 k
    end.
Proof.
  revert d0; induction lines as [|x lines IH]; intros d0.
  - exists d0; split; reflexivity.
  - destruct (index_fields_cons x) as [k0 [rest Hx]].
    cbn [fold_res]; rewrite Hx; cbn [nth_py nth_error bind].
    destruct (IH (dict_set d0 k0 (firstn 4 (skipn 1 (k0 :: rest))))) as [d [Hd Hk]].
    exists d; split; [exact Hd|]; intros k; rewrite Hk.
    cbn [map filter]; rewrite Hx; cbn [hd].
    destruct (rev (filter (fun fs => String.eqb (hd "" fs) k) (map index_fields lines))) as [|fs fss] eqn:Er.
    + destruct (String.eqb_spec k0 k) as [<-|Hne]; cbn; rewrite Er; cbn.
      * apply dict_get_set_same.
      * apply dict_get_set_other; congruence.
    + destruct (String.eqb k0 k); cbn; rewrite Er; reflexivity.
Qed.

(** [_parse_10X_indexes] never fails, and maps each name to the (at most
    four) fields after the name on the last line that starts with that name. *)
Theorem parse_10X_last_line (lines : list string) :
  exists d, parse_10X_indexes lines = Ok d /\
  forall k, dict_get d k =
    match rev (filter (fun fs => String.eqb (hd "" fs) k) (map index_fields lines)) with
    | fs :: _ => Some (firstn 4 (skipn 1 fs))
    | [] => None
    end.
Proof. exact (parse_10X_fold lines []). Qed.

Lemma smartseq_step_spec (d0 : list (string * list (string * string))) (line : string) :
  smartseq_step d0 line =
  if Nat.ltb (length (index_fields line)) 3 then Raise IndexError
  else Ok (dict_set d0 (hd "" (index_fields line))
             ((match dict_get d0 (hd "" (index_fields line)) with Some qs => qs | None => [] end) ++
              [(nth 1 (index_fields line) "", nth 2 (index_fields line) "")])%list).
Proof.
  unfold smartseq_step; destruct (index_fields_cons line) as [k0 [rest Hx]]; rewrite Hx.
  cbn [nth_py nth_error bind hd].
  destruct rest as [|a [|b rest']]; destruct (dict_get d0 k0) as [[|p ps]|]; reflexivity.
Qed.

Lemma parse_smartseq_fold (lines : list string) (d0 : list (string * list (string * string))) :
  match fold_res smartseq_step lines d0 with
  | Ok d =>
      Forall (fun line => 3 <= length (index_fields line)) lines /\
      forall k, dict_get d k =
        match map (fun fs => (nth 1 fs "", nth 2 fs ""))
                  (filter (fun fs => String.eqb (hd "" fs) k) (map index_fields lines)) with
        | [] => dict_get d0 k
        | ps => Some ((match dict_get d0 k with Some qs => qs | None => [] end) ++ ps)%list
        end
  | Raise e => e = IndexError /\ Exists (fun line => length (index_fields line) < 3) lines
  end.
Proof.
  revert d0; induction lines as [|x lines IH]; intros d0.
  - cbn; split; [constructor|]; reflexivity.
  - cbn [fold_res]; rewrite smartseq_step_spec.
    destruct (Nat.ltb_spec (length (index_fields x)) 3) as [Hlt|Hge]; cbn [bind].
    + split; [reflexivity | left; exact Hlt].
    + set (k0 := hd "" (index_fields x)).
      set (old := match dict_get d0 k0 with Some qs => qs | None => [] end).
      specialize (IH (dict_set d0 k0 (old ++ [(nth 1 (index_fields x) "", nth 2 (index_fields x) "")])%list)).
      destruct (fold_res smartseq_step lines _) as [d|e].
      * destruct IH as [Hf Hk]; split; [constructor; [exact Hge | exact Hf]|].
        intros k; rewrite Hk; cbn [map filter].
        fold k0; destruct (String.eqb_spec k0 k) as [<-|Hne]; cbn [map].
        -- rewrite dict_get_set_same.
           destruct (map _ (filter _ (map index_fields lines))) as [|q qs];
             [reflexivity | rewrite <- app_assoc; reflexivity].
        -- rewrite dict_get_set_other by congruence; reflexivity.
      * destruct IH as [He Hex]; split; [exact He | right; exact Hex].
Qed.

(** [_parse_smartseq_indexes] raises [IndexError] exactly when a line has
    fewer than three fields (a blank line included); otherwise it maps each
    name to the pairs of second and third fields of all the lines starting
    with that name, in file order. *)
Theorem parse_smartseq_pairs (lines : list string) :
  match parse_smartseq_indexes lines with
  | Ok d =>
      Forall (fun line => 3 <= length (index_fields line)) lines /\
      forall k, dict_get d k =
        match map (fun fs => (nth 1 fs "", nth 2 fs ""))
                  (filter (fun fs => String.eqb (hd "" fs) k) (map index_fields lines)) with
        | [] => None
        | ps => Some ps
        end
  | Raise e => e = IndexError /\ Exists (fun line => length (index_fields line) < 3) lines
  end.
Proof.
  pose proof (parse_smartseq_fold lines []) as H; unfold parse_smartseq_indexes.
  destruct (fold_res smartseq_step lines []) as [d|e]; [|exact H].
  destruct H as [Hf Hk]; split; [exact Hf|]; intros k; rewrite Hk.
  destruct (map _ _); reflexivity.
Qed.

End IndexFilesProofs.


Module SubsetProofs.
Import Py PyStr Classify Partition StatsMerge HtmlFix StatsProofs HtmlProofs Subset.
Local Open Scope string_scope.

Lemma repeat_char_cond (c : ascii) (n : nat) :
  (if negb (Nat.eqb n 0) then repeat_char c n else "") = repeat_char c n.
Proof. destruct n; reflexivity. Qed.

Lemma rev_repeat_char (c : ascii) (n : nat) :
  rev (list_ascii_of_string (repeat_char c n)) = repeat c n.
Proof.
  induction n as [|n IH]; [reflexivity|].
  change (list_ascii_of_string (repeat_char c (S n))) with (c :: list_ascii_of_string (repeat_char c n)).
  cbn [rev]; rewrite IH; clear IH.
  induction n as [|n IH]; [reflexivity|]; cbn [repeat app]; rewrite IH; reflexivity.
Qed.

Lemma idt_repeat (c : ascii) (n : nat) :
  Ascii.eqb c "N" = false -> Ascii.eqb c "010" = false -> idt_umi_match (repeat_char c n) = false.
Proof.
  intros Hc Hnl; unfold idt_umi_match, umi_at_end; rewrite rev_repeat_char.
  destruct n as [|n]; [reflexivity|]; cbn [repeat count_leading].
  unfold is_char; rewrite Hc, Hnl; reflexivity.
Qed.

Lemma field_step_plain (ic : nat * nat) (line : dict_row) (flag : bool) (ar : list string) (f : string) :
  f <> "index" -> f <> "index2" ->
  subset_field ic (line, flag, ar) f = bind (dict_index line f) (fun v => Ok (line, flag, (ar ++ [v])%list)).
Proof.
  intros H1 H2; unfold subset_field.
  rewrite (proj2 (String.eqb_neq f "index") H1), (proj2 (String.eqb_neq f "index2") H2); reflexivity.
Qed.

Lemma field_step_normal (ic : nat * nat) (line : dict_row) (ar : list string) (f w : string) :
  dict_get line f = Some w -> (f = "index" -> contains "NOINDEX" (upper w) = false) ->
  subset_field ic (line, false, ar) f =
  Ok (if (String.eqb f "index" || String.eqb f "index2") && idt_umi_match w
      then dict_set line f (remove_char "N" w) else line, false, (ar ++ [written_value f w])%list).
Proof.
  intros Hw Hn; unfold subset_field, written_value, dict_index.
  destruct (String.eqb_spec f "index") as [->|H1].
  - cbn [String.eqb Ascii.eqb Bool.eqb andb orb]; rewrite Hw; cbn [bind]; rewrite (Hn eq_refl).
    cbn [String.eqb Ascii.eqb Bool.eqb andb orb bind]; rewrite Hw; cbn [bind].
    destruct (idt_umi_match w); cbn [bind]; [rewrite dict_get_set_same|rewrite Hw]; reflexivity.
  - destruct (String.eqb_spec f "index2") as [->|H2]; cbn [String.eqb Ascii.eqb Bool.eqb bind andb orb].
    + rewrite Hw; cbn [bind]; destruct (idt_umi_match w); cbn [bind];
        [rewrite dict_get_set_same|rewrite Hw]; reflexivity.
    + rewrite Hw; reflexivity.
Qed.

Lemma field_step_noindex (ic : nat * nat) (line : dict_row) (flag : bool) (ar : list string) (w : string) :
  dict_get line "index" = Some w -> contains "NOINDEX" (upper w) = true ->
  subset_field ic (line, flag, ar) "index" =
  Ok (dict_set line "index" (repeat_char "T" (fst ic)), true, (ar ++ [repeat_char "T" (fst ic)])%list).
Proof.
  intros Hw Hn; unfold subset_field, dict_index; cbn [String.eqb Ascii.eqb Bool.eqb andb orb].
  rewrite Hw; cbn [bind]; rewrite Hn.
  cbn [String.eqb Ascii.eqb Bool.eqb andb orb bind]; rewrite repeat_char_cond, dict_get_set_same; cbn [bind].
  rewrite idt_repeat by reflexivity; cbn [bind]; rewrite dict_get_set_same; reflexivity.
Qed.

Lemma field_step_index2_flag (ic : nat * nat) (line : dict_row) (ar : list string) :
  subset_field ic (line, true, ar) "index2" =
  Ok (dict_set line "index2" (repeat_char "A" (snd ic)), false, (ar ++ [repeat_char "A" (snd ic)])%list).
Proof.
  unfold subset_field, dict_index; cbn [String.eqb Ascii.eqb Bool.eqb andb orb bind].
  rewrite repeat_char_cond, dict_get_set_same; cbn [bind].
  rewrite idt_repeat by reflexivity; cbn [bind]; rewrite dict_get_set_same; reflexivity.
Qed.

Lemma fold_plain (ic : nat * nat) (fs : list string) (line : dict_row) (flag : bool) (ar : list string) :
  Forall (fun f => f <> "index" /\ f <> "index2" /\ dict_get line f <> None) fs ->
  exists vs, fold_res (subset_field ic) fs (line, flag, ar) = Ok (line, flag, (ar ++ vs)%list) /\
             Forall2 (fun f v => dict_get line f = Some v) fs vs.
Proof.
  revert ar; induction fs as [|f fs IH]; intros ar Hf.
  - exists []; rewrite app_nil_r; split; constructor.
  - inversion Hf as [|? ? [H1 [H2 H3]] Hf']; subst.
    destruct (dict_get line f) as [v|] eqn:Hv; [|contradiction].
    cbn [fold_res]; rewrite field_step_plain by assumption; unfold dict_index; rewrite Hv; cbn [bind].
    destruct (IH (ar ++ [v])%list Hf') as [vs [Hvs Hfa]].
    exists (v :: vs); rewrite Hvs, <- app_assoc; split; [reflexivity | constructor; assumption].
Qed.

Lemma Forall2_in_impl {A B} (P Q : A -> B -> Prop) (l : list A) (l' : list B) :
  (forall a b, In a l -> P a b -> Q a b) -> Forall2 P l l' -> Forall2 Q l l'.
Proof.
  intros H HF; induction HF as [|a b l l' Hab HF IH]; constructor.
  - apply H; [left; reflexivity | exact Hab].
  - apply IH; intros a' b' Ha'; apply H; right; exact Ha'.
Qed.

Lemma subset_line_selected (sti : list (string * list string)) (ic : nat * nat) (dfs : list string)
    (line : dict_row) (lane n : string) (names : list string) :
  dict_get line "Lane" = Some lane -> dict_get sti lane = Some names ->
  sample_name_of line = Some n -> In n names ->
  subset_line sti ic dfs line =
  bind (fold_res (subset_field ic) dfs (line, false, []))
    (fun '((line, _, line_ar) : dict_row * bool * list string) => Ok (line, Some line_ar)).
Proof.
  intros Hl Hs Hn Hin; unfold subset_line, dict_index; rewrite Hl; cbn [bind]; rewrite Hs, Hn.
  replace (existsb (String.eqb n) names) with true; [reflexivity|].
  symmetry; apply existsb_exists; exists n; split; [exact Hin | apply String.eqb_refl].
Qed.

Lemma fold_values (ic : nat * nat) (fs : list string) (line : dict_row) (ar : list string) :
  NoDup fs -> Forall (fun f => dict_get line f <> None) fs ->
  (In "index" fs -> forall w, dict_get line "index" = Some w -> contains "NOINDEX" (upper w) = false) ->
  exists line' vs, fold_res (subset_field ic) fs (line, false, ar) = Ok (line', false, (ar ++ vs)%list) /\
    Forall2 (fun f v => exists w, dict_get line f = Some w /\ v = written_value f w /\ dict_get line' f = Some v) fs vs /\
    (forall k, ~ In k fs -> dict_get line' k = dict_get line k).
Proof.
  revert line ar; induction fs as [|f fs IH]; intros line ar Hnd Hp Hix.
  - exists line, []; rewrite app_nil_r; split; [reflexivity | split; [constructor | reflexivity]].
  - inversion Hnd as [|? ? Hf Hnd']; subst; inversion Hp as [|? ? Hv Hp']; subst.
    destruct (dict_get line f) as [w|] eqn:Hw; [|contradiction].
    assert (Hn : f = "index" -> contains "NOINDEX" (upper w) = false)
      by (intros E; subst f; apply (Hix (or_introl eq_refl)), Hw).
    set (line1 := if (String.eqb f "index" || String.eqb f "index2") && idt_umi_match w
                  then dict_set line f (remove_char "N" w) else line).
    assert (H1f : dict_get line1 f = Some (written_value f w)).
    { unfold line1, written_value; destruct ((String.eqb f "index" || String.eqb f "index2") && idt_umi_match w);
        [apply dict_get_set_same | exact Hw]. }
    assert (H1k : forall k, k <> f -> dict_get line1 k = dict_get line k).
    { intros k Hk; unfold line1; destruct (_ && _); [apply dict_get_set_other; exact Hk | reflexivity]. }
    cbn [fold_res]; rewrite (field_step_normal ic line ar f w Hw Hn); cbn [bind]; fold line1.
    destruct (IH line1 (ar ++ [written_value f w])%list Hnd') as [line' [vs [Hfold [Hvs Hkeep]]]].
    + apply Forall_forall; intros f' Hf'; rewrite H1k by (intros ->; contradiction).
      exact (proj1 (Forall_forall _ _) Hp' f' Hf').
    + intros Hin w' Hw'; apply (Hix (or_intror Hin)).
      rewrite <- H1k by (intros E; subst f; contradiction); exact Hw'.
    + exists line', (written_value f w :: vs); split; [rewrite <- app_assoc in Hfold; exact Hfold|]; split.
      * constructor.
        -- exists w; split; [exact Hw | split; [reflexivity|]]; rewrite Hkeep by exact Hf; exact H1f.
        -- apply (Forall2_in_impl _ _ _ _ (fun f' v Hf' H => H) ) in Hvs.
           revert Hvs; apply Forall2_in_impl; intros f' v Hf' [w' [Hw' Hr]].
           exists w'; rewrite <- H1k by (intros ->; contradiction); split; [exact Hw' | exact Hr].
      * intros k Hk; rewrite Hkeep by (intros H; apply Hk; right; exact H).
        apply H1k; intros ->; apply Hk; left; reflexivity.
Qed.

(** A listed row whose index does not contain NOINDEX is written with the
    row's value of every datafield, in the order of the datafields; an index
    or index2 of the IDT UMI pattern is written without its N's, and the row
    of the samplesheet object is changed to the written values. *)
Theorem subset_line_values (sti : list (string * list string)) (ic : nat * nat) (dfs : list string)
    (line : dict_row) (lane n : string) (names : list string) :
  dict_get line "Lane" = Some lane -> dict_get sti lane = Some names ->
  sample_name_of line = Some n -> In n names ->
  NoDup dfs -> Forall (fun f => dict_get line f <> None) dfs ->
  (forall w, dict_get line "index" = Some w -> contains "NOINDEX" (upper w) = false) ->
  exists line' vals, subset_line sti ic dfs line = Ok (line', Some vals) /\
    Forall2 (fun f v => exists w, dict_get line f = Some w /\ v = written_value f w /\
                                  dict_get line' f = Some v) dfs vals.
Proof.
  intros Hl Hs Hn Hin Hnd Hp Hix.
  rewrite (subset_line_selected sti ic dfs line lane n names Hl Hs Hn Hin).
  destruct (fold_values ic dfs line [] Hnd Hp (fun _ => Hix)) as [line' [vs [Hf [Hvs _]]]].
  rewrite Hf; exists line', vs; split; [reflexivity | exact Hvs].
Qed.

Lemma plain_after_set (fs : list string) (line : dict_row) (k v : string) :
  k = "index" \/ k = "index2" ->
  Forall (fun f => f <> "index" /\ f <> "index2" /\ dict_get line f <> None) fs ->
  Forall (fun f => f <> "index" /\ f <> "index2" /\ dict_get (dict_set line k v) f <> None) fs /\
  (forall vs, Forall2 (fun f x => dict_get (dict_set line k v) f = Some x) fs vs ->
              Forall2 (fun f x => dict_get line f = Some x) fs vs).
Proof.
  intros Hk Hf; split.
  - revert Hf; apply Forall_impl; intros f [H1 [H2 H3]]; split; [exact H1 | split; [exact H2|]].
    rewrite dict_get_set_other; [exact H3 | intros ->; destruct Hk; subst; contradiction].
  - intros vs; apply Forall2_in_impl; intros f v' Hin Hv.
    pose proof (proj1 (Forall_forall _ _) Hf f Hin) as [H1 [H2 _]].
    rewrite dict_get_set_other in Hv; [exact Hv | intros ->; destruct Hk; subst; contradiction].
Qed.

(** A listed row whose index contains NOINDEX (in any case) is written with
    as many T's as index-1 cycles for index and as many A's as index-2 cycles
    for index2 when index comes before index2 in the datafields, even if the
    row has no index2; the other values are the row's, and the row of the
    samplesheet object keeps the T's and A's. *)
Theorem subset_line_noindex (sti : list (string * list string)) (ic : nat * nat)
    (pre mid post : list string) (line : dict_row) (lane n w : string) (names : list string) :
  dict_get line "Lane" = Some lane -> dict_get sti lane = Some names ->
  sample_name_of line = Some n -> In n names ->
  Forall (fun f => f <> "index" /\ f <> "index2" /\ dict_get line f <> None) (pre ++ mid ++ post)%list ->
  dict_get line "index" = Some w -> contains "NOINDEX" (upper w) = true ->
  exists line' pv mv qv,
    subset_line sti ic (pre ++ "index" :: mid ++ "index2" :: post)%list line =
      Ok (line', Some (pv ++ repeat_char "T" (fst ic) :: mv ++ repeat_char "A" (snd ic) :: qv)%list) /\
    Forall2 (fun f v => dict_get line f = Some v) pre pv /\
    Forall2 (fun f v => dict_get line f = Some v) mid mv /\
    Forall2 (fun f v => dict_get line f = Some v) post qv /\
    dict_get line' "index" = Some (repeat_char "T" (fst ic)) /\
    dict_get line' "index2" = Some (repeat_char "A" (snd ic)).
Proof.
  intros Hl Hs Hn Hin Hf Hw Hno.
  rewrite (subset_line_selected sti ic _ line lane n names Hl Hs Hn Hin).
  apply Forall_app in Hf; destruct Hf as [Hpre Hf]; apply Forall_app in Hf; destruct Hf as [Hmid Hpost].
  set (T := repeat_char "T" (fst ic)); set (A := repeat_char "A" (snd ic)).
  set (line1 := dict_set line "index" T); set (line2 := dict_set line1 "index2" A).
  destruct (fold_plain ic pre line false [] Hpre) as [pv [Hpv Hpv2]].
  destruct (plain_after_set mid line "index" T (or_introl eq_refl) Hmid) as [Hmid1 Hback1].
  destruct (fold_plain ic mid line1 true (pv ++ [T])%list Hmid1) as [mv [Hmv Hmv2]].
  destruct (plain_after_set post line "index" T (or_introl eq_refl) Hpost) as [Hpost1 Hback1'].
  destruct (plain_after_set post line1 "index2" A (or_intror eq_refl) Hpost1) as [Hpost2 Hback2].
  destruct (fold_plain ic post line2 false (((pv ++ [T]) ++ mv) ++ [A])%list Hpost2) as [qv [Hqv Hqv2]].
  rewrite fold_res_app, Hpv; cbn [bind fold_res app].
  rewrite (field_step_noindex ic line false pv w Hw Hno); cbn [bind]; fold T line1.
  rewrite fold_res_app, Hmv; cbn [bind fold_res].
  rewrite field_step_index2_flag; cbn [bind]; fold A line2.
  rewrite Hqv; cbn [bind].
  exists line2, pv, mv, qv; split.
  - cbn [app]; rewrite <- !app_assoc; reflexivity.
  - split; [exact Hpv2|]; split; [exact (Hback1 _ Hmv2)|]; split; [exact (Hback1' _ (Hback2 _ Hqv2))|].
    unfold line2, line1; split; [rewrite dict_get_set_other by discriminate; apply dict_get_set_same|].
    apply dict_get_set_same.
Qed.

(** When index2 comes before index in the datafields, a NOINDEX row keeps
    its own index2 (only an IDT UMI one loses its N's); index is still
    written as T's. *)
Theorem subset_line_index2_first (sti : list (string * list string)) (ic : nat * nat)
    (pre mid post : list string) (line : dict_row) (lane n w u : string) (names : list string) :
  dict_get line "Lane" = Some lane -> dict_get sti lane = Some names ->
  sample_name_of line = Some n -> In n names ->
  Forall (fun f => f <> "index" /\ f <> "index2" /\ dict_get line f <> None) (pre ++ mid ++ post)%list ->
  dict_get line "index" = Some w -> contains "NOINDEX" (upper w) = true ->
  dict_get line "index2" = Some u ->
  exists line' pv mv qv,
    subset_line sti ic (pre ++ "index2" :: mid ++ "index" :: post)%list line =
      Ok (line', Some (pv ++ written_value "index2" u :: mv ++ repeat_char "T" (fst ic) :: qv)%list) /\
    Forall2 (fun f v => dict_get line f = Some v) pre pv /\
    Forall2 (fun f v => dict_get line f = Some v) mid mv /\
    Forall2 (fun f v => dict_get line f = Some v) post qv /\
    dict_get line' "index2" = Some (written_value "index2" u) /\
    dict_get line' "index" = Some (repeat_char "T" (fst ic)).
Proof.
  intros Hl Hs Hn Hin Hf Hw Hno Hu.
  rewrite (subset_line_selected sti ic _ line lane n names Hl Hs Hn Hin).
  apply Forall_app in Hf; destruct Hf as [Hpre Hf]; apply Forall_app in Hf; destruct Hf as [Hmid Hpost].
  set (T := repeat_char "T" (fst ic)).
  set (line1 := if (String.eqb "index2" "index" || String.eqb "index2" "index2") && idt_umi_match u
                then dict_set line "index2" (remove_char "N" u) else line).
  assert (H1 : forall f, f <> "index2" -> dict_get line1 f = dict_get line f).
  { intros f Hne; unfold line1; destruct (_ && _); [apply dict_get_set_other, Hne | reflexivity]. }
  assert (H1u : dict_get line1 "index2" = Some (written_value "index2" u)).
  { unfold line1, written_value; destruct (_ && _); [apply dict_get_set_same | exact Hu]. }
  assert (Hmid1 : Forall (fun f => f <> "index" /\ f <> "index2" /\ dict_get line1 f <> None) mid).
  { revert Hmid; apply Forall_impl; intros f [Ha [Hb Hc]]; rewrite H1 by exact Hb; tauto. }
  set (line2 := dict_set line1 "index" T).
  assert (Hpost2 : Forall (fun f => f <> "index" /\ f <> "index2" /\ dict_get line2 f <> None) post).
  { revert Hpost; apply Forall_impl; intros f [Ha [Hb Hc]]; unfold line2.
    rewrite dict_get_set_other, H1 by assumption; tauto. }
  destruct (fold_plain ic pre line false [] Hpre) as [pv [Hpv Hpv2]].
  destruct (fold_plain ic mid line1 false (pv ++ [written_value "index2" u])%list Hmid1) as [mv [Hmv Hmv2]].
  destruct (fold_plain ic post line2 true
              (((pv ++ [written_value "index2" u]) ++ mv) ++ [T])%list Hpost2) as [qv [Hqv Hqv2]].
  rewrite fold_res_app, Hpv; cbn [bind fold_res app].
  rewrite (field_step_normal ic line pv "index2" u Hu) by discriminate; cbn [bind]; fold line1.
  rewrite fold_res_app, Hmv; cbn [bind fold_res].
  rewrite (field_step_noindex ic line1 false _ w) by first [exact Hno | rewrite H1 by discriminate; exact Hw];
    cbn [bind]; fold T line2.
  rewrite Hqv; cbn [bind].
  exists line2, pv, mv, qv; split.
  - cbn [app]; rewrite <- !app_assoc; reflexivity.
  - split; [exact Hpv2|]; split.
    + revert Hmv2; apply Forall2_in_impl; intros f v Hf' Hv.
      pose proof (proj1 (Forall_forall _ _) Hmid f Hf') as [_ [Hb _]]; rewrite <- H1 by exact Hb; exact Hv.
    + split.
      * revert Hqv2; apply Forall2_in_impl; intros f v Hf' Hv.
        pose proof (proj1 (Forall_forall _ _) Hpost f Hf') as [Ha [Hb _]].
        unfold line2 in Hv; rewrite dict_get_set_other, H1 in Hv by assumption; exact Hv.
      * unfold line2; split; [rewrite dict_get_set_other by discriminate; exact H1u | apply dict_get_set_same].
Qed.

Lemma bind_keyerror {A B} (m : result A) (f : A -> result B) (e : exc) :
  (forall e', m = Raise e' -> e' = KeyError) ->
  (forall a e', f a = Raise e' -> e' = KeyError) ->
  bind m f = Raise e -> e = KeyError.
Proof.
  destruct m as [a|e']; cbn; intros H1 H2 E; [exact (H2 a e E) | injection E as <-; exact (H1 e' eq_refl)].
Qed.

Lemma dict_index_keyerror (d : dict_row) (k : string) (e : exc) :
  dict_index d k = Raise e -> e = KeyError.
Proof.
  unfold dict_index; destruct (dict_get d k); [discriminate | congruence].
Qed.

Lemma subset_field_error (ic : nat * nat) (acc : dict_row * bool * list string) (f : string) (e : exc) :
  subset_field ic acc f = Raise e -> e = KeyError.
Proof.
  destruct acc as [[line flag] ar]; unfold subset_field.
  apply bind_keyerror.
  - intros e'; destruct (String.eqb f "index"); [|discriminate].
    apply bind_keyerror; [apply dict_index_keyerror | discriminate].
  - intros [l nf] e'.
    destruct (String.eqb f "index2" && nf); cbn zeta;
    (apply bind_keyerror;
     [ intros e''; destruct (String.eqb f "index" || String.eqb f "index2");
       [apply bind_keyerror; [apply dict_index_keyerror | discriminate] | discriminate]
     | intros l' e''; apply bind_keyerror; [apply dict_index_keyerror | discriminate]]).
Qed.

Lemma fold_res_keyerror {A B} (f : A -> B -> result A) (l : list B) (a : A) (e : exc) :
  (forall a x e, f a x = Raise e -> e = KeyError) -> fold_res f l a = Raise e -> e = KeyError.
Proof.
  intros Hf; revert a; induction l as [|x l IH]; intros a; cbn; [discriminate|].
  destruct (f a x) eqn:E; cbn; [apply IH | intros H; injection H as <-; exact (Hf _ _ _ E)].
Qed.

Lemma subset_line_cases (sti : list (string * list string)) (ic : nat * nat) (dfs : list string)
    (line : dict_row) :
  match subset_line sti ic dfs line with
  | Ok (line', w) => dict_get line "Lane" <> None /\
      (is_included sti line = false -> line' = line /\ w = None) /\
      (is_included sti line = true -> w <> None)
  | Raise e => e = KeyError
  end.
Proof.
  unfold subset_line, is_included, dict_index.
  destruct (dict_get line "Lane") as [lane|]; cbn [bind]; [|reflexivity].
  destruct (dict_get sti lane) as [names|]; [|repeat split; try discriminate; destruct (sample_name_of line); discriminate].
  destruct (sample_name_of line) as [n|]; [|repeat split; discriminate].
  destruct (existsb (String.eqb n) names); [|repeat split; discriminate].
  destruct (fold_res (subset_field ic) dfs (line, false, [])) as [[[line' flag] ar]|e] eqn:E; cbn [bind].
  - repeat split; discriminate.
  - exact (fold_res_keyerror _ _ _ _ (subset_field_error ic) E).
Qed.

Lemma subset_data_fold (sti : list (string * list string)) (ic : nat * nat) (dfs : list string)
    (data data0 : list dict_row) (out0 : list string) :
  match fold_res (fun '((data', out) : list dict_row * list string) line =>
    bind (subset_line sti ic dfs line) (fun '(line', w) =>
    Ok ((data' ++ [line'])%list,
        match w with Some line_ar => (out ++ [join "," line_ar])%list | None => out end)))
    data (data0, out0) with
  | Ok (data', out) =>
      exists dataN, data' = (data0 ++ dataN)%list /\
      Forall (fun line => dict_get line "Lane" <> None) data /\
      Forall2 (fun line line' => is_included sti line = false -> line' = line) data dataN /\
      length out = length out0 + length (filter (is_included sti) data)
  | Raise e => e = KeyError
  end.
Proof.
  revert data0 out0; induction data as [|line data IH]; intros data0 out0; cbn [fold_res].
  - exists []; rewrite app_nil_r; cbn; repeat split; [constructor | constructor | lia].
  - pose proof (subset_line_cases sti ic dfs line) as Hc.
    destruct (subset_line sti ic dfs line) as [[line' w]|e]; cbn [bind]; [|exact Hc].
    destruct Hc as [Hl [Hno Hyes]].
    specialize (IH (data0 ++ [line'])%list
                  (match w with Some line_ar => (out0 ++ [join "," line_ar])%list | None => out0 end)).
    destruct (fold_res _ data _) as [[data' out]|e]; [|exact IH].
    destruct IH as [dataN [-> [Hf [H2 Hlen]]]].
    exists (line' :: dataN); rewrite <- app_assoc; split; [reflexivity|].
    split; [constructor; assumption|]; split; [constructor; [intros H; apply Hno, H | exact H2]|].
    rewrite Hlen; cbn [filter].
    destruct (is_included sti line) eqn:Ei.
    + destruct w as [ar|]; [|exfalso; apply (Hyes eq_refl); reflexivity].
      rewrite length_app; cbn; lia.
    + destruct (Hno eq_refl) as [_ ->]; reflexivity.
Qed.

(** [_generate_samplesheet_subset] writes one line per row listed in
    [samples_to_include] and leaves every other row of the samplesheet
    object as it was; its only error is a [KeyError] (a row without a Lane,
    or a listed row without one of the datafields). *)
Theorem subset_data_rows (sti : list (string * list string)) (ic : nat * nat) (dfs : list string)
    (data : list dict_row) :
  match subset_data sti ic dfs data with
  | Ok (data', out) =>
      Forall (fun line => dict_get line "Lane" <> None) data /\
      Forall2 (fun line line' => is_included sti line = false -> line' = line) data data' /\
      length out = length (filter (is_included sti) data)
  | Raise e => e = KeyError
  end.
Proof.
  pose proof (subset_data_fold sti ic dfs data [] []) as H; unfold subset_data.
  destruct (fold_res _ data ([], [])) as [[data' out]|e]; [|exact H].
  destruct H as [dataN [-> [H1 [H2 H3]]]]; split; [exact H1 | split; [exact H2 | exact H3]].
Qed.

Lemma subset_line_values_witness :
  exists line' vals,
    subset_line [("1", ["S1"])] (8, 8) ["Lane"; "Sample_Name"; "index"; "index2"]
      [("Lane", "1"); ("Sample_Name", "S1"); ("index", "ACGT"); ("index2", "GGTT")] =
      Ok (line', Some vals) /\
    Forall2 (fun f v => exists w,
               dict_get [("Lane", "1"); ("Sample_Name", "S1"); ("index", "ACGT"); ("index2", "GGTT")] f = Some w /\
               v = written_value f w /\ dict_get line' f = Some v)
      ["Lane"; "Sample_Name"; "index"; "index2"] vals.
Proof.
  apply (subset_line_values [("1", ["S1"])] (8, 8) ["Lane"; "Sample_Name"; "index"; "index2"]
           [("Lane", "1"); ("Sample_Name", "S1"); ("index", "ACGT"); ("index2", "GGTT")]
           "1" "S1" ["S1"]).
  - reflexivity.
  - reflexivity.
  - reflexivity.
  - left; reflexivity.
  - repeat constructor; cbn; intuition discriminate.
  - repeat constructor; cbn; discriminate.
  - intros w H; injection H as <-; reflexivity.
Defined.

Lemma subset_line_noindex_witness :
  exists line' pv mv qv,
    subset_line [("1", ["S1"])] (8, 8) (["Lane"] ++ "index" :: ["Sample_Name"] ++ "index2" :: [])%list
      [("Lane", "1"); ("Sample_Name", "S1"); ("index", "NoIndex")] =
      Ok (line', Some (pv ++ repeat_char "T" (fst (8, 8)) :: mv ++ repeat_char "A" (snd (8, 8)) :: qv)%list) /\
    Forall2 (fun f v => dict_get [("Lane", "1"); ("Sample_Name", "S1"); ("index", "NoIndex")] f = Some v) ["Lane"] pv /\
    Forall2 (fun f v => dict_get [("Lane", "1"); ("Sample_Name", "S1"); ("index", "NoIndex")] f = Some v) ["Sample_Name"] mv /\
    Forall2 (fun f v => dict_get [("Lane", "1"); ("Sample_Name", "S1"); ("index", "NoIndex")] f = Some v) [] qv /\
    dict_get line' "index" = Some (repeat_char "T" (fst (8, 8))) /\
    dict_get line' "index2" = Some (repeat_char "A" (snd (8, 8))).
Proof.
  apply (subset_line_noindex [("1", ["S1"])] (8, 8) ["Lane"] ["Sample_Name"] []
           [("Lane", "1"); ("Sample_Name", "S1"); ("index", "NoIndex")] "1" "S1" "NoIndex" ["S1"]).
  - reflexivity.
  - reflexivity.
  - reflexivity.
  - left; reflexivity.
  - repeat constructor; cbn; discriminate.
  - reflexivity.
  - reflexivity.
Defined.

Lemma subset_line_index2_first_witness :
  exists line' pv mv qv,
    subset_line [("1", ["S1"])] (8, 8) (["Lane"] ++ "index2" :: [] ++ "index" :: ["Sample_Name"])%list
      [("Lane", "1"); ("Sample_Name", "S1"); ("index", "NoIndex"); ("index2", "NNACGT")] =
      Ok (line', Some (pv ++ written_value "index2" "NNACGT" :: mv ++ repeat_char "T" (fst (8, 8)) :: qv)%list) /\
    Forall2 (fun f v => dict_get [("Lane", "1"); ("Sample_Name", "S1"); ("index", "NoIndex"); ("index2", "NNACGT")] f = Some v) ["Lane"] pv /\
    Forall2 (fun f v => dict_get [("Lane", "1"); ("Sample_Name", "S1"); ("index", "NoIndex"); ("index2", "NNACGT")] f = Some v) [] mv /\
    Forall2 (fun f v => dict_get [("Lane", "1"); ("Sample_Name", "S1"); ("index", "NoIndex"); ("index2", "NNACGT")] f = Some v) ["Sample_Name"] qv /\
    dict_get line' "index2" = Some (written_value "index2" "NNACGT") /\
    dict_get line' "index" = Some (repeat_char "T" (fst (8, 8))).
Proof.
  apply (subset_line_index2_first [("1", ["S1"])] (8, 8) ["Lane"] [] ["Sample_Name"]
           [("Lane", "1"); ("Sample_Name", "S1"); ("index", "NoIndex"); ("index2", "NNACGT")]
           "1" "S1" "NoIndex" "NNACGT" ["S1"]).
  - reflexivity.
  - reflexivity.
  - reflexivity.
  - left; reflexivity.
  - repeat constructor; cbn; discriminate.
  - reflexivity.
  - reflexivity.
  - reflexivity.
Defined.

End SubsetProofs.
